(** * Retrieval-and-extraction pipeline of the Legal Documentation Assistant

    Shallow embedding of [server/document_embedding.py],
    [server/document_retrieval.py], [server/chatbot_model.py] and the
    routes of [server/app.py] that query, chat, upload and manage
    documents, followed by the properties of the pipeline.

    Conventions.
    - Python [str] is [string]; one [ascii] stands for one character.
    - Python [int] is [Z]; list positions are [nat].
    - Python [float] scores (distances, similarities, logits) are exact
      rationals [Q]; [float('-inf')] is the extra point [NegInf] of [Score].
    - A Python exception is [Raise msg], where [msg] is [str(e)].
    - Calls to the collaborators (vector index, tokenizer, QA network,
      [torch.topk]) are recorded in a call log, so that "is never called"
      and "whichever call raises" are statements about the log.
    - [torch.topk] fixes no order among equal scores; it is a collaborator
      of the model about which nothing is assumed, and the sample networks
      have scores without ties. *)

From Stdlib Require Import String Ascii List ZArith QArith Lia Bool DecimalString.
From Stdlib Require Import Sorting.Sorted Sorting.Permutation.
Import ListNotations.

Set Implicit Arguments.

(* ------------------------------------------------------------------ *)
(** * Python runtime fragments *)
(* ------------------------------------------------------------------ *)

Module Py.

(** Outcome of evaluating a Python expression. *)
Inductive Exc (A : Type) : Type :=
| Ok (a : A)
| Raise (msg : string).
Arguments Ok {A} a.
Arguments Raise {A} msg.

Definition exc_bind {A B} (x : Exc A) (f : A -> Exc B) : Exc B :=
  match x with
  | Ok a => f a
  | Raise e => Raise e
  end.

(** Messages of the built-in exceptions the pipeline can meet. *)
Definition index_error : string := "list index out of range".
Definition none_subscript : string := "'NoneType' object is not subscriptable".
Definition none_iterable : string := "argument of type 'NoneType' is not iterable".
Definition not_subscriptable : string := "object is not subscriptable".
Definition key_error (k : string) : string := "'" ++ k ++ "'".

(** Collaborator calls that are observable from outside the pipeline. *)
Inductive Event : Type :=
| CallStoreQuery (query_text : string) (n_results : Z)
| CallEncode (text : string)
| CallTokenizer (question chunk : string)
| CallModel (input_ids : list Z)
| CallTopk (scores : list Q) (k : nat)
| CallDecode (skip_special : bool) (tokens : list Z)
| CallAnswerQuestion (question context : string).

(** Computations: the calls made so far, and a value or an exception. *)
Definition M (A : Type) : Type := (list Event * Exc A)%type.

Definition ret {A} (a : A) : M A := ([], Ok a).
Definition throw {A} (msg : string) : M A := ([], Raise msg).
Definition lift {A} (x : Exc A) : M A := ([], x).
Definition call {A} (ev : Event) (x : Exc A) : M A := ([ev], x).

Definition bind {A B} (m : M A) (f : A -> M B) : M B :=
  match m with
  | (l, Ok a) => let (l', r) := f a in (l ++ l', r)
  | (l, Raise e) => (l, Raise e)
  end.

(** [try: m  except Exception as e: handler(str(e))] *)
Definition try_except {A} (m : M A) (handler : string -> A) : list Event * A :=
  match m with
  | (l, Ok a) => (l, a)
  | (l, Raise e) => (l, handler e)
  end.

Definition calls {A} (m : list Event * A) : list Event := fst m.
Definition value {A} (m : list Event * A) : A := snd m.

Declare Scope py_scope.
Delimit Scope py_scope with py.
Notation "x <- m ;; k" := (bind m (fun x => k))
  (at level 61, m at next level, right associativity) : py_scope.
Notation "' pat <- m ;; k" := (bind m (fun x => match x with pat => k end))
  (at level 61, pat pattern, m at next level, right associativity) : py_scope.

(** ** Scores *)

Inductive Score : Type :=
| NegInf
| Fin (q : Q).

(** [a > b] on scores. *)
Definition score_gt (a b : Score) : bool :=
  match a, b with
  | NegInf, _ => false
  | Fin _, NegInf => true
  | Fin x, Fin y => negb (Qle_bool x y)
  end.

(** [a < b] on rationals. *)
Definition Qlt_bool (a b : Q) : bool := negb (Qle_bool b a).

(** ** Strings *)

Definition newline : ascii := ascii_of_nat 10.

(** [str.isspace] on one character (code points below 256). *)
Definition isspace (c : ascii) : bool :=
  let n := nat_of_ascii c in
  ((9 <=? n) && (n <=? 13)) || ((28 <=? n) && (n <=? 32))
  || (n =? 133) || (n =? 160).

Fixpoint lstrip (s : string) : string :=
  match s with
  | EmptyString => EmptyString
  | String c s' => if isspace c then lstrip s' else s
  end.

Fixpoint rstrip (s : string) : string :=
  match s with
  | EmptyString => EmptyString
  | String c s' =>
      match rstrip s' with
      | EmptyString => if isspace c then EmptyString else String c EmptyString
      | r => String c r
      end
  end.

(** [s.strip()] *)
Definition strip (s : string) : string := rstrip (lstrip s).

(** Truth value of a string: [bool(s)]. *)
Definition truthy (s : string) : bool :=
  match s with
  | EmptyString => false
  | String _ _ => true
  end.

(** [len(s)] *)
Definition len (s : string) : Z := Z.of_nat (String.length s).

(** [s.split('\n')] *)
Fixpoint split_lines (s : string) : list string :=
  match s with
  | EmptyString => [EmptyString]
  | String c s' =>
      if Ascii.eqb c newline then EmptyString :: split_lines s'
      else match split_lines s' with
           | [] => [String c EmptyString]
           | p :: ps => String c p :: ps
           end
  end.

(** [sep.join(parts)] *)
Fixpoint join (sep : string) (parts : list string) : string :=
  match parts with
  | [] => EmptyString
  | [p] => p
  | p :: ps => (p ++ sep ++ join sep ps)%string
  end.

(** ** Sorting and selection *)

Section Sort.
Variable A : Type.
Variable key : A -> Q.

(** Place [x] in front of the first element whose key does not exceed
    the key of [x]. *)
Fixpoint insert_desc (x : A) (l : list A) : list A :=
  match l with
  | [] => [x]
  | y :: l' =>
      if Qlt_bool (key x) (key y) then y :: insert_desc x l'
      else x :: l
  end.

(** [l.sort(key=key, reverse=True)]: descending, equal keys keep their
    original order. *)
Definition sort_desc (l : list A) : list A :=
  fold_right insert_desc [] l.
End Sort.

(** [enumerate(l)] starting at [i]. *)
Fixpoint enumerate_from {A} (i : nat) (l : list A) : list (nat * A) :=
  match l with
  | [] => []
  | x :: l' => (i, x) :: enumerate_from (S i) l'
  end.

Definition enumerate {A} (l : list A) : list (nat * A) := enumerate_from 0 l.

(** [l[start:stop]] for in-range, non-negative bounds. *)
Definition slice {A} (l : list A) (start stop : nat) : list A :=
  firstn (stop - start) (skipn start l).

End Py.

Import Py.
Local Open Scope py_scope.

(* ------------------------------------------------------------------ *)
(** * The vector index as seen by the pipeline *)
(* ------------------------------------------------------------------ *)

Module Chroma.

(** Scalar metadata values. *)
Inductive MetaVal : Type :=
| MStr (s : string)
| MInt (z : Z)
| MFloat (q : Q)
| MBool (b : bool).

(** One metadata dictionary. *)
Definition Metadata : Type := list (string * MetaVal).

Fixpoint lookup (k : string) (d : Metadata) : option MetaVal :=
  match d with
  | [] => None
  | (k', v) :: d' => if String.eqb k k' then Some v else lookup k d'
  end.

(** A key of a result dictionary: absent, [None], or one row per query
    text. *)
Inductive Field (A : Type) : Type :=
| Missing
| Null
| Rows (rows : list (list A)).
Arguments Missing {A}.
Arguments Null {A}.
Arguments Rows {A} rows.

(** Result dictionary of [collection.query]. *)
Record QueryResult : Type := {
  ids : Field string;
  documents : Field (option string);
  metadatas : Field (option Metadata);
  distances : Field Q
}.

(** [results[key][0]] *)
Definition first_row {A} (key : string) (f : Field A) : Exc (list A) :=
  match f with
  | Missing => Raise (key_error key)
  | Null => Raise none_subscript
  | Rows [] => Raise index_error
  | Rows (r :: _) => Ok r
  end.

(** [row[i]] *)
Definition item {A} (row : list A) (i : nat) : Exc A :=
  match nth_error row i with
  | Some a => Ok a
  | None => Raise index_error
  end.

(** The [query] method of a collection: [None], or a result dictionary,
    or an exception. *)
Definition Query : Type := string -> Z -> Exc (option QueryResult).

End Chroma.

Import Chroma.

(* ------------------------------------------------------------------ *)
(** * document_retrieval.py *)
(* ------------------------------------------------------------------ *)

Module DocumentRetrieval.

Record Match : Type := {
  id : string;
  text : string;
  metadata : option Metadata;
  similarity : Q;
  raw_distance : option Q
}.

(** The returned dictionary: ["matches"], and ["error"] when present. *)
Record Envelope : Type := {
  matches : list Match;
  error : option string
}.

(** The value of [doc_text] while one result is formatted. *)
Inductive TextVal : Type :=
| TNone
| TStr (s : string)
| TScalar.

Definition text_of_document (d : option string) : TextVal :=
  match d with
  | None => TNone
  | Some s => TStr s
  end.

Definition text_of_meta (v : MetaVal) : TextVal :=
  match v with
  | MStr s => TStr s
  | _ => TScalar
  end.

(** [not doc_text] *)
Definition text_falsy (t : TextVal) : bool :=
  match t with
  | TNone => true
  | TStr s => negb (truthy s)
  | TScalar => false
  end.

Section Retrieve.
Variable collection_query : Query.

(** ['distances' in results and i < len(results['distances'][0])],
    together with [results['distances'][0][i]] when it holds. *)
Definition distance_at (results : QueryResult) (i : nat) : Exc (option Q) :=
  match distances results with
  | Missing => Ok None
  | f => exc_bind (first_row "distances" f) (fun row => Ok (nth_error row i))
  end.

(** [results['metadatas'][0][i] if 'metadatas' in results and
    results['metadatas'] and i < len(results['metadatas'][0]) else {}] *)
Definition metadata_at (results : QueryResult) (i : nat) : option Metadata :=
  match metadatas results with
  | Rows (row :: _) =>
      match nth_error row i with
      | Some m => m
      | None => Some []
      end
  | _ => Some []
  end.

(** [if not doc_text and 'text' in doc_metadata:
       doc_text = doc_metadata['text']] *)
Definition consistent_text (doc_text : TextVal) (doc_metadata : option Metadata)
  : Exc TextVal :=
  if text_falsy doc_text then
    match doc_metadata with
    | None => Raise none_iterable
    | Some d =>
        match lookup "text" d with
        | Some v => Ok (text_of_meta v)
        | None => Ok doc_text
        end
    end
  else Ok doc_text.

(** [doc_text[:100]] inside the log line: only a string can be sliced. *)
Definition loggable_text (t : TextVal) : Exc string :=
  match t with
  | TNone => Raise none_subscript
  | TStr s => Ok s
  | TScalar => Raise not_subscriptable
  end.

(** One iteration of the loop over [enumerate(results['ids'][0])]:
    [None] stands for [continue]. *)
Definition format_match (results : QueryResult) (similarity_threshold : Q)
           (i : nat) (doc_id : string) : Exc (option Match) :=
  exc_bind (distance_at results i) (fun dist =>
  if match dist with
     | Some d => Qlt_bool (1 - d) similarity_threshold
     | None => false
     end
  then Ok None
  else
    exc_bind (first_row "documents" (documents results)) (fun docs =>
    exc_bind (item docs i) (fun doc =>
    let doc_metadata := metadata_at results i in
    exc_bind (consistent_text (text_of_document doc) doc_metadata) (fun doc_text =>
    let relevance := match dist with Some d => 1 - d | None => 0 end in
    exc_bind (loggable_text doc_text) (fun s =>
    Ok (Some {| id := doc_id;
                text := s;
                metadata := doc_metadata;
                similarity := relevance;
                raw_distance := dist |})))))).

(** The loop: matches are appended in the order of the store. *)
Fixpoint collect_matches (results : QueryResult) (similarity_threshold : Q)
         (todo : list (nat * string)) (acc : list Match) : Exc (list Match) :=
  match todo with
  | [] => Ok acc
  | (i, doc_id) :: todo' =>
      exc_bind (format_match results similarity_threshold i doc_id) (fun m =>
      collect_matches results similarity_threshold todo'
        match m with
        | Some x => acc ++ [x]
        | None => acc
        end)
  end.

(** [not results or 'documents' not in results or not results['documents']
    or not results['documents'][0]] *)
Definition no_documents (results : option QueryResult) : bool :=
  match results with
  | None => true
  | Some r =>
      match documents r with
      | Rows ((_ :: _) :: _) => false
      | _ => true
      end
  end.

(** The body of the [try] block. *)
Definition retrieve_body (query : string) (top_k : Z) (similarity_threshold : Q)
  : M Envelope :=
  results <- call (CallStoreQuery query top_k) (collection_query query top_k) ;;
  match results with
  | None => ret {| matches := []; error := None |}
  | Some r =>
      if no_documents results then ret {| matches := []; error := None |}
      else
        ids_row <- lift (first_row "ids" (ids r)) ;;
        found <- lift (collect_matches r similarity_threshold (enumerate ids_row) []) ;;
        ret {| matches := sort_desc similarity found; error := None |}
  end.

Definition retrieve_documents (query : string) (top_k : Z) (similarity_threshold : Q)
  : list Event * Envelope :=
  if negb (truthy query) then ([], {| matches := []; error := None |})
  else
    try_except (retrieve_body query top_k similarity_threshold)
               (fun e => {| matches := []; error := Some e |}).

(** [retrieve_documents(query)] with the default arguments. *)
Definition default_top_k : Z := 5.
Definition default_similarity_threshold : Q := 7 # 10.

End Retrieve.

End DocumentRetrieval.

(* ------------------------------------------------------------------ *)
(** * chatbot_model.py *)
(* ------------------------------------------------------------------ *)

Module ChatbotModel.

(** The collaborators held by an [EnhancedQAModel] instance. *)
Record QAModel : Type := {
  (** [self.collection.query(query_texts=[q], n_results=k)] *)
  collection_query : Query;
  (** [self.tokenizer.encode(text, add_special_tokens=False)] *)
  encode : string -> Exc (list Z);
  (** [self.tokenizer(question, chunk, max_length=512, truncation=True,
      padding="max_length").input_ids[0]] *)
  tokenizer : string -> string -> Exc (list Z);
  (** [self.tokenizer.decode(tokens, skip_special_tokens=b)] *)
  decode : bool -> list Z -> Exc string;
  (** [self.model] applied to the encoded window: start and end logits of the window *)
  model : list Z -> Exc (list Q * list Q);
  (** [torch.topk(v, k).indices.tolist()]: positions of the [k] largest
      entries of [v], largest first. The library fixes no order among
      equal entries, so nothing is assumed about it here. *)
  topk : list Q -> nat -> Exc (list nat)
}.

Record AnswerResult : Type := {
  answer : string;
  confidence : Score;
  has_answer : bool
}.

Record Document : Type := {
  text : option string;
  metadata : option Metadata;
  distance : Q;
  id : string
}.

(** An element of the [documents] list of [process_query]. *)
Inductive DocItem : Type :=
| Retrieved (d : Document)
| TextDict (v : option string)
| PlainStr (s : string)
| Other (str_of : Exc string).

Definition no_context_result : AnswerResult :=
  {| answer := "No context provided to answer the question.";
     confidence := Fin 0;
     has_answer := false |}.

Definition not_found_result : AnswerResult :=
  {| answer := "I couldn't find an answer to your question in the provided documents.";
     confidence := Fin 0;
     has_answer := false |}.

Definition no_documents_result : AnswerResult :=
  {| answer := "No relevant documents found to answer your question.";
     confidence := Fin 0;
     has_answer := false |}.

Definition question_error_result (e : string) : AnswerResult :=
  {| answer := "Error processing your question: " ++ e;
     confidence := Fin 0;
     has_answer := false |}.

Definition query_error_result (e : string) : AnswerResult :=
  {| answer := "Error processing your query: " ++ e;
     confidence := Fin 0;
     has_answer := false |}.

(** [f"doc_{i}"] *)
Definition doc_label (i : nat) : string :=
  "doc_" ++ DecimalString.NilEmpty.string_of_uint (Nat.to_uint i).

(** State of the paragraph loop. *)
Record ChunkState : Type := {
  context_chunks : list string;
  current_chunk : string;
  current_length : Z
}.

(** State of the span search. *)
Record Best : Type := {
  best_answer : string;
  best_confidence : Score
}.

Definition max_length : Z := 512.
Definition top_k : nat := 10.
Definition default_max_answer_length : Z := 100.

Section Methods.
Variable self : QAModel.

(** ** retrieve_documents *)

(** [results.get(key, [[]])[0][i] if results.get(key) else default] *)
Definition get_or {A} (f : Field A) (i : nat) (default : A) : Exc A :=
  match f with
  | Rows (row :: _) => item row i
  | _ => Ok default
  end.

Fixpoint build_documents (r : QueryResult) (todo : list (nat * option string))
  : Exc (list Document) :=
  match todo with
  | [] => Ok []
  | (i, doc) :: todo' =>
      exc_bind (get_or (metadatas r) i (Some [])) (fun md =>
      exc_bind (get_or (distances r) i 0) (fun dist =>
      exc_bind (get_or (ids r) i (doc_label i)) (fun doc_id =>
      exc_bind (build_documents r todo') (fun rest =>
      Ok ({| text := doc; metadata := md; distance := dist; id := doc_id |}
            :: rest)))))
  end.

Definition retrieve_documents (query : string) (n_results : Z)
  : list Event * list Document :=
  try_except
    (results <- call (CallStoreQuery query n_results)
                     (collection_query self query n_results) ;;
     match results with
     | None => throw none_subscript
     | Some r =>
         docs <- lift (first_row "documents" (documents r)) ;;
         lift (build_documents r (enumerate docs))
     end)
    (fun _ => []).

(** ** answer_question *)

(** The loop over [context.split('\n')]. *)
Fixpoint split_paragraphs (max_context_tokens : Z) (paragraphs : list string)
         (st : ChunkState) : M ChunkState :=
  match paragraphs with
  | [] => ret st
  | paragraph :: rest =>
      if negb (truthy (strip paragraph)) then
        split_paragraphs max_context_tokens rest st
      else
        paragraph_tokens <- call (CallEncode paragraph) (encode self paragraph) ;;
        let n := Z.of_nat (length paragraph_tokens) in
        if (current_length st + n >? max_context_tokens)%Z
           && truthy (current_chunk st)
        then
          split_paragraphs max_context_tokens rest
            {| context_chunks := context_chunks st ++ [current_chunk st];
               current_chunk := paragraph;
               current_length := n |}
        else
          split_paragraphs max_context_tokens rest
            {| context_chunks := context_chunks st;
               current_chunk :=
                 if truthy (current_chunk st)
                 then (current_chunk st ++ String newline paragraph)%string
                 else paragraph;
               current_length := (current_length st + n)%Z |}
  end.

(** [context_tokens[i:i + step]] for [i] in [range(0, len, step)],
    [step > 0]. *)
Fixpoint token_windows (fuel step : nat) (tokens : list Z) : list (list Z) :=
  match fuel, tokens with
  | S fuel', _ :: _ =>
      firstn step tokens :: token_windows fuel' step (skipn step tokens)
  | _, _ => []
  end.

Fixpoint decode_all (windows : list (list Z)) : M (list string) :=
  match windows with
  | [] => ret []
  | w :: ws =>
      chunk_text <- call (CallDecode false w) (decode self false w) ;;
      rest <- decode_all ws ;;
      ret (chunk_text :: rest)
  end.

(** The split by tokens, used when the paragraph loop produced nothing. *)
Definition split_by_tokens (context : string) (max_context_tokens : Z)
  : M (list string) :=
  context_tokens <- call (CallEncode context) (encode self context) ;;
  if (max_context_tokens =? 0)%Z then throw "range() arg 3 must not be zero"
  else if (max_context_tokens <? 0)%Z then ret []
  else decode_all (token_windows (length context_tokens)
                                 (Z.to_nat max_context_tokens) context_tokens).

(** The chunks made of paragraphs: the loop, then the last chunk. *)
Definition paragraph_chunks (context : string) (max_context_tokens : Z)
  : M (list string) :=
  st <- split_paragraphs max_context_tokens (split_lines context)
          {| context_chunks := []; current_chunk := ""; current_length := 0 |} ;;
  ret (if truthy (current_chunk st)
       then context_chunks st ++ [current_chunk st]
       else context_chunks st).

Definition build_chunks (context : string) (max_context_tokens : Z)
  : M (list string) :=
  chunks <- paragraph_chunks context max_context_tokens ;;
  match chunks with
  | [] => split_by_tokens context max_context_tokens
  | _ :: _ => ret chunks
  end.

(** [end_idx < start_idx or end_idx - start_idx + 1 > max_answer_length] *)
Definition invalid_span (max_answer_length : Z) (start_idx end_idx : nat) : bool :=
  (end_idx <? start_idx)%nat
  || (Z.of_nat end_idx - Z.of_nat start_idx + 1 >? max_answer_length)%Z.

(** [float(start_logits[start_idx] + end_logits[end_idx])] *)
Definition span_score (start_logits end_logits : list Q) (start_idx end_idx : nat) : Q :=
  nth start_idx start_logits 0 + nth end_idx end_logits 0.

(** The body of the inner loop for one [(start_idx, end_idx)] pair. *)
Definition try_span (max_answer_length : Z) (input_ids : list Z)
           (start_logits end_logits : list Q) (start_idx end_idx : nat)
           (best : Best) : M Best :=
  if invalid_span max_answer_length start_idx end_idx then ret best
  else
    let confidence := span_score start_logits end_logits start_idx end_idx in
    let answer_tokens := slice input_ids start_idx (end_idx + 1) in
    answer_text <- call (CallDecode true answer_tokens)
                        (decode self true answer_tokens) ;;
    if negb (truthy (strip answer_text)) then ret best
    else if score_gt (Fin confidence) (best_confidence best)
         then ret {| best_answer := answer_text; best_confidence := Fin confidence |}
         else ret best.

Fixpoint scan_ends (max_answer_length : Z) (input_ids : list Z)
         (start_logits end_logits : list Q) (start_idx : nat)
         (end_indexes : list nat) (best : Best) : M Best :=
  match end_indexes with
  | [] => ret best
  | end_idx :: rest =>
      best' <- try_span max_answer_length input_ids start_logits end_logits
                        start_idx end_idx best ;;
      scan_ends max_answer_length input_ids start_logits end_logits
                start_idx rest best'
  end.

Fixpoint scan_starts (max_answer_length : Z) (input_ids : list Z)
         (start_logits end_logits : list Q)
         (start_indexes end_indexes : list nat) (best : Best) : M Best :=
  match start_indexes with
  | [] => ret best
  | start_idx :: rest =>
      best' <- scan_ends max_answer_length input_ids start_logits end_logits
                         start_idx end_indexes best ;;
      scan_starts max_answer_length input_ids start_logits end_logits
                  rest end_indexes best'
  end.

(** One iteration of the loop over [context_chunks]. *)
Definition scan_chunk (question : string) (max_answer_length : Z)
           (chunk : string) (best : Best) : M Best :=
  input_ids <- call (CallTokenizer question chunk) (tokenizer self question chunk) ;;
  ' (start_logits, end_logits) <- call (CallModel input_ids) (model self input_ids) ;;
  start_indexes <- call (CallTopk start_logits top_k)
                       (topk self start_logits top_k) ;;
  end_indexes <- call (CallTopk end_logits top_k)
                     (topk self end_logits top_k) ;;
  scan_starts max_answer_length input_ids start_logits end_logits
              start_indexes end_indexes best.

Fixpoint scan_chunks (question : string) (max_answer_length : Z)
         (chunks : list string) (best : Best) : M Best :=
  match chunks with
  | [] => ret best
  | chunk :: rest =>
      best' <- scan_chunk question max_answer_length chunk best ;;
      scan_chunks question max_answer_length rest best'
  end.

(** [not context or len(context.strip()) < 5] *)
Definition too_short (context : string) : bool :=
  negb (truthy context) || (len (strip context) <? 5)%Z.

(** [max_length - len(question_tokens) - 3] *)
Definition context_budget (question_tokens : list Z) : Z :=
  (max_length - Z.of_nat (length question_tokens) - 3)%Z.

(** The body of the [try] block of [answer_question]. *)
Definition answer_body (question context : string) (max_answer_length : Z)
  : M AnswerResult :=
  if too_short context then ret no_context_result
  else
    question_tokens <- call (CallEncode question) (encode self question) ;;
    let max_context_tokens := context_budget question_tokens in
    chunks <- build_chunks context max_context_tokens ;;
    best <- scan_chunks question max_answer_length chunks
              {| best_answer := ""; best_confidence := NegInf |} ;;
    if truthy (best_answer best) then
      ret {| answer := best_answer best;
             confidence := best_confidence best;
             has_answer := true |}
    else ret not_found_result.

Definition answer_question (question context : string) (max_answer_length : Z)
  : list Event * AnswerResult :=
  let (l, r) := try_except (answer_body question context max_answer_length)
                           question_error_result in
  (CallAnswerQuestion question context :: l, r).

(** ** process_query *)

(** The loop filling [all_text]; [None] is an entry that is not a [str]. *)
Fixpoint extract_text (documents : list DocItem) : list (option string) :=
  match documents with
  | [] => []
  | doc :: rest =>
      match doc with
      | Retrieved d => text d :: extract_text rest
      | TextDict v => v :: extract_text rest
      | PlainStr s => Some s :: extract_text rest
      | Other (Ok s) => Some s :: extract_text rest
      | Other (Raise _) => extract_text rest
      end
  end.

(** [sep.join(all_text)]: every entry has to be a [str]. *)
Fixpoint checked_strings (all_text : list (option string)) : Exc (list string) :=
  match all_text with
  | [] => Ok []
  | None :: _ => Raise "sequence item: expected str instance"
  | Some s :: rest => exc_bind (checked_strings rest) (fun l => Ok (s :: l))
  end.

Definition blank_line : string := String newline (String newline "").

Definition process_body (query : string) (use_retrieved_docs : bool)
           (provided_docs : option (list DocItem)) : M AnswerResult :=
  documents <-
    (if use_retrieved_docs then
       let (l, docs) := retrieve_documents query 5 in
       (l, Ok (map Retrieved docs))
     else
       ret match provided_docs with
           | Some docs => docs
           | None => []
           end) ;;
  match documents with
  | [] => ret no_documents_result
  | _ :: _ =>
      parts <- lift (checked_strings (extract_text documents)) ;;
      let combined_text := join blank_line parts in
      let (l, result) := answer_question query combined_text
                                         default_max_answer_length in
      (l, Ok result)
  end.

Definition process_query (query : string) (use_retrieved_docs : bool)
           (provided_docs : option (list DocItem)) : list Event * AnswerResult :=
  try_except (process_body query use_retrieved_docs provided_docs)
             query_error_result.

End Methods.

End ChatbotModel.

(* ------------------------------------------------------------------ *)
(** * document_embedding.py *)
(* ------------------------------------------------------------------ *)

Module DocumentEmbedding.

(** One stored chunk of the collection. *)
Record Chunk : Type := {
  chunk_id : string;
  chunk_text : string;
  chunk_metadata : Metadata
}.

(** The collection: the stored chunks, oldest first. *)
Definition Collection : Type := list Chunk.

(** What [collection.add] does with an id that is already stored: older
    releases of the index raise, the releases with [PersistentClient]
    skip the record. No release replaces the stored chunk; replacing is
    the job of [collection.upsert], which this module never calls. *)
Inductive AddPolicy : Type :=
| RejectExisting
| IgnoreExisting.

Definition has_id (c : Collection) (i : string) : bool :=
  existsb (fun ch => String.eqb (chunk_id ch) i) c.

(** [collection.get(ids=[i])] *)
Definition get (c : Collection) (i : string) : list Chunk :=
  filter (fun ch => String.eqb (chunk_id ch) i) c.

(** [collection.count()] *)
Definition count (c : Collection) : nat := length c.

Fixpoint unique (l : list string) : bool :=
  match l with
  | [] => true
  | x :: l' => negb (existsb (String.eqb x) l') && unique l'
  end.

(** A metadata dictionary without entries; the index refuses it. *)
Definition empty_metadata (m : Metadata) : bool :=
  match m with
  | [] => true
  | _ :: _ => false
  end.

Fixpoint zip3 (ids texts : list string) (metadatas : list Metadata) : list Chunk :=
  match ids, texts, metadatas with
  | i :: ids', t :: texts', m :: metadatas' =>
      {| chunk_id := i; chunk_text := t; chunk_metadata := m |}
        :: zip3 ids' texts' metadatas'
  | _, _, _ => []
  end.

(** [collection.add(documents=texts, metadatas=metadatas, ids=ids)] *)
Definition add (policy : AddPolicy) (c : Collection)
           (texts : list string) (metadatas : list Metadata) (ids : list string)
  : Exc Collection :=
  if negb ((length texts =? length ids)%nat && (length metadatas =? length ids)%nat)
  then Raise "Number of documents and metadatas must match number of ids"
  else if negb (unique ids) then Raise "Expected IDs to be unique"
  else if existsb empty_metadata metadatas
  then Raise "Expected metadata to be a non-empty dict, got 0 metadata attributes"
  else
    let fresh := zip3 ids texts metadatas in
    match policy with
    | RejectExisting =>
        if existsb (has_id c) ids then Raise "IDs already exist in collection"
        else Ok (c ++ fresh)
    | IgnoreExisting =>
        Ok (c ++ filter (fun ch => negb (has_id c (chunk_id ch))) fresh)
    end.

(** [[f"doc_{i}" for i in range(n)]] *)
Definition sequential_ids (n : nat) : list string :=
  map ChatbotModel.doc_label (seq 0 n).

Definition unknown_source : Metadata := [("source"%string, MStr "unknown")].

(** [upsert_embeddings(texts, metadatas, ids)]: the status that is
    returned and the collection afterwards. *)
Definition upsert_embeddings (policy : AddPolicy) (c : Collection)
           (texts : list string) (metadatas : option (list Metadata))
           (ids : option (list string)) : bool * Collection :=
  match texts with
  | [] => (false, c)
  | _ :: _ =>
      let ids' :=
        match ids with
        | Some (i :: l) => i :: l
        | _ => sequential_ids (length texts)
        end in
      let metadatas' :=
        match metadatas with
        | Some (m :: l) => m :: l
        | _ => map (fun _ => unknown_source) texts
        end in
      match add policy c texts metadatas' ids' with
      | Ok c' => (true, c')
      | Raise _ => (false, c)
      end
  end.

End DocumentEmbedding.

(* ------------------------------------------------------------------ *)
(** * The request body as the routes of app.py read it *)
(* ------------------------------------------------------------------ *)

Module Flask.

(** A JSON value parsed from a request body. The entries of an object
    are strings here, and an object lists every key once: the routes hand
    the entry they read to functions that are written for strings. *)
Local Unset Elimination Schemes.
Inductive Body : Type :=
| BNull
| BFlag (b : bool)
| BNumber (x : Q)
| BText (s : string)
| BList (items : list Body)
| BObject (entries : list (string * string)).
Local Set Elimination Schemes.

(** The request as [request.get_json()] meets it: a body that is not
    declared as JSON, a body that does not parse, or a parsed value. *)
Inductive Posted : Type :=
| NotJson
| Malformed
| Parsed (data : Body).

(** What the client receives: the response that the route returns, or
    the error page with which the framework answers when the request is
    aborted or the route raises. *)
Inductive Reply (R : Type) : Type :=
| Aborted (status : Z)
| Replied (response : R).
Arguments Aborted {R} status.
Arguments Replied {R} response.

(** [request.get_json()]: the parsed body, or the status with which the
    request is aborted, 415 for a body that is not declared as JSON and
    400 for one that does not parse. *)
Definition get_json (p : Posted) : Z + Body :=
  match p with
  | NotJson => inl 415%Z
  | Malformed => inl 400%Z
  | Parsed data => inr data
  end.

(** [bool(data)] *)
Definition body_truthy (data : Body) : bool :=
  match data with
  | BNull => false
  | BFlag b => b
  | BNumber x => negb (Qeq_bool x 0)
  | BText s => truthy s
  | BList items => match items with [] => false | _ :: _ => true end
  | BObject entries => match entries with [] => false | _ :: _ => true end
  end.

(** [needle in s] for strings. *)
Fixpoint contains (needle s : string) : bool :=
  String.prefix needle s
  || match s with
     | EmptyString => false
     | String _ s' => contains needle s'
     end.

(** [key in data] *)
Definition has_key (key : string) (data : Body) : Exc bool :=
  match data with
  | BObject entries => Ok (existsb (fun kv => String.eqb (fst kv) key) entries)
  | BList items =>
      Ok (existsb (fun v => match v with
                            | BText s => String.eqb s key
                            | _ => false
                            end) items)
  | BText s => Ok (contains key s)
  | BNumber _ => Raise "argument of type 'int' is not iterable"
  | BFlag _ => Raise "argument of type 'bool' is not iterable"
  | BNull => Raise none_iterable
  end.

(** [data[key]] *)
Definition subscript (key : string) (data : Body) : Exc string :=
  match data with
  | BObject entries =>
      match find (fun kv => String.eqb (fst kv) key) entries with
      | Some kv => Ok (snd kv)
      | None => Raise (key_error key)
      end
  | BList _ => Raise "list indices must be integers or slices, not str"
  | BText _ => Raise "string indices must be integers, not 'str'"
  | _ => Raise not_subscriptable
  end.

(** How the opening lines of a route end. *)
Inductive Entry : Type :=
| EntryAborted (status : Z)
| EntryMissing
| EntryValue (v : string).

(** [data = request.get_json()], then
    [if not data or key not in data: return ..., 400], then [data[key]].
    These lines stand before the [try] of the route, so an exception in
    them is answered by the framework, with status 500. *)
Definition posted_entry (key : string) (p : Posted) : Entry :=
  match get_json p with
  | inl status => EntryAborted status
  | inr data =>
      if negb (body_truthy data) then EntryMissing
      else
        match has_key key data with
        | Raise _ => EntryAborted 500
        | Ok false => EntryMissing
        | Ok true =>
            match subscript key data with
            | Raise _ => EntryAborted 500
            | Ok v => EntryValue v
            end
        end
  end.

End Flask.

(* ------------------------------------------------------------------ *)
(** * app.py: the [/api/query] route *)
(* ------------------------------------------------------------------ *)

Module App.

Import ChatbotModel Flask.

(** Values of the dictionaries that cross the route. *)
Inductive JVal : Type :=
| JStr (s : string)
| JNum (x : Score)
| JBool (b : bool)
| JStrs (l : list string)
| JDocs (l : list Document).

Definition Dict : Type := list (string * JVal).

Fixpoint dict_get (k : string) (d : Dict) : option JVal :=
  match d with
  | [] => None
  | (k', v) :: d' => if String.eqb k k' then Some v else dict_get k d'
  end.

(** The dictionary that [process_query] returns. *)
Definition result_dict (r : AnswerResult) : Dict :=
  [("answer"%string, JStr (answer r));
   ("confidence"%string, JNum (confidence r));
   ("has_answer"%string, JBool (has_answer r))].

(** The loop over [result['source_documents']]. *)
Fixpoint source_names (docs : list Document) : list string :=
  match docs with
  | [] => []
  | doc :: rest =>
      match metadata doc with
      | Some md =>
          match Chroma.lookup "source" md with
          | Some (MStr s) => s :: source_names rest
          | _ => source_names rest
          end
      | None => source_names rest
      end
  end.

(** [source_docs] as the route computes it from the result. *)
Definition source_docs (result : Dict) : Exc (list string) :=
  match dict_get "source_documents" result with
  | None => Ok []
  | Some (JDocs docs) => Ok (source_names docs)
  | Some (JStr _) | Some (JStrs _) => Ok []
  | Some _ => Raise "object is not iterable"
  end.

Record Response : Type := {
  status : Z;
  body : Dict
}.

(** [query_document]: [posted] is the body of the request and
    [new_model] is the outcome of constructing [EnhancedQAModel]. *)
Definition query_document (new_model : Exc QAModel) (posted : Posted)
  : list Event * Reply Response :=
  match posted_entry "query" posted with
  | EntryAborted code => ([], Aborted code)
  | EntryMissing =>
      ([], Replied {| status := 400;
                      body := [("error"%string, JStr "No query provided")] |})
  | EntryValue query =>
      let (l, response) :=
        try_except
          (qa_model <- lift new_model ;;
           let (l, result) := process_query qa_model query true None in
           let d := result_dict result in
           sources <- lift (source_docs d) ;;
           response <- lift match dict_get "answer" d with
                            | Some v => Ok v
                            | None => Raise (key_error "answer")
                            end ;;
           (l, Ok {| status := 200;
                     body := [("response"%string, response);
                              ("confidence"%string,
                               match dict_get "confidence" d with
                               | Some v => v
                               | None => JNum (Fin 0)
                               end);
                              ("has_answer"%string,
                               match dict_get "has_answer" d with
                               | Some v => v
                               | None => JBool false
                               end);
                              ("sources"%string, JStrs sources)] |}))
          (fun e => {| status := 200;
                       body := [("response"%string,
                                 JStr ("Error processing your query: " ++ e));
                                ("error"%string, JStr e)] |}) in
      (l, Replied response)
  end.

End App.

(* ------------------------------------------------------------------ *)
(** * Vocabulary of the statements *)
(* ------------------------------------------------------------------ *)

Module Spec.

(** [l1] is obtained from [l2] by deleting entries, order kept. *)
Inductive Subseq {A : Type} : list A -> list A -> Prop :=
| subseq_nil : Subseq [] []
| subseq_skip : forall x l1 l2, Subseq l1 l2 -> Subseq l1 (x :: l2)
| subseq_keep : forall x l1 l2, Subseq l1 l2 -> Subseq (x :: l1) (x :: l2).

(** What the retriever relies on in an answer of the index to
    [query(text, top_k)]: the row of ids has at most [top_k] entries and
    the row of distances has an entry for each of them. *)
Definition store_contract (top_k : Z) (r : QueryResult) : Prop :=
  forall ids_row rest,
    ids r = Rows (ids_row :: rest) ->
    (Z.of_nat (length ids_row) <= top_k)%Z
    /\ exists d_row d_rest,
         distances r = Rows (d_row :: d_rest)
         /\ (length ids_row <= length d_row)%nat.

(** The members of a list of matches whose similarity equals [q]. *)
Definition tied (q : Q) (l : list DocumentRetrieval.Match)
  : list DocumentRetrieval.Match :=
  filter (fun m => Qeq_bool (DocumentRetrieval.similarity m) q) l.

Definition descending (l : list DocumentRetrieval.Match) : Prop :=
  StronglySorted
    (fun a b => DocumentRetrieval.similarity b <= DocumentRetrieval.similarity a) l.

(** ** Candidate spans of the extractor *)

(** A candidate: its score and its decoded text. *)
Definition Candidate : Type := (Q * string)%type.

(** Run [f] on every element, in order, and concatenate what it finds. *)
Fixpoint gather {A : Type} (f : A -> Exc (list Candidate)) (l : list A)
  : Exc (list Candidate) :=
  match l with
  | [] => Ok []
  | x :: l' =>
      exc_bind (f x) (fun c =>
      exc_bind (gather f l') (fun cs => Ok (c ++ cs)))
  end.

Section Candidates.
Variable self : ChatbotModel.QAModel.
Variable max_answer_length : Z.

(** A pair of positions gives a candidate when the end is not before
    the start, the span has at most [max_answer_length] tokens and the
    decoded text is not blank; the score is the sum of the start score
    and the end score. *)
Definition span_candidate (input_ids : list Z) (start_logits end_logits : list Q)
           (pair : nat * nat) : Exc (list Candidate) :=
  let (s, e) := pair in
  if (s <=? e)%nat && (Z.of_nat e - Z.of_nat s + 1 <=? max_answer_length)%Z then
    exc_bind (ChatbotModel.decode self true (slice input_ids s (e + 1)))
             (fun t =>
                if truthy (strip t)
                then Ok [(nth s start_logits 0 + nth e end_logits 0, t)]
                else Ok [])
  else Ok [].

(** The candidates of one chunk: all pairs of a top start position and
    a top end position. *)
Definition chunk_candidates (question chunk : string) : Exc (list Candidate) :=
  exc_bind (ChatbotModel.tokenizer self question chunk) (fun input_ids =>
  exc_bind (ChatbotModel.model self input_ids) (fun logits =>
  exc_bind (ChatbotModel.topk self (fst logits) ChatbotModel.top_k) (fun starts =>
  exc_bind (ChatbotModel.topk self (snd logits) ChatbotModel.top_k) (fun ends =>
  gather (span_candidate input_ids (fst logits) (snd logits))
         (list_prod starts ends))))).

(** The candidates of all chunks of a context. *)
Definition all_candidates (question : string) (chunks : list string)
  : Exc (list Candidate) :=
  gather (chunk_candidates question) chunks.
End Candidates.

(** The update of the best span by one candidate. *)
Definition consider (best : ChatbotModel.Best) (c : Candidate) : ChatbotModel.Best :=
  if score_gt (Fin (fst c)) (ChatbotModel.best_confidence best)
  then {| ChatbotModel.best_answer := snd c;
          ChatbotModel.best_confidence := Fin (fst c) |}
  else best.

(** What the extractor has to return for a list of candidates. *)
Definition best_of (cands : list Candidate) (r : ChatbotModel.AnswerResult) : Prop :=
  match cands with
  | [] => r = ChatbotModel.not_found_result
  | _ :: _ =>
      ChatbotModel.has_answer r = true
      /\ exists score,
           In (score, ChatbotModel.answer r) cands
           /\ ChatbotModel.confidence r = Fin score
           /\ forall c, In c cands -> fst c <= score
  end.

(** ** Chunks as groups of paragraphs *)

(** [paragraph.strip()] is not empty. *)
Definition nonblank (paragraph : string) : bool := truthy (strip paragraph).

(** The text has a character that is not white space. *)
Fixpoint has_ink (s : string) : bool :=
  match s with
  | EmptyString => false
  | String c s' => negb (isspace c) || has_ink s'
  end.

Section Groups.
Variable self : ChatbotModel.QAModel.

(** [len(self.tokenizer.encode(paragraph, add_special_tokens=False))] *)
Definition token_count (text : string) : Z :=
  match ChatbotModel.encode self text with
  | Ok tokens => Z.of_nat (length tokens)
  | Raise _ => 0
  end.

(** The tokens of a group, paragraph by paragraph. *)
Definition group_tokens (g : list string) : Z :=
  fold_right (fun p acc => (token_count p + acc)%Z) 0%Z g.

Variable budget : Z.

(** A group is a single paragraph, or its paragraphs fit the budget
    together. *)
Definition within_budget (g : list string) : Prop :=
  length g = 1%nat \/ (group_tokens g <= budget)%Z.

(** Between two groups that follow each other, the first paragraph of
    the second one would have overflowed the first one. *)
Fixpoint flushed_on_overflow (groups : list (list string)) : Prop :=
  match groups with
  | g1 :: ((g2 :: _) as rest) =>
      (budget < group_tokens g1 + token_count (hd EmptyString g2))%Z
      /\ flushed_on_overflow rest
  | _ => True
  end.

(** The state of the paragraph loop, read as the groups that are
    closed and the group that is open. *)
Definition represents (st : ChatbotModel.ChunkState)
           (closed : list (list string)) (open : list string) : Prop :=
  ChatbotModel.context_chunks st = map (join (String newline "")) closed
  /\ ChatbotModel.current_chunk st = join (String newline "") open
  /\ ChatbotModel.current_length st = group_tokens open.
End Groups.


(** The calls that belong to the span extractor. *)
Definition extractor_call (ev : Event) : bool :=
  match ev with
  | CallStoreQuery _ _ => false
  | _ => true
  end.

(** ** Failing collaborators *)

(** The message of an exception, if the outcome is one. *)
Definition message {A : Type} (x : Exc A) : option string :=
  match x with
  | Raise e => Some e
  | Ok _ => None
  end.

(** How a logged call ends: a logged call is a call of a collaborator
    of [self] on the logged arguments, and [raised_by] is the message with
    which that call raises, if it does. *)
Definition raised_by (self : ChatbotModel.QAModel) (ev : Event) : option string :=
  match ev with
  | CallStoreQuery query_text n_results =>
      message (ChatbotModel.collection_query self query_text n_results)
  | CallEncode text => message (ChatbotModel.encode self text)
  | CallTokenizer question chunk =>
      message (ChatbotModel.tokenizer self question chunk)
  | CallModel input_ids => message (ChatbotModel.model self input_ids)
  | CallTopk scores k => message (ChatbotModel.topk self scores k)
  | CallDecode skip_special tokens =>
      message (ChatbotModel.decode self skip_special tokens)
  | CallAnswerQuestion _ _ => None
  end.

(** A computation ends with the exception of the call that raises in
    it. *)
Definition stops_at_failure (self : ChatbotModel.QAModel) {A : Type} (m : M A)
  : Prop :=
  forall ev e, In ev (calls m) -> raised_by self ev = Some e -> value m = Raise e.

End Spec.

(* ------------------------------------------------------------------ *)
(** * Sample collaborators *)
(* ------------------------------------------------------------------ *)

Module Samples.

Local Open Scope string_scope.
Local Open Scope list_scope.

(** A character-level tokenizer: token [c + 3] for the character with
    code [c]; [0], [1] and [2] are the start, padding and separator
    tokens. *)
Fixpoint char_tokens (s : string) : list Z :=
  match s with
  | EmptyString => []
  | String c s' => (Z.of_nat (nat_of_ascii c) + 3)%Z :: char_tokens s'
  end.

Definition pad_to (n : nat) (l : list Z) : list Z :=
  firstn n (l ++ repeat 1%Z (n - length l)).

Definition window (question chunk : string) : list Z :=
  pad_to 512 ([0%Z] ++ char_tokens question ++ [2%Z; 2%Z]
                  ++ char_tokens chunk ++ [2%Z]).

Fixpoint render (skip_special : bool) (tokens : list Z) : string :=
  match tokens with
  | [] => EmptyString
  | t :: rest =>
      if (t <? 3)%Z then
        if skip_special then render skip_special rest
        else String "*"%char (render skip_special rest)
      else String (ascii_of_nat (Z.to_nat (t - 3))) (render skip_special rest)
  end.

(** A scoring function with peaks: a span starts well on a capital
    letter and ends well on a full stop. *)
Definition start_peak (t : Z) : Z :=
  if ((68 <=? t) && (t <=? 93))%Z then 3%Z else 0%Z.
Definition end_peak (t : Z) : Z :=
  if (t =? 49)%Z then 2%Z else 0%Z.

(** The scores of a window: position [i] with token [t] scores
    [1000 * peak t - i]. A window has fewer than 1000 positions, so no two
    positions score the same, and of two positions with the same peak the
    earlier one scores higher. *)
Definition scored (peak : Z -> Z) (w : list Z) : list Q :=
  map (fun it => inject_Z (1000 * peak (snd it) - Z.of_nat (fst it)))
      (enumerate w).

(** Scores given position by position: [table] lists the positions that
    stand out, every other position [i] scores [- (i + 1)]. *)
Definition tabled (table : list (nat * Z)) (w : list Z) : list Q :=
  map (fun it =>
         inject_Z match find (fun row => Nat.eqb (fst row) (fst it)) table with
                  | Some row => snd row
                  | None => - (Z.of_nat (fst it) + 1)
                  end)
      (enumerate w).

(** No two entries of [v] are equal. *)
Fixpoint distinct (v : list Q) : bool :=
  match v with
  | [] => true
  | x :: v' => negb (existsb (Qeq_bool x) v') && distinct v'
  end.

(** The positions of the [k] largest entries, largest first, by a stable
    sort: what [torch.topk] returns when no two entries are equal; it
    fails when [v] has fewer than [k] entries. *)
Definition stable_topk (v : list Q) (k : nat) : Exc (list nat) :=
  if (length v <? k)%nat then Raise "selected index k out of range"
  else Ok (map fst (firstn k (sort_desc (@snd nat Q) (enumerate v)))).

Definition lease_response : QueryResult :=
  {| ids := Rows [["doc_1"; "doc_2"]];
     documents := Rows [[Some "the tenant is Bob."; Some "rent is due Monday."]];
     metadatas := Rows [[Some [("source"%string, MStr "lease.pdf")];
                         Some [("source"%string, MStr "rent.txt")]]];
     distances := Rows [[1 # 10; 1 # 2]] |}.

Definition lease_store : Query := fun _ _ => Ok (Some lease_response).

(** A store that holds one chunk. *)
Definition tenant_response : QueryResult :=
  {| ids := Rows [["doc_1"]];
     documents := Rows [[Some "the tenant is Bob."]];
     metadatas := Rows [[Some [("source"%string, MStr "lease.pdf")]]];
     distances := Rows [[1 # 10]] |}.

Definition tenant_store : Query := fun _ _ => Ok (Some tenant_response).

Definition failing_store : Query := fun _ _ => Raise "connection refused".

Definition qa (store : Query) : ChatbotModel.QAModel :=
  {| ChatbotModel.collection_query := store;
     ChatbotModel.encode := fun s => Ok (char_tokens s);
     ChatbotModel.tokenizer := fun q c => Ok (window q c);
     ChatbotModel.decode := fun skip t => Ok (render skip t);
     ChatbotModel.model := fun w => Ok (scored start_peak w, scored end_peak w);
     ChatbotModel.topk := stable_topk |}.

(** The same tokenizer with a network whose scores are given position
    by position. *)
Definition tabled_qa (starts ends : list (nat * Z)) : ChatbotModel.QAModel :=
  {| ChatbotModel.collection_query := lease_store;
     ChatbotModel.encode := fun s => Ok (char_tokens s);
     ChatbotModel.tokenizer := fun q c => Ok (window q c);
     ChatbotModel.decode := fun skip t => Ok (render skip t);
     ChatbotModel.model := fun w => Ok (tabled starts w, tabled ends w);
     ChatbotModel.topk := stable_topk |}.

(** A tokenizer that is out of service. *)
Definition broken_qa : ChatbotModel.QAModel :=
  {| ChatbotModel.collection_query := lease_store;
     ChatbotModel.encode := fun _ => Raise "tokenizer unavailable";
     ChatbotModel.tokenizer := fun _ _ => Raise "tokenizer unavailable";
     ChatbotModel.decode := fun _ _ => Raise "tokenizer unavailable";
     ChatbotModel.model := fun _ => Raise "model unavailable";
     ChatbotModel.topk := stable_topk |}.

(** A network that is out of service behind a tokenizer that works. *)
Definition qa_without_network : ChatbotModel.QAModel :=
  {| ChatbotModel.collection_query := lease_store;
     ChatbotModel.encode := fun s => Ok (char_tokens s);
     ChatbotModel.tokenizer := fun q c => Ok (window q c);
     ChatbotModel.decode := fun skip t => Ok (render skip t);
     ChatbotModel.model := fun _ => Raise "network unavailable";
     ChatbotModel.topk := stable_topk |}.

(** [n] copies of a character. *)
Fixpoint copies (n : nat) (c : ascii) : string :=
  match n with
  | O => EmptyString
  | S n' => String c (copies n' c)
  end.

End Samples.

(* ------------------------------------------------------------------ *)
(** * Further sample data *)
(* ------------------------------------------------------------------ *)

Module MoreSamples.

Local Open Scope string_scope.
Local Open Scope list_scope.

(** An answer of the index that carries no distances. *)
Definition bare_response : QueryResult :=
  {| ids := Rows [["doc_1"; "doc_2"]];
     documents := Rows [[Some "the tenant is Bob."; Some "rent is due Monday."]];
     metadatas := Missing;
     distances := Missing |}.

Definition bare_store : Query := fun _ _ => Ok (Some bare_response).

(** An answer of the index whose second record has no document text. *)
Definition holed_response : QueryResult :=
  {| ids := Rows [["doc_1"; "doc_2"]];
     documents := Rows [[Some "the tenant is Bob."; None]];
     metadatas := Rows [[Some [("source", MStr "lease.pdf")];
                         Some [("source", MStr "rent.txt")]]];
     distances := Rows [[1 # 10; 2 # 10]] |}.

Definition holed_store : Query := fun _ _ => Ok (Some holed_response).

(** An answer of the index whose record keeps its text in the metadata. *)
Definition relocated_response : QueryResult :=
  {| ids := Rows [["doc_9"]];
     documents := Rows [[Some ""]];
     metadatas := Rows [[Some [("source", MStr "deed.pdf");
                               ("text", MStr "the deed is signed.")]]];
     distances := Rows [[1 # 10]] |}.

Definition relocated_store : Query := fun _ _ => Ok (Some relocated_response).

End MoreSamples.

(* ------------------------------------------------------------------ *)
(** * The collection behind [get], [delete] and [count] *)
(* ------------------------------------------------------------------ *)

Module Index.

Import DocumentEmbedding.

(** A key of the dictionary returned by [collection.get]: absent, [None],
    or one entry per record. *)
Inductive Column (A : Type) : Type :=
| Absent
| NoneValue
| Items (items : list A).
Arguments Absent {A}.
Arguments NoneValue {A}.
Arguments Items {A} items.

(** Result dictionary of [collection.get]. *)
Record GetResult : Type := {
  got_ids : Column string;
  got_documents : Column (option string);
  got_metadatas : Column (option Metadata)
}.

(** [collection.get(ids=wanted)]; [None] for [wanted] is the call without
    ids, which returns every record. *)
Definition Get : Type := option (list string) -> Exc (option GetResult).

Definition wanted_by (wanted : list string) (ch : Chunk) : bool :=
  existsb (String.eqb (chunk_id ch)) wanted.

Definition get_result (chunks : list Chunk) : GetResult :=
  {| got_ids := Items (map chunk_id chunks);
     got_documents := Items (map (fun ch => Some (chunk_text ch)) chunks);
     got_metadatas := Items (map (fun ch => Some (chunk_metadata ch)) chunks) |}.

(** [get] on a collection that is in service. *)
Definition get (c : Collection) : Get :=
  fun wanted =>
    match wanted with
    | Some l => Ok (Some (get_result (filter (wanted_by l) c)))
    | None => Ok (Some (get_result c))
    end.

(** [collection.delete(ids=wanted)] on a collection that is in service. *)
Definition delete (c : Collection) (wanted : list string) : Exc Collection :=
  Ok (filter (fun ch => negb (wanted_by wanted ch)) c).

(** [collection.count()] on a collection that is in service. *)
Definition count (c : Collection) : Exc Z := Ok (Z.of_nat (length c)).

End Index.

(* ------------------------------------------------------------------ *)
(** * document_retrieval.py: lookup by id *)
(* ------------------------------------------------------------------ *)

Module DocumentLookup.

Import Index.

(** The dictionary returned for a document that was found. *)
Record StoredDocument : Type := {
  id : string;
  text : option string;
  metadata : option Metadata
}.

(** [retrieve_document_by_id(doc_id)]; [None] is Python's [None]. *)
Definition retrieve_document_by_id (collection_get : Get) (doc_id : string)
  : option StoredDocument :=
  match collection_get (Some [doc_id]) with
  | Raise _ => None
  | Ok None => None
  | Ok (Some result) =>
      match got_documents result with
      | Items (first :: _) =>
          Some {| id := doc_id;
                  text := first;
                  metadata :=
                    match got_metadatas result with
                    | Items (m :: _) => m
                    | _ => Some []
                    end |}
      | _ => None
      end
  end.

End DocumentLookup.

(* ------------------------------------------------------------------ *)
(** * document_embedding.py: delete and count *)
(* ------------------------------------------------------------------ *)

Module EmbeddingOps.

Import DocumentEmbedding.

(** [delete_document(doc_id)]: the status that is returned and the
    collection afterwards. *)
Definition delete_document
           (collection_delete : Collection -> list string -> Exc Collection)
           (c : Collection) (doc_id : string) : bool * Collection :=
  match collection_delete c [doc_id] with
  | Ok c' => (true, c')
  | Raise _ => (false, c)
  end.

(** [get_document_count()] *)
Definition get_document_count (collection_count : Collection -> Exc Z)
           (c : Collection) : Z :=
  match collection_count c with
  | Ok info => info
  | Raise _ => 0%Z
  end.

End EmbeddingOps.

(* ------------------------------------------------------------------ *)
(** * Shapes of an answer of the index *)
(* ------------------------------------------------------------------ *)

Module Shapes.

(** The key is absent, empty or [None], or its first row has an entry for
    each of [n] records. *)
Definition row_covers {A : Type} (f : Field A) (n : nat) : Prop :=
  match f with
  | Rows (row :: _) => (n <= length row)%nat
  | _ => True
  end.

(** The key has a first row with fewer than [n] entries. *)
Definition row_short {A : Type} (f : Field A) (n : nat) : Prop :=
  match f with
  | Rows (row :: _) => (length row < n)%nat
  | _ => False
  end.

(** [results.get(key, ...)[0][i]] when the key holds rows, else the
    default. *)
Definition entry_or {A : Type} (f : Field A) (i : nat) (default : A) : A :=
  match f with
  | Rows (row :: _) => nth i row default
  | _ => default
  end.

(** The document that [EnhancedQAModel.retrieve_documents] builds for the
    record at position [i]. *)
Definition document_at (r : QueryResult) (i : nat) (doc : option string)
  : ChatbotModel.Document :=
  {| ChatbotModel.text := doc;
     ChatbotModel.metadata := entry_or (metadatas r) i (Some []);
     ChatbotModel.distance := entry_or (distances r) i 0;
     ChatbotModel.id := entry_or (ids r) i (ChatbotModel.doc_label i) |}.

End Shapes.

(* ------------------------------------------------------------------ *)
(** * Kinds of calls *)
(* ------------------------------------------------------------------ *)

Module Calls.

(** A call of [tokenizer.decode] that keeps the special tokens; only the
    split by tokens makes such calls. *)
Definition raw_decode (ev : Event) : bool :=
  match ev with
  | CallDecode false _ => true
  | _ => false
  end.

End Calls.

(* ------------------------------------------------------------------ *)
(** * app.py: text helpers *)
(* ------------------------------------------------------------------ *)

Module Text.

(** [s.split()]: the words between runs of white space; [cur] is the
    word being read. *)
Fixpoint words_from (cur : string) (s : string) : list string :=
  match s with
  | EmptyString => if truthy cur then [cur] else []
  | String c s' =>
      if isspace c then
        if truthy cur then cur :: words_from EmptyString s'
        else words_from EmptyString s'
      else words_from (cur ++ String c EmptyString) s'
  end.

Definition split_words (s : string) : list string := words_from EmptyString s.

(** [len([p for p in text.split('\n') if p.strip()])] *)
Definition paragraph_count (text : string) : nat :=
  length (filter (fun p => truthy (strip p)) (split_lines text)).

(** [s[:n]] *)
Fixpoint take (n : nat) (s : string) : string :=
  match n, s with
  | S n', String c s' => String c (take n' s')
  | _, _ => EmptyString
  end.

(** [str(n)] for a natural number. *)
Definition decimal (n : nat) : string :=
  DecimalString.NilEmpty.string_of_uint (Nat.to_uint n).

(** [str(z)] for an integer. *)
Definition decimal_Z (z : Z) : string :=
  DecimalString.NilEmpty.string_of_int (Z.to_int z).

(** [c.lower()] for a character with a code below 256. *)
Definition lower_char (c : ascii) : ascii :=
  let n := nat_of_ascii c in
  if ((65 <=? n) && (n <=? 90))%nat
     || ((192 <=? n) && (n <=? 222) && negb (n =? 215))%nat
  then ascii_of_nat (n + 32)
  else c.

(** [s.lower()] *)
Fixpoint lower (s : string) : string :=
  match s with
  | EmptyString => EmptyString
  | String c s' => String (lower_char c) (lower s')
  end.

(** [s.endswith(suffix)] *)
Definition ends_with (s suffix : string) : bool :=
  let n := String.length s in
  let k := String.length suffix in
  (k <=? n)%nat && String.eqb (String.substring (n - k) k s) suffix.

(** [s.replace(c, "")] for a single character [c]. *)
Fixpoint remove_char (c : ascii) (s : string) : string :=
  match s with
  | EmptyString => EmptyString
  | String x s' =>
      if Ascii.eqb x c then remove_char c s' else String x (remove_char c s')
  end.

(** The part of [s] after its last ["/"]. *)
Fixpoint basename (s : string) : string :=
  match s with
  | EmptyString => EmptyString
  | String c s' =>
      if existsb (Ascii.eqb "/"%char) (list_ascii_of_string s')
      then basename s'
      else if Ascii.eqb c "/"%char then s' else s
  end.

(** The part of [s] from its last ["."] on, or the empty string. *)
Fixpoint from_last_dot (s : string) : string :=
  match s with
  | EmptyString => EmptyString
  | String c s' =>
      if existsb (Ascii.eqb "."%char) (list_ascii_of_string s')
      then from_last_dot s'
      else if Ascii.eqb c "."%char then s else EmptyString
  end.

Fixpoint drop_dots (s : string) : string :=
  match s with
  | String "."%char s' => drop_dots s'
  | _ => s
  end.

(** [os.path.splitext(path)[1]]: the extension of the last component,
    leading dots of the component not counting. *)
Definition extension (path : string) : string :=
  from_last_dot (drop_dots (basename path)).

End Text.

(* ------------------------------------------------------------------ *)
(** * app.py: the routes of the document store *)
(* ------------------------------------------------------------------ *)

Module Routes.

Import DocumentEmbedding Index Text Flask.

Local Open Scope string_scope.
Local Open Scope list_scope.

(** JSON values of the responses. *)
Local Unset Elimination Schemes.
Inductive Json : Type :=
| JsNull
| JsText (s : string)
| JsInt (z : Z)
| JsReal (q : Q)
| JsFlag (b : bool)
| JsList (l : list Json)
| JsDict (d : list (string * Json)).
Local Set Elimination Schemes.

Record Response : Type := {
  status : Z;
  body : Json
}.

Definition json_of_meta (v : MetaVal) : Json :=
  match v with
  | MStr s => JsText s
  | MInt z => JsInt z
  | MFloat q => JsReal q
  | MBool b => JsFlag b
  end.

Definition json_of_metadata (md : Metadata) : Json :=
  JsDict (map (fun kv => (fst kv, json_of_meta (snd kv))) md).

(** [metadata.get(key, default)] *)
Definition meta_get (md : Metadata) (key : string) (default : Json) : Json :=
  match Chroma.lookup key md with
  | Some v => json_of_meta v
  | None => default
  end.

Definition error_response (code : Z) (msg : string) : Response :=
  {| status := code; body := JsDict [("error", JsText msg)] |}.

Definition message_response (code : Z) (msg : string) : Response :=
  {| status := code; body := JsDict [("message", JsText msg)] |}.

Definition try_route (m : Exc Response) (handler : string -> Response) : Response :=
  match m with
  | Ok resp => resp
  | Raise e => handler e
  end.

(** [column[0] if key in result else default] *)
Definition present_first {A : Type} (col : Column A) (default : A) : Exc A :=
  match col with
  | Absent => Ok default
  | NoneValue => Raise none_subscript
  | Items [] => Raise index_error
  | Items (x :: _) => Ok x
  end.

(** ** /api/chat *)

Definition not_enough_information : string :=
  "I don't have enough information to answer that question based on the uploaded documents.".

(** [chat]: [posted] is the body of the request. The name [Chatbot]
    is bound nowhere in the module, so the call [Chatbot()] raises
    [NameError]. *)
Definition chat (store : Query) (posted : Posted)
  : list Event * Reply Response :=
  match posted_entry "input" posted with
  | EntryAborted code => ([], Aborted code)
  | EntryMissing => ([], Replied (error_response 400 "No input provided"))
  | EntryValue query =>
      let (l, retrieved) :=
        DocumentRetrieval.retrieve_documents store query 3 (7 # 10) in
      (l,
       Replied
         (try_route
            match DocumentRetrieval.matches retrieved with
            | [] => Ok {| status := 200;
                          body := JsDict [("response",
                                           JsText not_enough_information)] |}
            | _ :: _ => Raise "name 'Chatbot' is not defined"
            end
            (fun e => error_response 500 ("Error generating response: " ++ e))))
  end.

(** ** /api/documents *)

(** One entry of the list; [None] as metadata has no [get]. *)
Definition listed (doc_id : string) (metadata : option Metadata) : Exc Json :=
  match metadata with
  | None => Raise "'NoneType' object has no attribute 'get'"
  | Some md =>
      Ok (JsDict [("id", JsText doc_id);
                  ("source", meta_get md "source" (JsText "Unknown"));
                  ("timestamp", meta_get md "timestamp" JsNull)])
  end.

(** [results['metadatas'][i] if 'metadatas' in results else {}] *)
Definition metadata_of (r : GetResult) (i : nat) : Exc (option Metadata) :=
  match got_metadatas r with
  | Absent => Ok (Some [])
  | NoneValue => Raise none_subscript
  | Items l =>
      match nth_error l i with
      | Some m => Ok m
      | None => Raise index_error
      end
  end.

Fixpoint list_entries (r : GetResult) (todo : list (nat * string)) : Exc (list Json) :=
  match todo with
  | [] => Ok []
  | (i, doc_id) :: todo' =>
      exc_bind (metadata_of r i) (fun metadata =>
      exc_bind (listed doc_id metadata) (fun entry =>
      exc_bind (list_entries r todo') (fun rest => Ok (entry :: rest))))
  end.

Definition list_documents (collection_get : Get) : Response :=
  try_route
    (exc_bind (collection_get None) (fun results =>
     match results with
     | Some r =>
         match got_ids r with
         | Items (i :: l) =>
             exc_bind (list_entries r (enumerate (i :: l))) (fun documents =>
             Ok {| status := 200; body := JsDict [("documents", JsList documents)] |})
         | _ => Ok {| status := 200; body := JsDict [("documents", JsList [])] |}
         end
     | None => Ok {| status := 200; body := JsDict [("documents", JsList [])] |}
     end))
    (fun e => error_response 500 ("Error listing documents: " ++ e)).

(** ** /api/document/<doc_id> *)

Definition json_of_text (t : option string) : Json :=
  match t with
  | Some s => JsText s
  | None => JsNull
  end.

Definition json_of_dict (m : option Metadata) : Json :=
  match m with
  | Some md => json_of_metadata md
  | None => JsNull
  end.

Definition not_found : Response := error_response 404 "Document not found".

Definition get_document (collection_get : Get) (doc_id : string) : Response :=
  try_route
    (exc_bind (collection_get (Some [doc_id])) (fun result =>
     match result with
     | Some r =>
         match got_ids r with
         | Items (found_id :: _) =>
             exc_bind (present_first (got_documents r) (Some "")) (fun text =>
             exc_bind (present_first (got_metadatas r) (Some [])) (fun metadata =>
             Ok {| status := 200;
                   body := JsDict [("document",
                                    JsDict [("id", JsText found_id);
                                            ("text", json_of_text text);
                                            ("metadata", json_of_dict metadata)])] |}))
         | _ => Ok not_found
         end
     | None => Ok not_found
     end))
    (fun e => error_response 500 ("Error retrieving document: " ++ e)).

Definition delete_document
           (collection_delete : Collection -> list string -> Exc Collection)
           (c : Collection) (doc_id : string) : Response * Collection :=
  match collection_delete c [doc_id] with
  | Ok c' => (message_response 200 ("Document " ++ doc_id ++ " deleted successfully"), c')
  | Raise e => (error_response 500 ("Error deleting document: " ++ e), c)
  end.

(** ** /api/document-preview/<doc_id> *)

(** [column[0] if key in result and result[key] else default] *)
Definition first_or {A : Type} (col : Column A) (default : A) : A :=
  match col with
  | Items (x :: _) => x
  | _ => default
  end.

Definition preview_limit : nat := 500.

Definition document_preview (collection_get : Get) (doc_id : string) : Response :=
  try_route
    (exc_bind (collection_get (Some [doc_id])) (fun result =>
     match result with
     | Some r =>
         match got_ids r with
         | Items (_ :: _) =>
             match first_or (got_documents r) (Some ""),
                   first_or (got_metadatas r) (Some []) with
             | None, _ => Raise "object of type 'NoneType' has no len()"
             | Some _, None => Raise "'NoneType' object has no attribute 'get'"
             | Some doc_text, Some doc_metadata =>
                 let preview_length :=
                   Nat.min preview_limit (String.length doc_text) in
                 Ok {| status := 200;
                       body :=
                         JsDict
                           [("document_id", JsText doc_id);
                            ("source",
                             meta_get doc_metadata "source" (JsText "Unknown"));
                            ("text_preview", JsText (take preview_length doc_text));
                            ("stats",
                             JsDict
                               [("total_chars", JsInt (len doc_text));
                                ("total_words",
                                 JsInt (Z.of_nat (length (split_words doc_text))));
                                ("total_paragraphs",
                                 JsInt (Z.of_nat (paragraph_count doc_text)));
                                ("preview_length", JsInt (Z.of_nat preview_length))]);
                            ("metadata", json_of_metadata doc_metadata)] |}
             end
         | _ => Ok not_found
         end
     | None => Ok not_found
     end))
    (fun e => error_response 500 ("Error retrieving document preview: " ++ e)).

End Routes.

(* ------------------------------------------------------------------ *)
(** * app.py: upload and batch embedding *)
(* ------------------------------------------------------------------ *)

(** [process_uploaded_file] has a backslash inside the braces of an
    f-string (the line that logs the preview), which Python accepts from
    version 3.12 on; the module is read as that version reads it. Logging
    itself is left out: the logged expressions are slices, [len] and
    [replace] of values that are strings at that point. *)

Module Upload.

Import DocumentEmbedding Text Routes.

Local Open Scope list_scope.
Local Open Scope string_scope.

(** The uploaded file: its name and the outcome of [file.save]. *)
Record FileStorage : Type := {
  filename : string;
  save : Exc unit
}.

(** What the readers make of the saved file. *)
Record Extractors : Type := {
  (** [page.extract_text()] for the pages of [PyPDF2.PdfReader] *)
  pypdf2 : Exc (list (option string));
  (** the same for [pdfplumber]; [None] when it cannot be imported *)
  pdfplumber : option (Exc (list (option string)));
  (** [para.text] for the paragraphs of [docx.Document] *)
  python_docx : Exc (list string);
  (** [mammoth.extract_raw_text(...).value] *)
  mammoth : Exc string;
  (** [f.read()] of the file opened as text *)
  read_text : Exc string
}.

Definition two_newlines : string := String newline (String newline "").

(** [page.extract_text() or ''] *)
Definition page_text (page : option string) : string :=
  match page with
  | Some t => t
  | None => ""
  end.

(** The loop over the pages of PyPDF2: only pages with text count. *)
Fixpoint pypdf2_text (pages : list (option string)) : string :=
  match pages with
  | [] => ""
  | page :: rest =>
      if truthy (strip (page_text page))
      then page_text page ++ two_newlines ++ pypdf2_text rest
      else pypdf2_text rest
  end.

(** The loop over the pages of pdfplumber: every page counts. *)
Fixpoint pdfplumber_text (pages : list (option string)) : string :=
  match pages with
  | [] => ""
  | page :: rest => page_text page ++ two_newlines ++ pdfplumber_text rest
  end.

(** [not text.strip() or len(text) < 50] *)
Definition poor (text : string) : bool :=
  negb (truthy (strip text)) || (len text <? 50)%Z.

(** The checks on the extracted text: the pair [(text, error)]. *)
Definition validate (text extraction_method : string)
  : option string * option string :=
  if negb (truthy (strip text)) then
    (None, Some ("Could not extract text from the file using "
                   ++ extraction_method ++ "."))
  else
    let word_count := length (split_words text) in
    if (word_count <? 10)%nat then
      (None, Some ("Extracted text has too few words (" ++ decimal word_count
                     ++ "). The document may be scanned or corrupted."))
    else (Some text, None).

Definition processing_error (e : string) : option string * option string :=
  (None, Some ("Error processing file: " ++ e)).

Definition pdf_error (e : string) : option string * option string :=
  (None, Some ("Could not extract text from PDF: " ++ e)).

Definition unsupported : option string * option string :=
  (None, Some "Unsupported file type. Please upload PDF, DOCX, or TXT files.").

(** [process_uploaded_file(file)] *)
Definition process_uploaded_file (file : FileStorage) (readers : Extractors)
  : option string * option string :=
  match save file with
  | Raise e => processing_error e
  | Ok _ =>
      let name := lower (filename file) in
      if ends_with name ".pdf" then
        match pypdf2 readers with
        | Raise e => pdf_error e
        | Ok pages =>
            let text := pypdf2_text pages in
            if poor text then
              match pdfplumber readers with
              | None => validate text "PyPDF2"
              | Some (Raise e) => pdf_error e
              | Some (Ok pages') => validate (pdfplumber_text pages') "pdfplumber"
              end
            else validate text "PyPDF2"
        end
      else if ends_with name ".docx" then
        match python_docx readers with
        | Raise e => processing_error e
        | Ok paragraphs =>
            let text := join (String newline "") paragraphs in
            if poor text then
              match mammoth readers with
              | Ok value => validate value "mammoth"
              | Raise _ => validate text "mammoth"
              end
            else validate text "python-docx"
        end
      else if ends_with name ".txt" then
        match read_text readers with
        | Raise e => processing_error e
        | Ok text => validate text "text"
        end
      else unsupported
  end.

(** The metadata that [upload_document] stores with the text. *)
Definition upload_metadata (name extracted_text : string) (stamp : Q) : Metadata :=
  [("source", MStr name);
   ("text_length", MInt (len extracted_text));
   ("word_count", MInt (Z.of_nat (length (split_words extracted_text))));
   ("file_type", MStr (remove_char "."%char (lower (extension name))));
   ("upload_timestamp", MFloat stamp);
   ("paragraphs", MInt (Z.of_nat (paragraph_count extracted_text)))].

(** [f"doc_{int(time.time())}"] *)
Definition upload_id (now : Z) : string := "doc_" ++ decimal_Z now.

Definition uploaded (name extracted_text : string) (now : Z) : Response :=
  {| status := 200;
     body := JsDict
               [("message", JsText "File uploaded and processed successfully!");
                ("document_id", JsText (upload_id now));
                ("file_name", JsText name);
                ("word_count",
                 JsInt (Z.of_nat (length (split_words extracted_text))));
                ("paragraphs", JsInt (Z.of_nat (paragraph_count extracted_text)))] |}.

(** The part of [upload_document] after the test of [error]:
    [len(extracted_text)] raises for [None], which the outer handler
    turns into a response. *)
Definition store_upload (policy : AddPolicy) (c : Collection) (name : string)
           (extracted : option string) (now : Z) (stamp : Q)
  : Response * Collection :=
  match extracted with
  | None => (error_response 500 "Server error during file upload", c)
  | Some extracted_text =>
      let metadata := upload_metadata name extracted_text stamp in
      let (upsert_success, c') :=
        upsert_embeddings policy c [extracted_text] (Some [metadata])
                          (Some [upload_id now]) in
      if upsert_success
      then (uploaded name extracted_text now, c')
      else (error_response 500 "Failed to store document in vector database.", c')
  end.

(** [upload_document]: [upload] is the [document] entry of
    [request.files] with what the readers make of it, [now] is
    [int(time.time())] and [stamp] is the later reading [time.time()]. *)
Definition upload_document (policy : AddPolicy) (c : Collection)
           (upload : option (FileStorage * Extractors)) (now : Z) (stamp : Q)
  : Response * Collection :=
  match upload with
  | None => (message_response 400 "No file part", c)
  | Some (file, readers) =>
      if negb (truthy (filename file))
      then (message_response 400 "No selected file", c)
      else
        let (extracted_text, error) := process_uploaded_file file readers in
        match error with
        | Some e =>
            if truthy e then (error_response 400 e, c)
            else store_upload policy c (filename file) extracted_text now stamp
        | None => store_upload policy c (filename file) extracted_text now stamp
        end
  end.

(** ** test_upload.py *)

(** The two assertions of [test_upload_document] on a response. *)
Definition test_upload_document (resp : Response) : bool :=
  (status resp =? 200)%Z
  && match body resp with
     | JsDict d =>
         match find (fun kv => String.eqb (fst kv) "message") d with
         | Some (_, JsText m) => String.eqb m "File uploaded successfully!"
         | _ => false
         end
     | _ => false
     end.

(** ** /api/embed-documents *)

(** One entry of the posted list; [None] is a missing key. *)
Record EmbedDoc : Type := {
  document : option string;
  metadata : option Metadata
}.

(** The readings of [int(time.time())], in the order in which they are
    taken. *)
Definition Clock : Type := nat -> Z.

Record EmbedState : Type := {
  collection : Collection;
  readings : nat
}.

(** [[doc[key] for doc in batch]] *)
Fixpoint column {A : Type} (field : EmbedDoc -> option A) (key : string)
         (batch : list EmbedDoc) : Exc (list A) :=
  match batch with
  | [] => Ok []
  | doc :: rest =>
      match field doc with
      | None => Raise (key_error key)
      | Some v => exc_bind (column field key rest) (fun l => Ok (v :: l))
      end
  end.

(** [[f"id{int(time.time())}_{j}" for j in range(i, i + n)]] *)
Definition batch_ids (clock : Clock) (readings i n : nat) : list string :=
  map (fun j : nat =>
         "id" ++ decimal_Z (clock (readings + j)%nat) ++ "_" ++ decimal (i + j)%nat)
      (seq 0 n).

Definition max_retries : nat := 3.

(** The retry loop for one batch. *)
Fixpoint insert_batch (policy : AddPolicy) (clock : Clock) (attempts i : nat)
         (batch : list EmbedDoc) (st : EmbedState) : EmbedState :=
  match attempts with
  | O => st
  | S attempts' =>
      match column document "document" batch with
      | Raise _ => insert_batch policy clock attempts' i batch st
      | Ok texts =>
          match column metadata "metadata" batch with
          | Raise _ => insert_batch policy clock attempts' i batch st
          | Ok metadatas =>
              let ids := batch_ids clock (readings st) i (length batch) in
              let readings' := (readings st + length batch)%nat in
              match add policy (collection st) texts metadatas ids with
              | Ok c' => {| collection := c'; readings := readings' |}
              | Raise _ =>
                  insert_batch policy clock attempts' i batch
                               {| collection := collection st;
                                  readings := readings' |}
              end
          end
      end
  end.

(** The loop over the batches of two documents. *)
Fixpoint insert_batches (policy : AddPolicy) (clock : Clock) (i : nat)
         (documents : list EmbedDoc) (st : EmbedState) : EmbedState :=
  match documents with
  | [] => st
  | [d] => insert_batch policy clock max_retries i [d] st
  | d1 :: d2 :: rest =>
      insert_batches policy clock (i + 2)%nat rest
                     (insert_batch policy clock max_retries i [d1; d2] st)
  end.

(** The chunk carries the document and the metadata of the posted
    entry. *)
Definition stores (d : EmbedDoc) (ch : Chunk) : Prop :=
  document d = Some (chunk_text ch) /\ metadata d = Some (chunk_metadata ch).

(** An entry that lacks its [document] or its [metadata] key. *)
Definition incomplete (d : EmbedDoc) : Prop :=
  document d = None \/ metadata d = None.

(** [embed_documents_endpoint]: [data] is the [documents] entry of the
    JSON object that the request carries, [None] when the object has no
    such entry. *)
Definition embed_documents_endpoint (policy : AddPolicy) (clock : Clock)
           (c : Collection) (data : option (list EmbedDoc))
  : Response * Collection :=
  match data with
  | None => (error_response 400 "No documents provided", c)
  | Some documents =>
      let st := insert_batches policy clock 0 documents
                               {| collection := c; readings := 0 |} in
      (message_response 200 "Documents embedded successfully!", collection st)
  end.

End Upload.

(* ------------------------------------------------------------------ *)
(** * Sample uploads *)
(* ------------------------------------------------------------------ *)

Module UploadSamples.

Import Upload.

Local Open Scope list_scope.
Local Open Scope string_scope.

Definition lease_file : FileStorage :=
  {| filename := "lease.txt"; save := Ok tt |}.

Definition lease_text : string :=
  "the tenant is Bob and the rent is due on Monday morning." ++ two_newlines
    ++ "Second paragraph here.".

Definition lease_readers : Extractors :=
  {| pypdf2 := Raise "not a PDF file";
     pdfplumber := None;
     python_docx := Raise "not a Word file";
     mammoth := Raise "not a Word file";
     read_text := Ok lease_text |}.

Definition other_readers : Extractors :=
  {| pypdf2 := Raise "not a PDF file";
     pdfplumber := None;
     python_docx := Raise "not a Word file";
     mammoth := Raise "not a Word file";
     read_text := Ok "a second document of ten words or more, uploaded right after." |}.

(** Five posted entries; the fourth has no [document] key. *)
Definition posted : list EmbedDoc :=
  [{| document := Some "first"; metadata := Some [("source", MStr "a.txt")] |};
   {| document := Some "second"; metadata := Some [("source", MStr "b.txt")] |};
   {| document := Some "third"; metadata := Some [("source", MStr "c.txt")] |};
   {| document := None; metadata := Some [("source", MStr "d.txt")] |};
   {| document := Some "fifth"; metadata := Some [("source", MStr "e.txt")] |}].

End UploadSamples.


(* ------------------------------------------------------------------ *)
(** * Properties *)
(* ------------------------------------------------------------------ *)

Import Spec.

(** ** Rationals and scores *)

Lemma Qlt_bool_false_le (a b : Q) : Qlt_bool a b = false -> b <= a.
Proof.
  unfold Qlt_bool. intro H. apply negb_false_iff in H.
  now apply Qle_bool_iff.
Qed.

Lemma Qlt_bool_true_lt (a b : Q) : Qlt_bool a b = true -> a < b.
Proof.
  unfold Qlt_bool. intro H. apply negb_true_iff in H.
  apply Qnot_le_lt. intro Hle. apply Qle_bool_iff in Hle. congruence.
Qed.

(** ** The descending stable sort *)

Section SortFacts.
Variable A : Type.
Variable key : A -> Q.

Let ge (a b : A) : Prop := key b <= key a.

Lemma insert_desc_perm (x : A) (l : list A) :
  Permutation (insert_desc key x l) (x :: l).
Proof.
  induction l as [|y l IH]; simpl.
  - apply Permutation_refl.
  - destruct (Qlt_bool (key x) (key y)).
    + eapply Permutation_trans.
      * apply perm_skip. exact IH.
      * apply perm_swap.
    + apply Permutation_refl.
Qed.

Lemma sort_desc_perm (l : list A) : Permutation (sort_desc key l) l.
Proof.
  induction l as [|x l IH]; simpl.
  - constructor.
  - eapply Permutation_trans.
    + apply insert_desc_perm.
    + now apply perm_skip.
Qed.

Lemma sort_desc_length (l : list A) : length (sort_desc key l) = length l.
Proof. apply Permutation_length, sort_desc_perm. Qed.

Lemma sort_desc_Forall (P : A -> Prop) (l : list A) :
  Forall P l -> Forall P (sort_desc key l).
Proof.
  intro H. eapply Permutation_Forall; [|exact H].
  apply Permutation_sym, sort_desc_perm.
Qed.

Lemma insert_desc_sorted (x : A) (l : list A) :
  StronglySorted ge l -> StronglySorted ge (insert_desc key x l).
Proof.
  induction 1 as [|y l Hs IH Hall]; simpl.
  - repeat constructor.
  - destruct (Qlt_bool (key x) (key y)) eqn:E.
    + constructor; [exact IH|].
      eapply Permutation_Forall.
      * apply Permutation_sym, insert_desc_perm.
      * constructor; [|exact Hall].
        unfold ge. apply Qlt_le_weak. now apply Qlt_bool_true_lt.
    + apply Qlt_bool_false_le in E.
      constructor; [now constructor|].
      constructor; [exact E|].
      eapply Forall_impl; [|exact Hall].
      intros z Hz. unfold ge in *. eapply Qle_trans; eassumption.
Qed.

Lemma sort_desc_sorted (l : list A) : StronglySorted ge (sort_desc key l).
Proof.
  induction l; simpl.
  - constructor.
  - now apply insert_desc_sorted.
Qed.

(** Stability: the elements with a given key keep their order. *)
Lemma insert_desc_tied (q : Q) (x : A) (l : list A) :
  filter (fun a => Qeq_bool (key a) q) (insert_desc key x l)
  = filter (fun a => Qeq_bool (key a) q) (x :: l).
Proof.
  induction l as [|y l IH]; [reflexivity|].
  simpl insert_desc.
  destruct (Qlt_bool (key x) (key y)) eqn:E; [|reflexivity].
  simpl in *. rewrite IH.
  destruct (Qeq_bool (key x) q) eqn:Ex; [|reflexivity].
  destruct (Qeq_bool (key y) q) eqn:Ey; [|reflexivity].
  exfalso.
  apply Qlt_bool_true_lt in E.
  apply Qeq_bool_iff in Ex. apply Qeq_bool_iff in Ey.
  rewrite Ex, Ey in E. exact (Qlt_irrefl q E).
Qed.

Lemma sort_desc_tied (q : Q) (l : list A) :
  filter (fun a => Qeq_bool (key a) q) (sort_desc key l)
  = filter (fun a => Qeq_bool (key a) q) l.
Proof.
  induction l as [|x l IH]; [reflexivity|].
  simpl sort_desc. rewrite insert_desc_tied. simpl. now rewrite IH.
Qed.
End SortFacts.

(** ** document_retrieval.py *)

Lemma subseq_nil_l {A : Type} (l : list A) : Subseq [] l.
Proof. induction l; constructor; assumption. Qed.

Lemma enumerate_from_snd {A : Type} (l : list A) (k : nat) :
  map snd (enumerate_from k l) = l.
Proof.
  revert k. induction l as [|x l IH]; intro k; simpl; [reflexivity|].
  now rewrite IH.
Qed.

Lemma enumerate_from_length {A : Type} (l : list A) (k : nat) :
  length (enumerate_from k l) = length l.
Proof.
  revert k. induction l as [|x l IH]; intro k; simpl; [reflexivity|].
  now rewrite IH.
Qed.

Lemma enumerate_from_In {A : Type} (l : list A) (k i : nat) (x : A) :
  In (i, x) (enumerate_from k l) -> (k <= i < k + length l)%nat.
Proof.
  revert k. induction l as [|y l IH]; intro k; simpl; [tauto|].
  intros [H|H].
  - inversion H; subst. lia.
  - apply IH in H. lia.
Qed.

Section RetrieveFacts.
Import DocumentRetrieval.

Lemma format_match_kept (r : QueryResult) (thr : Q) (i : nat) (doc_id : string)
      (m : Match) :
  format_match r thr i doc_id = Ok (Some m) ->
  id m = doc_id
  /\ forall d, distance_at r i = Ok (Some d) -> thr <= similarity m.
Proof.
  unfold format_match.
  destruct (distance_at r i) as [dist|e]; simpl; [|discriminate].
  destruct (match dist with
            | Some d => Qlt_bool (1 - d) thr
            | None => false
            end) eqn:Hskip; [discriminate|].
  destruct (first_row "documents" (documents r)) as [docs|e]; simpl; [|discriminate].
  destruct (item docs i) as [doc|e]; simpl; [|discriminate].
  destruct (consistent_text (text_of_document doc) (metadata_at r i))
    as [t|e]; simpl; [|discriminate].
  destruct (loggable_text t) as [s|e]; simpl; [|discriminate].
  intro H. inversion H; subst; clear H. simpl. split; [reflexivity|].
  intros d Hd. inversion Hd; subst.
  now apply Qlt_bool_false_le.
Qed.

Lemma collect_matches_spec (r : QueryResult) (thr : Q) :
  forall (todo : list (nat * string)) (acc out : list Match),
    collect_matches r thr todo acc = Ok out ->
    exists fresh,
      out = acc ++ fresh
      /\ Subseq (map id fresh) (map snd todo)
      /\ (length fresh <= length todo)%nat
      /\ ((forall i x, In (i, x) todo -> exists d, distance_at r i = Ok (Some d)) ->
          Forall (fun m => thr <= similarity m) fresh).
Proof.
  induction todo as [|[i doc_id] todo IH]; intros acc out H; simpl in H.
  - inversion H; subst. exists []. rewrite app_nil_r.
    repeat split; auto. constructor.
  - destruct (format_match r thr i doc_id) as [m|e] eqn:Hm; simpl in H;
      [|discriminate].
    apply IH in H. destruct H as (fresh & Hout & Hsub & Hlen & Hall).
    destruct m as [m|].
    + exists (m :: fresh). apply format_match_kept in Hm.
      destruct Hm as [Hid Hsim].
      rewrite Hout, <- app_assoc. simpl.
      repeat split.
      * rewrite Hid. now constructor.
      * lia.
      * intro Hcov. constructor.
        -- destruct (Hcov i doc_id (or_introl eq_refl)) as [d Hd]. eauto.
        -- apply Hall. intros j x Hin. apply (Hcov j x). now right.
    + exists fresh. repeat split; auto.
      * now constructor.
      * simpl. lia.
      * intro Hcov. apply Hall. intros j x Hin. apply (Hcov j x). now right.
Qed.

Lemma contract_covers (top_k : Z) (r : QueryResult) (ids_row : list string) :
  store_contract top_k r ->
  first_row "ids" (ids r) = Ok ids_row ->
  (Z.of_nat (length ids_row) <= top_k)%Z
  /\ forall i x, In (i, x) (enumerate ids_row) ->
                 exists d, distance_at r i = Ok (Some d).
Proof.
  intros Hc Hrow. unfold first_row in Hrow.
  destruct (ids r) as [| |rows] eqn:Hids; try discriminate.
  destruct rows as [|row rest]; [discriminate|].
  inversion Hrow; subst; clear Hrow.
  destruct (Hc ids_row rest Hids) as (Hk & d_row & d_rest & Hd & Hlen).
  split; [exact Hk|].
  intros i x Hin. apply enumerate_from_In in Hin.
  unfold distance_at. rewrite Hd. simpl.
  destruct (nth_error d_row i) as [d|] eqn:Hn; [eauto|].
  apply nth_error_None in Hn. lia.
Qed.
End RetrieveFacts.

(** C1. With an index that answers [query(text, top_k)] within its
    contract, every match returned by [retrieve_documents] has a similarity
    of at least [similarity_threshold], there are at most [top_k] matches,
    they are in descending order of similarity, and matches with equal
    similarity stand in the order in which the store returned them. *)
Theorem retrieve_documents_ranked :
  forall (store : Query) (query : string) (top_k : Z) (similarity_threshold : Q),
    (0 <= top_k)%Z ->
    (forall r, store query top_k = Ok (Some r) -> store_contract top_k r) ->
    let ms := DocumentRetrieval.matches
                (value (DocumentRetrieval.retrieve_documents
                          store query top_k similarity_threshold)) in
    Forall (fun m => similarity_threshold <= DocumentRetrieval.similarity m) ms
    /\ (Z.of_nat (length ms) <= top_k)%Z
    /\ descending ms
    /\ exists kept,
         (forall r ids_row,
             store query top_k = Ok (Some r) ->
             first_row "ids" (ids r) = Ok ids_row ->
             Subseq (map DocumentRetrieval.id kept) ids_row)
         /\ forall q, tied q ms = tied q kept.
Proof.
  intros store query top_k thr Hk Hstore ms.
  assert (Hempty :
            ms = [] ->
            Forall (fun m => thr <= DocumentRetrieval.similarity m) ms
            /\ (Z.of_nat (length ms) <= top_k)%Z
            /\ descending ms
            /\ exists kept,
                 (forall r ids_row,
                     store query top_k = Ok (Some r) ->
                     first_row "ids" (ids r) = Ok ids_row ->
                     Subseq (map DocumentRetrieval.id kept) ids_row)
                 /\ forall q, tied q ms = tied q kept).
  { intros ->. repeat split; try constructor; simpl; try lia.
    exists []. split; [|reflexivity]. intros. apply subseq_nil_l. }
  subst ms. unfold DocumentRetrieval.retrieve_documents in *.
  destruct (truthy query); simpl negb; cbv iota; [|now apply Hempty].
  unfold DocumentRetrieval.retrieve_body, call, bind in *.
  destruct (store query top_k) as [[r|]|e] eqn:Hq;
    try (now apply Hempty).
  destruct (DocumentRetrieval.no_documents (Some r)); [now apply Hempty|].
  unfold lift in *.
  destruct (first_row "ids" (ids r)) as [ids_row|e] eqn:Hrow;
    [|now apply Hempty].
  destruct (DocumentRetrieval.collect_matches r thr (enumerate ids_row) [])
    as [found|e] eqn:Hfound; [|now apply Hempty].
  clear Hempty. simpl.
  apply collect_matches_spec in Hfound.
  destruct Hfound as (fresh & -> & Hsub & Hlen & Hall). simpl.
  destruct (contract_covers (Hstore r eq_refl) Hrow) as [Hle Hcov].
  unfold enumerate in *. rewrite enumerate_from_snd in Hsub.
  rewrite enumerate_from_length in Hlen.
  repeat split.
  - apply sort_desc_Forall. now apply Hall.
  - rewrite sort_desc_length. lia.
  - apply sort_desc_sorted.
  - exists fresh. split.
    + intros r' ids_row' Hr' Hrow'. congruence.
    + intro q. apply sort_desc_tied.
Qed.

Lemma retrieve_documents_ranked_witness :
  let ms := DocumentRetrieval.matches
              (value (DocumentRetrieval.retrieve_documents
                        Samples.lease_store "who is the tenant?"%string 5 (7 # 10))) in
  length ms = 1%nat
  /\ Forall (fun m => 7 # 10 <= DocumentRetrieval.similarity m) ms
  /\ (Z.of_nat (length ms) <= 5)%Z
  /\ descending ms.
Proof.
  split; [reflexivity|].
  assert (Hc : forall r, Samples.lease_store "who is the tenant?"%string 5%Z = Ok (Some r) ->
                         store_contract 5 r).
  { intros r Hr. inversion Hr; subst; clear Hr.
    intros ids_row rest Hids. inversion Hids; subst; clear Hids.
    split; [simpl; lia|].
    exists [1 # 10; 1 # 2], []. split; [reflexivity | simpl; lia]. }
  destruct (@retrieve_documents_ranked Samples.lease_store "who is the tenant?"%string
              5 (7 # 10) ltac:(lia) Hc) as (H1 & H2 & H3 & _).
  repeat split; assumption.
Defined.

(** C8. For the empty query [retrieve_documents] returns an empty list of
    matches, without an error marker, and no call reaches the chunk
    store. *)
Theorem retrieve_documents_empty_query :
  forall (store : Query) (top_k : Z) (similarity_threshold : Q),
    let run := DocumentRetrieval.retrieve_documents
                 store "" top_k similarity_threshold in
    DocumentRetrieval.matches (value run) = []
    /\ DocumentRetrieval.error (value run) = None
    /\ calls run = [].
Proof. intros. repeat split. Qed.

(** ** Computations *)

Lemma value_bind {A B : Type} (m : M A) (f : A -> M B) :
  value (bind m f) = exc_bind (value m) (fun a => value (f a)).
Proof.
  destruct m as [l [a|e]]; simpl; [|reflexivity].
  destruct (f a); reflexivity.
Qed.

Lemma value_try_except {A : Type} (m : M A) (h : string -> A) :
  value (try_except m h) = match value m with
                           | Ok a => a
                           | Raise e => h e
                           end.
Proof. destruct m as [l [a|e]]; reflexivity. Qed.

Lemma calls_bind {A B : Type} (m : M A) (f : A -> M B) :
  calls (bind m f)
  = calls m ++ match value m with
               | Ok a => calls (f a)
               | Raise _ => []
               end.
Proof.
  destruct m as [l [a|e]]; simpl; [|now rewrite app_nil_r].
  destruct (f a); reflexivity.
Qed.

Lemma Forall_calls_bind {A B : Type} (P : Event -> Prop) (m : M A) (f : A -> M B) :
  Forall P (calls m) ->
  (forall a, value m = Ok a -> Forall P (calls (f a))) ->
  Forall P (calls (bind m f)).
Proof.
  intros Hm Hf. rewrite calls_bind. apply Forall_app. split; [exact Hm|].
  destruct (value m) as [a|e] eqn:E; [now apply Hf | constructor].
Qed.

Lemma value_answer_question (self : ChatbotModel.QAModel)
      (question context : string) (n : Z) :
  value (ChatbotModel.answer_question self question context n)
  = match value (ChatbotModel.answer_body self question context n) with
    | Ok r => r
    | Raise e => ChatbotModel.question_error_result e
    end.
Proof.
  unfold ChatbotModel.answer_question.
  destruct (ChatbotModel.answer_body self question context n) as [l [r|e]];
    reflexivity.
Qed.

(** ** Strings *)

Lemma lstrip_length (s : string) : (String.length (lstrip s) <= String.length s)%nat.
Proof.
  induction s as [|c s IH]; simpl; [lia|].
  destruct (isspace c); simpl; lia.
Qed.

Lemma rstrip_length (s : string) : (String.length (rstrip s) <= String.length s)%nat.
Proof.
  induction s as [|c s IH]; simpl; [lia|].
  destruct (rstrip s); [destruct (isspace c)|]; simpl in *; lia.
Qed.

Lemma strip_length (s : string) : (String.length (strip s) <= String.length s)%nat.
Proof.
  unfold strip. etransitivity; [apply rstrip_length | apply lstrip_length].
Qed.

(** C7. For a context that is empty or shorter than five characters
    [answer_question] returns the fixed no-context result, with
    [has_answer] false and confidence 0.0, whatever the question; neither
    the tokenizer nor the network is called. *)
Theorem answer_question_short_context :
  forall (self : ChatbotModel.QAModel) (question context : string) (n : Z),
    (context = ""%string \/ (String.length context < 5)%nat) ->
    ChatbotModel.answer_question self question context n
    = ([CallAnswerQuestion question context],
       {| ChatbotModel.answer := "No context provided to answer the question.";
          ChatbotModel.confidence := Fin 0;
          ChatbotModel.has_answer := false |}).
Proof.
  intros self question context n H.
  assert (Hs : ChatbotModel.too_short context = true).
  { unfold ChatbotModel.too_short. destruct H as [->|H]; [reflexivity|].
    apply orb_true_iff. right. apply Z.ltb_lt. unfold len.
    pose proof (strip_length context). lia. }
  unfold ChatbotModel.answer_question, ChatbotModel.answer_body.
  rewrite Hs. reflexivity.
Qed.

Lemma answer_question_short_context_witness :
  ChatbotModel.answer_question (Samples.qa Samples.lease_store) "who?" "Bob." 100
  = ([CallAnswerQuestion "who?" "Bob."], ChatbotModel.no_context_result).
Proof.
  apply answer_question_short_context. right. simpl. lia.
Defined.

(** ** The span search *)

Lemma value_call {A : Type} (ev : Event) (x : Exc A) : value (call ev x) = x.
Proof. reflexivity. Qed.

Lemma value_lift {A : Type} (x : Exc A) : value (lift x) = x.
Proof. reflexivity. Qed.

Lemma value_ret {A : Type} (a : A) : value (ret a) = Ok a.
Proof. reflexivity. Qed.

Lemma score_gt_fin_true (x y : Q) : score_gt (Fin x) (Fin y) = true -> y < x.
Proof.
  simpl. intro H. apply negb_true_iff in H.
  apply Qnot_le_lt. intro Hle. apply Qle_bool_iff in Hle. congruence.
Qed.

Lemma score_gt_fin_false (x y : Q) : score_gt (Fin x) (Fin y) = false -> x <= y.
Proof.
  simpl. intro H. apply negb_false_iff in H. now apply Qle_bool_iff.
Qed.

Lemma strip_truthy (s : string) : truthy (strip s) = true -> truthy s = true.
Proof. destruct s; [discriminate | reflexivity]. Qed.

Lemma gather_app {A : Type} (f : A -> Exc (list Candidate)) (l1 l2 : list A) :
  gather f (l1 ++ l2)
  = exc_bind (gather f l1) (fun c1 =>
    exc_bind (gather f l2) (fun c2 => Ok (c1 ++ c2))).
Proof.
  induction l1 as [|x l1 IH]; simpl.
  - destruct (gather f l2); reflexivity.
  - destruct (f x) as [c|e]; simpl; [|reflexivity].
    rewrite IH. destruct (gather f l1) as [c1|e]; simpl; [|reflexivity].
    destruct (gather f l2) as [c2|e]; simpl; [|reflexivity].
    now rewrite app_assoc.
Qed.

Lemma gather_Forall {A : Type} (P : Candidate -> Prop)
      (f : A -> Exc (list Candidate)) :
  (forall x cs, f x = Ok cs -> Forall P cs) ->
  forall l cs, gather f l = Ok cs -> Forall P cs.
Proof.
  intros Hf. induction l as [|x l IH]; simpl; intros cs H.
  - inversion H. constructor.
  - destruct (f x) as [c|e] eqn:Hx; simpl in H; [|discriminate].
    destruct (gather f l) as [c'|e]; simpl in H; [|discriminate].
    inversion H. apply Forall_app. split; eauto.
Qed.

(** The best span after a list of candidates: either none of them beat
    the starting point, or the result is one of them and no candidate
    scores higher. *)
Lemma fold_consider (cs : list Candidate) :
  forall best,
    let b := fold_left consider cs best in
    (b = best
     /\ forall c, In c cs ->
                  score_gt (Fin (fst c)) (ChatbotModel.best_confidence best) = false)
    \/ (exists c,
           In c cs
           /\ b = {| ChatbotModel.best_answer := snd c;
                     ChatbotModel.best_confidence := Fin (fst c) |}
           /\ (forall c', In c' cs -> fst c' <= fst c)
           /\ score_gt (Fin (fst c)) (ChatbotModel.best_confidence best) = true).
Proof.
  induction cs as [|c0 cs IH]; intro best; cbn [fold_left].
  - left. split; [reflexivity | intros c []].
  - destruct (score_gt (Fin (fst c0)) (ChatbotModel.best_confidence best)) eqn:E.
    + assert (Hc : consider best c0
                   = {| ChatbotModel.best_answer := snd c0;
                        ChatbotModel.best_confidence := Fin (fst c0) |})
        by (unfold consider; now rewrite E).
      rewrite Hc. right.
      destruct (IH {| ChatbotModel.best_answer := snd c0;
                      ChatbotModel.best_confidence := Fin (fst c0) |})
        as [[Hb Hall] | (c & Hin & Hb & Hall & Hgt)];
        cbn [ChatbotModel.best_confidence] in *.
      * exists c0. split; [now left|]. split; [exact Hb|]. split; [|exact E].
        intros c' [<-|Hin]; [apply Qle_refl|].
        apply score_gt_fin_false. now apply Hall.
      * exists c. split; [now right|]. split; [exact Hb|]. split.
        -- intros c' [<-|Hin']; [|now apply Hall].
           apply Qlt_le_weak. now apply score_gt_fin_true.
        -- destruct (ChatbotModel.best_confidence best) as [|y]; [reflexivity|].
           apply score_gt_fin_true in E. apply score_gt_fin_true in Hgt.
           simpl. apply negb_true_iff.
           destruct (Qle_bool (fst c) y) eqn:Hle; [|reflexivity].
           apply Qle_bool_iff in Hle. exfalso.
           apply (Qlt_irrefl y).
           eapply Qlt_le_trans; [|exact Hle].
           eapply Qlt_trans; eassumption.
    + assert (Hc : consider best c0 = best)
        by (unfold consider; now rewrite E).
      rewrite Hc.
      destruct (IH best) as [[Hb Hall] | (c & Hin & Hb & Hall & Hgt)].
      * left. split; [exact Hb|]. intros c [<-|Hin]; auto.
      * right. exists c. split; [now right|]. split; [exact Hb|].
        split; [|exact Hgt].
        intros c' [<-|Hin']; [|now apply Hall].
        destruct (ChatbotModel.best_confidence best) as [|y]; [discriminate|].
        apply score_gt_fin_false in E. apply score_gt_fin_true in Hgt.
        apply Qlt_le_weak. eapply Qle_lt_trans; eassumption.
Qed.

Section SearchFacts.
Import ChatbotModel.
Variable self : QAModel.
Variable n : Z.

Lemma invalid_span_valid (s e : nat) :
  invalid_span n s e
  = negb ((s <=? e)%nat && (Z.of_nat e - Z.of_nat s + 1 <=? n)%Z).
Proof.
  unfold invalid_span.
  destruct (Nat.ltb_spec e s), (Nat.leb_spec s e); try lia;
    destruct (Z.gtb_spec (Z.of_nat e - Z.of_nat s + 1) n),
             (Z.leb_spec (Z.of_nat e - Z.of_nat s + 1) n);
    try lia; reflexivity.
Qed.

Lemma value_try_span (input_ids : list Z) (sl el : list Q) (s e : nat) (best : Best) :
  value (try_span self n input_ids sl el s e best)
  = exc_bind (span_candidate self n input_ids sl el (s, e))
             (fun cs => Ok (fold_left consider cs best)).
Proof.
  unfold try_span, span_candidate. rewrite invalid_span_valid.
  destruct ((s <=? e)%nat && (Z.of_nat e - Z.of_nat s + 1 <=? n)%Z);
    simpl negb; cbv iota; [|reflexivity].
  rewrite value_bind, value_call.
  destruct (decode self true (slice input_ids s (e + 1))) as [t|err];
    simpl; [|reflexivity].
  destruct (truthy (strip t)); simpl; [|reflexivity].
  unfold consider, span_score. simpl.
  destruct (best_confidence best) as [|y]; [reflexivity|].
  destruct (Qle_bool (nth s sl 0 + nth e el 0) y); reflexivity.
Qed.

Lemma value_scan_ends (input_ids : list Z) (sl el : list Q) (s : nat) :
  forall (ends : list nat) (best : Best),
    value (scan_ends self n input_ids sl el s ends best)
    = exc_bind (gather (span_candidate self n input_ids sl el)
                       (map (fun e => (s, e)) ends))
               (fun cs => Ok (fold_left consider cs best)).
Proof.
  induction ends as [|e ends IH]; intro best; [reflexivity|].
  cbn [scan_ends]. rewrite value_bind, value_try_span.
  set (f := span_candidate self n input_ids sl el) in *.
  cbn [map gather].
  destruct (f (s, e)) as [c|err]; cbn [exc_bind]; [|reflexivity].
  rewrite IH.
  destruct (gather f (map (fun e0 => (s, e0)) ends)) as [cs|err];
    cbn [exc_bind]; [|reflexivity].
  now rewrite fold_left_app.
Qed.

Lemma value_scan_starts (input_ids : list Z) (sl el : list Q) (ends : list nat) :
  forall (starts : list nat) (best : Best),
    value (scan_starts self n input_ids sl el starts ends best)
    = exc_bind (gather (span_candidate self n input_ids sl el)
                       (list_prod starts ends))
               (fun cs => Ok (fold_left consider cs best)).
Proof.
  induction starts as [|s starts IH]; intro best; [reflexivity|].
  cbn [scan_starts]. rewrite value_bind, value_scan_ends.
  set (f := span_candidate self n input_ids sl el) in *.
  cbn [list_prod]. rewrite gather_app.
  destruct (gather f (map (fun y => (s, y)) ends)) as [c|err];
    cbn [exc_bind]; [|reflexivity].
  rewrite IH.
  destruct (gather f (list_prod starts ends)) as [cs|err];
    cbn [exc_bind]; [|reflexivity].
  now rewrite fold_left_app.
Qed.

Lemma value_scan_chunk (question chunk : string) (best : Best) :
  value (scan_chunk self question n chunk best)
  = exc_bind (chunk_candidates self n question chunk)
             (fun cs => Ok (fold_left consider cs best)).
Proof.
  unfold scan_chunk, chunk_candidates.
  rewrite value_bind, value_call.
  destruct (tokenizer self question chunk) as [input_ids|err];
    cbn [exc_bind]; [|reflexivity].
  rewrite value_bind, value_call.
  destruct (model self input_ids) as [[sl el]|err];
    cbn [exc_bind fst snd]; [|reflexivity].
  rewrite value_bind, value_call.
  destruct (topk self sl top_k) as [starts|err]; cbn [exc_bind]; [|reflexivity].
  rewrite value_bind, value_call.
  destruct (topk self el top_k) as [ends|err]; cbn [exc_bind]; [|reflexivity].
  apply value_scan_starts.
Qed.

Lemma value_scan_chunks (question : string) :
  forall (chunks : list string) (best : Best),
    value (scan_chunks self question n chunks best)
    = exc_bind (all_candidates self n question chunks)
               (fun cs => Ok (fold_left consider cs best)).
Proof.
  unfold all_candidates.
  induction chunks as [|chunk chunks IH]; intro best; [reflexivity|].
  cbn [scan_chunks]. rewrite value_bind, value_scan_chunk.
  set (f := chunk_candidates self n question) in *.
  cbn [gather].
  destruct (f chunk) as [c|err]; cbn [exc_bind]; [|reflexivity].
  rewrite IH.
  destruct (gather f chunks) as [cs|err]; cbn [exc_bind]; [|reflexivity].
  now rewrite fold_left_app.
Qed.

Lemma candidates_nonblank (question : string) (chunks : list string)
      (cands : list Candidate) :
  all_candidates self n question chunks = Ok cands ->
  Forall (fun c => truthy (snd c) = true) cands.
Proof.
  apply gather_Forall. intros chunk cs. unfold chunk_candidates.
  destruct (tokenizer self question chunk) as [input_ids|]; simpl; [|discriminate].
  destruct (model self input_ids) as [logits|]; simpl; [|discriminate].
  destruct (topk self (fst logits) top_k) as [starts|]; simpl; [|discriminate].
  destruct (topk self (snd logits) top_k) as [ends|]; simpl; [|discriminate].
  apply gather_Forall. intros [s e] cs'. unfold span_candidate.
  destruct (_ && _); [|intro H; inversion H; constructor].
  destruct (decode self true _) as [t|]; simpl; [|discriminate].
  destruct (truthy (strip t)) eqn:Ht; intro H; inversion H; constructor.
  - simpl. now apply strip_truthy.
  - constructor.
Qed.

(** The result of the search on a list of candidates. *)
Lemma search_result (cands : list Candidate) :
  let best := fold_left consider cands
                        {| best_answer := ""; best_confidence := NegInf |} in
  Forall (fun c => truthy (snd c) = true) cands ->
  best_of cands
          (if truthy (best_answer best)
           then {| answer := best_answer best;
                   confidence := best_confidence best;
                   has_answer := true |}
           else not_found_result).
Proof.
  intros best Hall. subst best.
  destruct (fold_consider cands {| best_answer := ""; best_confidence := NegInf |})
    as [[Hb Hnone] | (c & Hin & Hb & Hmax & _)]; rewrite Hb; simpl.
  - destruct cands as [|c cs]; [reflexivity|].
    specialize (Hnone c (or_introl eq_refl)). discriminate.
  - rewrite Forall_forall in Hall. rewrite (Hall c Hin).
    destruct cands as [|c0 cs]; [contradiction|].
    simpl. split; [reflexivity|].
    exists (fst c). split; [now rewrite <- surjective_pairing|].
    split; [reflexivity | exact Hmax].
Qed.
End SearchFacts.

(** ** answer_question and process_query *)

Lemma long_context_not_short (context : string) :
  (5 <= len (strip context))%Z -> ChatbotModel.too_short context = false.
Proof.
  intro H. unfold ChatbotModel.too_short.
  destruct context as [|c s]; [change (len (strip "")) with 0%Z in H; lia|].
  simpl. apply Z.ltb_ge. exact H.
Qed.

(** The scores of the sample network have no ties, so that [topk] has
    one possible result on them. *)
Lemma scored_distinct (peak : Z -> Z) (w : list Z) :
  (length w <= 1000)%nat -> Samples.distinct (Samples.scored peak w) = true.
Proof.
  unfold Samples.scored, enumerate.
  assert (H : forall (k : nat),
             (k + length w <= 1000)%nat ->
             Samples.distinct
               (map (fun it => inject_Z (1000 * peak (snd it) - Z.of_nat (fst it)))
                    (enumerate_from k w)) = true).
  { induction w as [|t w IH]; intros k Hlen; [reflexivity|].
    cbn [enumerate_from map Samples.distinct fst snd].
    apply andb_true_iff. split; [|apply IH; simpl in Hlen; lia].
    apply negb_true_iff.
    destruct (existsb _ _) eqn:He; [|reflexivity].
    exfalso. apply existsb_exists in He. destruct He as (y & Hin & Heq).
    apply in_map_iff in Hin. destruct Hin as ([j t'] & <- & Hin).
    apply enumerate_from_In in Hin. cbn [fst snd] in Heq.
    apply Qeq_bool_iff in Heq.
    apply (proj1 (inject_Z_injective _ _)) in Heq.
    simpl in Hlen. lia. }
  intro Hlen. apply (H 0%nat). lia.
Qed.

Lemma window_length (question chunk : string) :
  length (Samples.window question chunk) = 512%nat.
Proof.
  unfold Samples.window, Samples.pad_to.
  rewrite firstn_length_le; [reflexivity|].
  rewrite length_app, repeat_length. lia.
Qed.

Lemma sample_scores_distinct (store : Query) (question chunk : string)
      (start_logits end_logits : list Q) :
  ChatbotModel.model (Samples.qa store) (Samples.window question chunk)
  = Ok (start_logits, end_logits) ->
  Samples.distinct start_logits = true /\ Samples.distinct end_logits = true.
Proof.
  intro H. inversion H; subst.
  split; apply scored_distinct; rewrite window_length; lia.
Qed.

(** C3 (amended). For every question and every context whose text
    without the surrounding white space has at least five characters, when
    every call of the tokenizer, of the network and of [topk] succeeds,
    [answer_question] returns the decoded text of a valid candidate span
    whose start score plus end score is the maximum over the candidates of
    all chunks of the context, with [has_answer] true and that maximum as
    confidence; when no chunk has a valid candidate it returns the fixed
    not-found message with [has_answer] false and confidence 0.0. The
    candidates of a chunk are the pairs of one of the ten start positions
    and one of the ten end positions that [topk] returns. *)
Theorem answer_question_global_best :
  forall (self : ChatbotModel.QAModel) (question context : string) (n : Z)
         (question_tokens : list Z) (chunks : list string)
         (cands : list Candidate),
    (5 <= len (strip context))%Z ->
    ChatbotModel.encode self question = Ok question_tokens ->
    value (ChatbotModel.build_chunks
             self context (ChatbotModel.context_budget question_tokens))
    = Ok chunks ->
    all_candidates self n question chunks = Ok cands ->
    best_of cands (value (ChatbotModel.answer_question self question context n)).
Proof.
  intros self question context n qt chunks cands Hlong Henc Hchunks Hcands.
  rewrite value_answer_question. unfold ChatbotModel.answer_body.
  rewrite (long_context_not_short _ Hlong).
  rewrite value_bind, value_call, Henc. cbn [exc_bind].
  rewrite value_bind, Hchunks. cbn [exc_bind].
  rewrite value_bind, value_scan_chunks, Hcands. cbn [exc_bind].
  pose proof (@search_result cands (candidates_nonblank _ _ _ _ Hcands)) as Hs.
  cbv zeta in Hs. revert Hs.
  destruct (truthy _); intro Hs; exact Hs.
Qed.

Lemma answer_question_global_best_witness :
  let self := Samples.qa Samples.lease_store in
  let p1 := (Samples.copies 300 "x" ++ " Ann.")%string in
  let p2 := ("Bob. " ++ Samples.copies 300 "y")%string in
  let p3 := (Samples.copies 300 "z" ++ " Cy.")%string in
  let context := join (String newline "") [p1; p2; p3] in
  value (ChatbotModel.build_chunks
           self context (ChatbotModel.context_budget (Samples.char_tokens "who?")))
  = Ok [p1; p2; p3]
  /\ exists cands,
       all_candidates self 100 "who?" [p1; p2; p3] = Ok cands
       /\ In (4381, "Ann."%string) cands
       /\ In (4983, "Bob."%string) cands
       /\ In (4382, "Cy."%string) cands
       /\ best_of cands (value (ChatbotModel.answer_question self "who?" context 100))
       /\ value (ChatbotModel.answer_question self "who?" context 100)
          = {| ChatbotModel.answer := "Bob.";
               ChatbotModel.confidence := Fin 4983;
               ChatbotModel.has_answer := true |}.
Proof.
  intros self p1 p2 p3 context.
  assert (Hchunks : value (ChatbotModel.build_chunks
                             self context
                             (ChatbotModel.context_budget
                                (Samples.char_tokens "who?")))
                    = Ok [p1; p2; p3]) by (vm_compute; reflexivity).
  split; [exact Hchunks|].
  destruct (all_candidates self 100 "who?" [p1; p2; p3]) as [cands|e] eqn:Hc;
    [|vm_compute in Hc; discriminate].
  exists cands. split; [reflexivity|].
  pose proof (@answer_question_global_best
                self "who?"%string context 100%Z (Samples.char_tokens "who?")
                [p1; p2; p3] cands) as Hbest.
  assert (Hlong : (5 <= len (strip context))%Z) by (vm_compute; discriminate).
  specialize (Hbest Hlong eq_refl Hchunks Hc).
  vm_compute in Hc. injection Hc as Hcs. subst cands.
  split; [cbn [In]; tauto|].
  split; [cbn [In]; tauto|].
  split; [cbn [In]; tauto|].
  split; [exact Hbest|].
  vm_compute. reflexivity.
Defined.

(** C3 as stated fails in two ways. A context of eight characters of
    which only two are not white space is answered with the no-context
    result although its chunk has valid candidate spans; and with a
    tokenizer that is out of service the result is neither an answer nor
    the fixed not-found message. *)
Lemma answer_question_padded_context_counterexample :
  ~ (forall (self : ChatbotModel.QAModel) (question context : string) (n : Z)
            (question_tokens : list Z) (chunks : list string)
            (cands : list Candidate),
        (5 <= len context)%Z ->
        ChatbotModel.encode self question = Ok question_tokens ->
        value (ChatbotModel.build_chunks
                 self context (ChatbotModel.context_budget question_tokens))
        = Ok chunks ->
        all_candidates self n question chunks = Ok cands ->
        best_of cands
                (value (ChatbotModel.answer_question self question context n)))
  /\ ~ (forall (self : ChatbotModel.QAModel) (question context : string) (n : Z),
          (5 <= len (strip context))%Z ->
          let r := value (ChatbotModel.answer_question self question context n) in
          ChatbotModel.has_answer r = true
          \/ r = ChatbotModel.not_found_result).
Proof.
  split.
  - intro H.
    pose (self := Samples.qa Samples.lease_store).
    destruct (all_candidates self 100 "who?" ["   ab   "%string])
      as [cands|e] eqn:Hc; [|vm_compute in Hc; discriminate].
    assert (Hlen : (5 <= len "   ab   ")%Z) by (vm_compute; discriminate).
    specialize (H self "who?"%string "   ab   "%string 100%Z
                  (Samples.char_tokens "who?") ["   ab   "%string] cands
                  Hlen eq_refl eq_refl Hc).
    vm_compute in Hc. inversion Hc as [Hcs]. rewrite <- Hcs in H.
    destruct H as [Hh _]. vm_compute in Hh. discriminate.
  - intro H.
    assert (Hlen : (5 <= len (strip "the tenant is Bob."))%Z)
      by (vm_compute; discriminate).
    destruct (H Samples.broken_qa "who?"%string "the tenant is Bob."%string
                100%Z Hlen) as [Hh|Hr]; vm_compute in *; discriminate.
Qed.

(** Every normal return of the body of [answer_question]. *)
Lemma answer_body_shape (self : ChatbotModel.QAModel) (question context : string)
      (n : Z) (r : ChatbotModel.AnswerResult) :
  value (ChatbotModel.answer_body self question context n) = Ok r ->
  r = ChatbotModel.no_context_result
  \/ r = ChatbotModel.not_found_result
  \/ (ChatbotModel.has_answer r = true
      /\ exists q, ChatbotModel.confidence r = Fin q).
Proof.
  unfold ChatbotModel.answer_body.
  destruct (ChatbotModel.too_short context).
  - intro H. inversion H. now left.
  - rewrite value_bind, value_call.
    destruct (ChatbotModel.encode self question) as [qt|e];
      cbn [exc_bind]; [|discriminate].
    rewrite value_bind.
    destruct (value (ChatbotModel.build_chunks self context _)) as [chunks|e];
      cbn [exc_bind]; [|discriminate].
    rewrite value_bind, value_scan_chunks.
    destruct (all_candidates self n question chunks) as [cands|e];
      cbn [exc_bind]; [|discriminate].
    destruct (fold_consider cands
                {| ChatbotModel.best_answer := "";
                   ChatbotModel.best_confidence := NegInf |})
      as [[Hb _] | (c & _ & Hb & _)]; rewrite Hb; cbn [ChatbotModel.best_answer].
    + intro H. inversion H. right. now left.
    + destruct (truthy (snd c)); intro H; inversion H.
      * right. right. split; [reflexivity|]. now exists (fst c).
      * right. now left.
Qed.

Lemma answer_question_confidence (self : ChatbotModel.QAModel)
      (question context : string) (n : Z) :
  let r := value (ChatbotModel.answer_question self question context n) in
  (ChatbotModel.has_answer r = false -> ChatbotModel.confidence r = Fin 0)
  /\ ChatbotModel.confidence r <> NegInf.
Proof.
  cbv zeta. rewrite value_answer_question.
  destruct (value (ChatbotModel.answer_body self question context n))
    as [r|e] eqn:Hr.
  - apply answer_body_shape in Hr.
    destruct Hr as [-> | [-> | [Hh [q Hq]]]]; simpl.
    + split; [reflexivity | discriminate].
    + split; [reflexivity | discriminate].
    + rewrite Hh, Hq. split; [discriminate | discriminate].
  - simpl. split; [reflexivity | discriminate].
Qed.

Lemma calls_retrieve_documents (self : ChatbotModel.QAModel) (query : string) (k : Z) :
  calls (ChatbotModel.retrieve_documents self query k) = [CallStoreQuery query k].
Proof.
  unfold ChatbotModel.retrieve_documents, call, bind, lift, throw.
  destruct (ChatbotModel.collection_query self query k) as [[r|]|e];
    try reflexivity.
  destruct (first_row "documents" (documents r)) as [docs|e]; [|reflexivity].
  destruct (ChatbotModel.build_documents r (enumerate docs)); reflexivity.
Qed.

(** Every normal return of the body of [process_query]. *)
Lemma process_body_shape (self : ChatbotModel.QAModel) (query : string)
      (use_retrieved_docs : bool) (provided_docs : option (list ChatbotModel.DocItem))
      (r : ChatbotModel.AnswerResult) :
  value (ChatbotModel.process_body self query use_retrieved_docs provided_docs)
  = Ok r ->
  r = ChatbotModel.no_documents_result
  \/ exists context,
       r = value (ChatbotModel.answer_question
                    self query context ChatbotModel.default_max_answer_length).
Proof.
  unfold ChatbotModel.process_body. rewrite value_bind.
  match goal with
  | |- context [exc_bind (value ?m) _] =>
      destruct (value m) as [documents|e]; cbn [exc_bind]; [|discriminate]
  end.
  destruct documents as [|d ds].
  - intro H. inversion H. now left.
  - rewrite value_bind, value_lift.
    destruct (ChatbotModel.checked_strings _) as [parts|e];
      cbn [exc_bind]; [|discriminate].
    destruct (ChatbotModel.answer_question
                self query (join ChatbotModel.blank_line parts)
                ChatbotModel.default_max_answer_length) as [l res] eqn:Haq.
    intro H. inversion H. right.
    exists (join ChatbotModel.blank_line parts). now rewrite Haq.
Qed.

(** C10. In every result of [answer_question] and of [process_query] in
    which [has_answer] is false the confidence is exactly 0.0, and no
    result carries the minus-infinity start value of the span search. *)
Theorem no_answer_zero_confidence :
  forall (self : ChatbotModel.QAModel),
    (forall (question context : string) (n : Z),
        let r := value (ChatbotModel.answer_question self question context n) in
        (ChatbotModel.has_answer r = false -> ChatbotModel.confidence r = Fin 0)
        /\ ChatbotModel.confidence r <> NegInf)
    /\ (forall (query : string) (use_retrieved_docs : bool)
               (provided_docs : option (list ChatbotModel.DocItem)),
           let r := value (ChatbotModel.process_query
                             self query use_retrieved_docs provided_docs) in
           (ChatbotModel.has_answer r = false -> ChatbotModel.confidence r = Fin 0)
           /\ ChatbotModel.confidence r <> NegInf).
Proof.
  intro self. split.
  - intros. apply answer_question_confidence.
  - intros query use provided. cbv zeta.
    unfold ChatbotModel.process_query. rewrite value_try_except.
    destruct (value (ChatbotModel.process_body self query use provided))
      as [r|e] eqn:Hr.
    + apply process_body_shape in Hr. destruct Hr as [-> | [context ->]].
      * simpl. split; [reflexivity | discriminate].
      * apply answer_question_confidence.
    + simpl. split; [reflexivity | discriminate].
Qed.

Lemma no_answer_zero_confidence_witness :
  ChatbotModel.confidence
    (value (ChatbotModel.answer_question
              (Samples.qa Samples.lease_store) "who?" "Bob." 100)) = Fin 0
  /\ ChatbotModel.confidence
       (value (ChatbotModel.process_query
                 (Samples.qa Samples.failing_store) "who?" true None)) = Fin 0.
Proof.
  split.
  - apply (proj1 (no_answer_zero_confidence (Samples.qa Samples.lease_store))
                 "who?"%string "Bob."%string 100%Z).
    reflexivity.
  - apply (proj2 (no_answer_zero_confidence (Samples.qa Samples.failing_store))
                 "who?"%string true None).
    reflexivity.
Defined.

(** C4. When no chunk is available, because the retrieval returned an
    empty list or because [use_retrieved_docs] is false and
    [provided_docs] is empty or [None], [process_query] returns the fixed
    no-documents result with [has_answer] false and confidence 0.0, and no
    call of the span extractor is made: the only call, if any, is the
    query of the store. *)
Theorem process_query_no_documents :
  forall (self : ChatbotModel.QAModel) (query : string)
         (use_retrieved_docs : bool)
         (provided_docs : option (list ChatbotModel.DocItem)),
    (if use_retrieved_docs
     then value (ChatbotModel.retrieve_documents self query 5) = []
     else provided_docs = None \/ provided_docs = Some []) ->
    let run := ChatbotModel.process_query
                 self query use_retrieved_docs provided_docs in
    value run
    = {| ChatbotModel.answer := "No relevant documents found to answer your question.";
         ChatbotModel.confidence := Fin 0;
         ChatbotModel.has_answer := false |}
    /\ calls run = (if use_retrieved_docs then [CallStoreQuery query 5] else [])
    /\ Forall (fun ev => extractor_call ev = false) (calls run).
Proof.
  intros self query use provided H. cbv zeta.
  unfold ChatbotModel.process_query, ChatbotModel.process_body.
  destruct use.
  - pose proof (calls_retrieve_documents self query 5) as Hc.
    destruct (ChatbotModel.retrieve_documents self query 5) as [l docs].
    simpl in H, Hc. subst. simpl.
    repeat split. repeat constructor.
  - assert (Hd : match provided with Some docs => docs | None => [] end = [])
      by (destruct H as [->| ->]; reflexivity).
    rewrite Hd. simpl. repeat split. constructor.
Qed.

Lemma process_query_no_documents_witness :
  let run := ChatbotModel.process_query
               (Samples.qa Samples.failing_store) "what is a contract?" true None in
  value run = ChatbotModel.no_documents_result
  /\ calls run = [CallStoreQuery "what is a contract?" 5]
  /\ Forall (fun ev => extractor_call ev = false) (calls run).
Proof.
  apply (@process_query_no_documents (Samples.qa Samples.failing_store)
           "what is a contract?"%string true None).
  reflexivity.
Defined.

(** ** The paragraph partition *)

Lemma string_app_assoc (a b c : string) :
  ((a ++ b) ++ c)%string = (a ++ (b ++ c))%string.
Proof. induction a as [|x a IH]; simpl; [reflexivity | now rewrite IH]. Qed.

Lemma join_snoc (sep : string) (g : list string) (p : string) :
  g <> [] ->
  join sep (g ++ [p]) = (join sep g ++ sep ++ p)%string.
Proof.
  induction g as [|x g IH]; intro Hne; [congruence|].
  destruct g as [|y g]; [reflexivity|].
  change (join sep ((x :: y :: g) ++ [p]))
    with (x ++ sep ++ join sep ((y :: g) ++ [p]))%string.
  rewrite IH by discriminate.
  change (join sep (x :: y :: g)) with (x ++ sep ++ join sep (y :: g))%string.
  now rewrite !string_app_assoc.
Qed.

Lemma truthy_app (a b : string) : truthy a = true -> truthy (a ++ b) = true.
Proof. destruct a; [discriminate | reflexivity]. Qed.

Lemma join_truthy (sep : string) (g : list string) :
  g <> [] ->
  Forall (fun p => nonblank p = true) g ->
  truthy (join sep g) = true.
Proof.
  intros Hne Hall. destruct g as [|x g]; [congruence|].
  inversion Hall as [|? ? Hx _]; subst. apply strip_truthy in Hx.
  destruct g; [exact Hx | now apply truthy_app].
Qed.

Section PartitionFacts.
Import ChatbotModel.
Variable self : QAModel.
Variable budget : Z.

Lemma group_tokens_snoc (g : list string) (p : string) :
  group_tokens self (g ++ [p]) = (group_tokens self g + token_count self p)%Z.
Proof.
  induction g as [|x g IH]; simpl; [lia|]. rewrite IH. lia.
Qed.

Lemma flushed_snoc (l : list (list string)) (g1 g2 : list string) :
  flushed_on_overflow self budget (l ++ [g1]) ->
  (budget < group_tokens self g1 + token_count self (hd EmptyString g2))%Z ->
  flushed_on_overflow self budget ((l ++ [g1]) ++ [g2]).
Proof.
  induction l as [|x l IH]; intros Hf Hc.
  - simpl. auto.
  - destruct l as [|y l].
    + simpl in *. tauto.
    + change (flushed_on_overflow self budget (x :: (y :: l ++ [g1]) ++ [g2])).
      change (flushed_on_overflow self budget (x :: y :: l ++ [g1])) in Hf.
      cbn [flushed_on_overflow app] in *. destruct Hf as [Hxy Hrest].
      split; [exact Hxy|]. apply (IH Hrest Hc).
Qed.

Lemma flushed_extend_last (l : list (list string)) (g : list string) (p : string) :
  g <> [] ->
  flushed_on_overflow self budget (l ++ [g]) ->
  flushed_on_overflow self budget (l ++ [g ++ [p]]).
Proof.
  intro Hne. induction l as [|x l IH]; intro Hf.
  - simpl. exact I.
  - destruct l as [|y l].
    + simpl in *. destruct g; [congruence|]. simpl. tauto.
    + cbn [flushed_on_overflow app] in *. destruct Hf as [Hxy Hrest].
      split; [exact Hxy|]. apply (IH Hrest).
Qed.

(** What holds of the groups while the loop runs. *)
Let invariant (closed : list (list string)) (open : list string) : Prop :=
  Forall (fun g => g <> [] /\ within_budget self budget g) closed
  /\ Forall (fun p => nonblank p = true) open
  /\ (open <> [] -> within_budget self budget open
                    /\ flushed_on_overflow self budget (closed ++ [open]))
  /\ (open = [] -> closed = []).

Lemma split_paragraphs_groups :
  forall (paragraphs : list string) (st : ChunkState)
         (closed : list (list string)) (open : list string),
    (forall p, In p paragraphs -> nonblank p = true ->
               exists tokens, encode self p = Ok tokens) ->
    represents self st closed open ->
    invariant closed open ->
    exists st' closed' open',
      value (split_paragraphs self budget paragraphs st) = Ok st'
      /\ represents self st' closed' open'
      /\ invariant closed' open'
      /\ concat closed' ++ open'
         = (concat closed ++ open) ++ filter nonblank paragraphs.
Proof.
  induction paragraphs as [|p ps IH]; intros st closed open Henc Hrep Hinv.
  - exists st, closed, open. simpl. rewrite app_nil_r. auto.
  - cbn [split_paragraphs filter].
    change (truthy (strip p)) with (nonblank p).
    destruct (nonblank p) eqn:Hp; cbn [negb].
    + destruct (Henc p (or_introl eq_refl) Hp) as [tokens Htok].
      rewrite value_bind, value_call, Htok. cbn [exc_bind].
      assert (Hn : Z.of_nat (length tokens) = token_count self p)
        by (unfold token_count; now rewrite Htok).
      rewrite Hn.
      destruct Hrep as (Hchunks & Hcur & Hlen).
      destruct Hinv as (Hclosed & Hopen & Hlast & Hfirst).
      assert (Htruthy : truthy (current_chunk st) = true <-> open <> []).
      { rewrite Hcur. split.
        - intros Ht ->. discriminate.
        - intro Hne. now apply join_truthy. }
      destruct ((current_length st + token_count self p >? budget)%Z
                && truthy (current_chunk st)) eqn:Hflush.
      * apply andb_true_iff in Hflush. destruct Hflush as [Hover Ht].
        apply Htruthy in Ht. destruct (Hlast Ht) as [Hwb Hfl].
        apply Z.gtb_lt in Hover. rewrite Hlen in Hover.
        destruct (IH {| context_chunks := context_chunks st ++ [current_chunk st];
                        current_chunk := p;
                        current_length := token_count self p |}
                     (closed ++ [open]) [p])
          as (st' & closed' & open' & Hv & Hrep' & Hinv' & Hcat).
        -- intros q Hq. apply Henc. now right.
        -- repeat split; cbn [context_chunks current_chunk current_length].
           ++ now rewrite map_app, Hchunks, Hcur.
           ++ simpl. lia.
        -- split; [|split; [|split]].
           ++ apply Forall_app. split; [exact Hclosed|].
              constructor; [split; assumption | constructor].
           ++ constructor; [exact Hp | constructor].
           ++ intros _. split; [now left|].
              apply flushed_snoc; [exact Hfl | simpl; lia].
           ++ discriminate.
        -- exists st', closed', open'.
           split; [exact Hv|]. split; [exact Hrep'|]. split; [exact Hinv'|].
           rewrite Hcat, concat_app. simpl. rewrite app_nil_r.
           now rewrite <- !app_assoc.
      * destruct (IH {| context_chunks := context_chunks st;
                        current_chunk :=
                          if truthy (current_chunk st)
                          then (current_chunk st ++ String newline p)%string
                          else p;
                        current_length :=
                          (current_length st + token_count self p)%Z |}
                     closed (open ++ [p]))
          as (st' & closed' & open' & Hv & Hrep' & Hinv' & Hcat).
        -- intros q Hq. apply Henc. now right.
        -- repeat split; cbn [context_chunks current_chunk current_length].
           ++ exact Hchunks.
           ++ destruct open as [|x open].
              ** rewrite Hcur. reflexivity.
              ** rewrite (proj2 Htruthy) by discriminate.
                 rewrite join_snoc by discriminate. now rewrite Hcur.
           ++ rewrite group_tokens_snoc. lia.
        -- split; [|split; [|split]].
           ++ exact Hclosed.
           ++ apply Forall_app. split; [exact Hopen|].
              constructor; [exact Hp | constructor].
           ++ intros _. split.
              ** destruct open as [|x open]; [now left|].
                 right. rewrite group_tokens_snoc.
                 rewrite (proj2 Htruthy) in Hflush by discriminate.
                 rewrite andb_true_r in Hflush.
                 destruct (Z.gtb_spec (current_length st + token_count self p)
                                      budget);
                   [discriminate | lia].
              ** destruct open as [|x open].
                 --- rewrite (Hfirst eq_refl). exact I.
                 --- apply flushed_extend_last; [discriminate|].
                     apply Hlast. discriminate.
           ++ intro Habs. destruct open; discriminate.
        -- exists st', closed', open'.
           split; [exact Hv|]. split; [exact Hrep'|]. split; [exact Hinv'|].
           rewrite Hcat. now rewrite <- !app_assoc.
    + apply IH; try assumption. intros q Hq. apply Henc. now right.
Qed.
End PartitionFacts.

(** What the paragraph loop computes. When the tokenizer encodes every
    paragraph, the chunks are the groups of a partition of the non-blank
    lines of the context, each group joined by newlines. The loop adds up
    the token counts of the paragraphs of a group: a group of two or more
    paragraphs has a sum within the budget, while a single paragraph is a
    group whatever its size, and a group is closed exactly where the next
    paragraph would take the sum of a non-empty group over the budget. *)
Lemma paragraph_chunks_groups :
  forall (self : ChatbotModel.QAModel) (context : string) (budget : Z),
    (forall p, In p (split_lines context) -> nonblank p = true ->
               exists tokens, ChatbotModel.encode self p = Ok tokens) ->
    exists groups,
      value (ChatbotModel.paragraph_chunks self context budget)
      = Ok (map (join (String newline "")) groups)
      /\ concat groups = filter nonblank (split_lines context)
      /\ Forall (fun g => g <> [] /\ within_budget self budget g) groups
      /\ flushed_on_overflow self budget groups.
Proof.
  intros self context budget Henc.
  destruct (@split_paragraphs_groups self budget (split_lines context)
              {| ChatbotModel.context_chunks := [];
                 ChatbotModel.current_chunk := "";
                 ChatbotModel.current_length := 0 |} [] [] Henc)
    as (st & closed & open & Hv & (Hchunks & Hcur & _) &
        (Hclosed & Hopen & Hlast & Hfirst) & Hcat).
  - repeat split.
  - split; [constructor|]. split; [constructor|]. split; [congruence | reflexivity].
  - unfold ChatbotModel.paragraph_chunks. rewrite value_bind, Hv.
    cbn [exc_bind]. rewrite value_ret, Hchunks, Hcur.
    simpl in Hcat.
    destruct open as [|p open].
    + exists []. rewrite (Hfirst eq_refl) in *. simpl in *.
      split; [reflexivity|]. split; [exact Hcat|]. split; constructor.
    + exists (closed ++ [p :: open]).
      destruct (Hlast ltac:(discriminate)) as [Hwb Hfl].
      rewrite (@join_truthy (String newline "") (p :: open))
        by (assumption || discriminate).
      split; [now rewrite map_app|].
      split; [rewrite concat_app; simpl; now rewrite app_nil_r|].
      split; [|exact Hfl].
      apply Forall_app. split; [exact Hclosed|].
      constructor; [|constructor]. split; [discriminate | exact Hwb].
Qed.

(** C5, the behaviour of the code. A chunk can exceed the budget
    [window_length - question_token_count - special_token_overhead]. The
    loop never splits a paragraph: with a question of two tokens the
    budget is 507, and a context of one paragraph of 600 tokens is scored
    as one chunk of 600 tokens. The loop counts the paragraphs and not the
    chunk: with a question of 489 tokens the budget is 20, and two
    paragraphs of ten tokens each are joined into one chunk of 21 tokens.
    In both runs the chunks that are scored are those of the paragraph
    loop. *)
Theorem paragraph_chunks_over_budget :
  let self := Samples.qa Samples.lease_store in
  let long := Samples.copies 600 "a" in
  let pair := ("aaaaaaaaaa" ++ String newline "bbbbbbbbbb")%string in
  (ChatbotModel.context_budget (Samples.char_tokens "q?") = 507%Z
   /\ value (ChatbotModel.build_chunks self long 507) = Ok [long]
   /\ token_count self long = 600%Z)
  /\ (ChatbotModel.context_budget (Samples.char_tokens (Samples.copies 489 "q"))
      = 20%Z
      /\ value (ChatbotModel.build_chunks self pair 20) = Ok [pair]
      /\ token_count self "aaaaaaaaaa" = 10%Z
      /\ token_count self "bbbbbbbbbb" = 10%Z
      /\ token_count self pair = 21%Z).
Proof.
  cbv zeta. split.
  - split; [vm_compute; reflexivity|]. split; vm_compute; reflexivity.
  - split; [vm_compute; reflexivity|]. repeat split; vm_compute; reflexivity.
Qed.

(** ** The split by tokens is never reached *)

Lemma rstrip_truthy (s : string) : truthy (rstrip s) = has_ink s.
Proof.
  induction s as [|c s IH]; [reflexivity|].
  simpl. rewrite <- IH.
  destruct (rstrip s); [destruct (isspace c)|]; simpl;
    try reflexivity; now rewrite orb_true_r.
Qed.

Lemma lstrip_ink (s : string) : has_ink (lstrip s) = has_ink s.
Proof.
  induction s as [|c s IH]; [reflexivity|].
  simpl. destruct (isspace c) eqn:E; simpl; [exact IH | now rewrite E].
Qed.

Lemma nonblank_ink (s : string) : nonblank s = has_ink s.
Proof. unfold nonblank, strip. now rewrite rstrip_truthy, lstrip_ink. Qed.

Lemma split_lines_ink (s : string) :
  existsb nonblank (split_lines s) = has_ink s.
Proof.
  induction s as [|c s IH]; [reflexivity|].
  simpl split_lines. destruct (Ascii.eqb_spec c newline) as [->|Hc].
  - simpl. rewrite IH. reflexivity.
  - destruct (split_lines s) as [|p ps].
    + simpl in *. rewrite <- IH. rewrite nonblank_ink. simpl.
      now rewrite !orb_false_r.
    + simpl in *. rewrite <- IH, !nonblank_ink. simpl.
      now rewrite orb_assoc.
Qed.

Lemma split_paragraphs_open (self : ChatbotModel.QAModel) (budget : Z) :
  forall (paragraphs : list string) (st st' : ChatbotModel.ChunkState),
    value (ChatbotModel.split_paragraphs self budget paragraphs st) = Ok st' ->
    truthy (ChatbotModel.current_chunk st) || existsb nonblank paragraphs = true ->
    truthy (ChatbotModel.current_chunk st') = true.
Proof.
  induction paragraphs as [|p ps IH]; intros st st' Hv Hsome.
  - inversion Hv; subst. simpl in Hsome. now rewrite orb_false_r in Hsome.
  - cbn [ChatbotModel.split_paragraphs existsb] in *.
    change (truthy (strip p)) with (nonblank p) in Hv.
    destruct (nonblank p) eqn:Hp; cbn [negb] in Hv.
    + unfold nonblank in Hp. apply strip_truthy in Hp.
      rewrite value_bind, value_call in Hv.
      destruct (ChatbotModel.encode self p) as [tokens|e];
        cbn [exc_bind] in Hv; [|discriminate].
      destruct (_ && _) in Hv; apply IH in Hv; auto;
        cbn [ChatbotModel.current_chunk].
      * now rewrite Hp.
      * destruct (truthy (ChatbotModel.current_chunk st)) eqn:Hc.
        -- now rewrite truthy_app.
        -- now rewrite Hp.
    + apply IH in Hv; auto.
Qed.

(** For a context that passes the length guard the paragraph loop always
    leaves a chunk, so [build_chunks] returns the paragraph chunks. *)
Lemma build_chunks_paragraphs (self : ChatbotModel.QAModel) (context : string)
      (budget : Z) :
  ChatbotModel.too_short context = false ->
  value (ChatbotModel.build_chunks self context budget)
  = value (ChatbotModel.paragraph_chunks self context budget).
Proof.
  intro Hlong.
  assert (Hink : existsb nonblank (split_lines context) = true).
  { rewrite split_lines_ink, <- nonblank_ink. unfold nonblank.
    unfold ChatbotModel.too_short in Hlong. apply orb_false_iff in Hlong.
    destruct Hlong as [_ Hlen]. apply Z.ltb_ge in Hlen.
    destruct (strip context); [unfold len in Hlen; simpl in Hlen; lia | reflexivity]. }
  unfold ChatbotModel.build_chunks. rewrite value_bind.
  destruct (value (ChatbotModel.paragraph_chunks self context budget))
    as [chunks|e] eqn:Hp; cbn [exc_bind]; [|reflexivity].
  destruct chunks as [|chunk chunks]; [exfalso | reflexivity].
  unfold ChatbotModel.paragraph_chunks in Hp. rewrite value_bind in Hp.
  destruct (value (ChatbotModel.split_paragraphs self budget _ _))
    as [st|e] eqn:Hs; cbn [exc_bind] in Hp; [|discriminate].
  apply split_paragraphs_open in Hs; [|now rewrite Hink, orb_true_r].
  rewrite Hs, value_ret in Hp. inversion Hp as [Hnil].
  destruct (ChatbotModel.context_chunks st); discriminate.
Qed.

(** ** document_embedding.py *)

Lemma has_id_last (c : DocumentEmbedding.Collection) (ch : DocumentEmbedding.Chunk) :
  DocumentEmbedding.has_id (c ++ [ch]) (DocumentEmbedding.chunk_id ch) = true.
Proof.
  unfold DocumentEmbedding.has_id. rewrite existsb_app. simpl.
  rewrite String.eqb_refl. apply orb_true_iff. right. reflexivity.
Qed.

(** C2, the behaviour of the code. [upsert_embeddings] hands the chunk to
    [collection.add]. With metadata that the index accepts (a dictionary
    that is not empty), calling it a second time with the same id leaves
    the collection as the first call left it, whichever way the index
    treats a known id: starting from an empty collection, the one chunk
    stored under the id holds the text and metadata of the first call, and
    the second call reports failure when the index raises and success
    when the index skips the record. *)
Theorem upsert_embeddings_same_id_keeps_first :
  forall (policy : DocumentEmbedding.AddPolicy) (i t1 t2 : string)
         (m1 m2 : Metadata),
    m1 <> [] ->
    m2 <> [] ->
    (forall c : DocumentEmbedding.Collection,
        let c1 := snd (DocumentEmbedding.upsert_embeddings
                         policy c [t1] (Some [m1]) (Some [i])) in
        snd (DocumentEmbedding.upsert_embeddings
               policy c1 [t2] (Some [m2]) (Some [i])) = c1)
    /\ (let c1 := snd (DocumentEmbedding.upsert_embeddings
                         policy [] [t1] (Some [m1]) (Some [i])) in
        let second := DocumentEmbedding.upsert_embeddings
                        policy c1 [t2] (Some [m2]) (Some [i]) in
        DocumentEmbedding.get (snd second) i
        = [{| DocumentEmbedding.chunk_id := i;
              DocumentEmbedding.chunk_text := t1;
              DocumentEmbedding.chunk_metadata := m1 |}]
        /\ fst second = match policy with
                        | DocumentEmbedding.RejectExisting => false
                        | DocumentEmbedding.IgnoreExisting => true
                        end).
Proof.
  intros policy i t1 t2 m1 m2 Hm1 Hm2.
  assert (E1 : DocumentEmbedding.empty_metadata m1 = false)
    by (destruct m1; [congruence | reflexivity]).
  assert (E2 : DocumentEmbedding.empty_metadata m2 = false)
    by (destruct m2; [congruence | reflexivity]).
  split.
  - intro c. cbv zeta.
    set (r1 := {| DocumentEmbedding.chunk_id := i;
                  DocumentEmbedding.chunk_text := t1;
                  DocumentEmbedding.chunk_metadata := m1 |}).
    assert (H1 : exists c1,
               snd (DocumentEmbedding.upsert_embeddings
                      policy c [t1] (Some [m1]) (Some [i])) = c1
               /\ DocumentEmbedding.has_id c1 i = true).
    { unfold DocumentEmbedding.upsert_embeddings, DocumentEmbedding.add.
      simpl. rewrite E1. simpl.
      destruct policy; destruct (DocumentEmbedding.has_id c i) eqn:Hc; simpl.
      - exists c. auto.
      - exists (c ++ [r1]). split; [reflexivity | apply (has_id_last c r1)].
      - exists (c ++ []). split; [reflexivity|]. now rewrite app_nil_r.
      - exists (c ++ [r1]). split; [reflexivity | apply (has_id_last c r1)]. }
    destruct H1 as (c1 & -> & Hin).
    unfold DocumentEmbedding.upsert_embeddings, DocumentEmbedding.add.
    simpl. rewrite E2, Hin. destruct policy; simpl; [reflexivity | apply app_nil_r].
  - cbv zeta.
    unfold DocumentEmbedding.upsert_embeddings, DocumentEmbedding.add,
      DocumentEmbedding.get.
    simpl. rewrite E1. simpl. rewrite E2. simpl.
    destruct policy; simpl; rewrite String.eqb_refl; simpl;
      rewrite ?String.eqb_refl; split; reflexivity.
Qed.

Lemma upsert_embeddings_same_id_keeps_first_witness :
  let c1 := snd (DocumentEmbedding.upsert_embeddings
                   DocumentEmbedding.IgnoreExisting [] ["old text"%string]
                   (Some [[("source"%string, MStr "a.txt")]])
                   (Some ["doc_1"%string])) in
  let second := DocumentEmbedding.upsert_embeddings
                  DocumentEmbedding.IgnoreExisting c1 ["new text"%string]
                  (Some [[("source"%string, MStr "b.txt")]])
                  (Some ["doc_1"%string]) in
  DocumentEmbedding.get (snd second) "doc_1"
  = [{| DocumentEmbedding.chunk_id := "doc_1";
        DocumentEmbedding.chunk_text := "old text";
        DocumentEmbedding.chunk_metadata := [("source"%string, MStr "a.txt")] |}]
  /\ fst second = true.
Proof.
  apply (proj2 (@upsert_embeddings_same_id_keeps_first
                  DocumentEmbedding.IgnoreExisting "doc_1"%string
                  "old text"%string "new text"%string
                  [("source"%string, MStr "a.txt")]
                  [("source"%string, MStr "b.txt")]
                  ltac:(discriminate) ltac:(discriminate))).
Defined.

(** ** app.py *)

(** C9, the behaviour of the code. The result of [process_query] has no
    [source_documents] entry, so the [sources] list of a response of
    [query_document] is empty whenever the response has one; for the
    query that is answered from the one stored chunk, which comes from
    [lease.pdf], the response carries the answer, the confidence and
    [has_answer], and an empty [sources]. *)
Theorem query_document_sources_empty :
  (forall (new_model : Exc ChatbotModel.QAModel) (posted : Flask.Posted)
          (response : App.Response),
      value (App.query_document new_model posted) = Flask.Replied response ->
      App.dict_get "sources" (App.body response) = None
      \/ App.dict_get "sources" (App.body response) = Some (App.JStrs []))
  /\ value (App.query_document
              (Ok (Samples.qa Samples.tenant_store))
              (Flask.Parsed (Flask.BObject
                               [("query"%string, "who is the tenant?"%string)])))
     = Flask.Replied
         {| App.status := 200;
            App.body := [("response"%string, App.JStr "Bob.");
                         ("confidence"%string, App.JNum (Fin 4927));
                         ("has_answer"%string, App.JBool true);
                         ("sources"%string, App.JStrs [])] |}.
Proof.
  split.
  - intros new_model posted response. unfold App.query_document.
    destruct (Flask.posted_entry "query" posted) as [code| |query].
    + discriminate.
    + intro H. inversion H. left. reflexivity.
    + destruct new_model as [qa|e].
      * unfold lift, bind.
        destruct (ChatbotModel.process_query qa query true None) as [l result].
        intro H. inversion H. right. reflexivity.
      * intro H. inversion H. left. reflexivity.
  - vm_compute. reflexivity.
Qed.

(** ** document_retrieval.py: retrieve_documents *)

Section RetrieveMore.
Import DocumentRetrieval.

Lemma format_match_fields (r : QueryResult) (thr : Q) (i : nat) (doc_id : string)
      (m : Match) :
  format_match r thr i doc_id = Ok (Some m) ->
  id m = doc_id
  /\ distance_at r i = Ok (raw_distance m)
  /\ metadata m = metadata_at r i
  /\ match raw_distance m with
     | Some d => similarity m = 1 - d /\ thr <= 1 - d
     | None => similarity m = 0
     end.
Proof.
  unfold format_match.
  destruct (distance_at r i) as [dist|e]; simpl; [|discriminate].
  destruct (match dist with
            | Some d => Qlt_bool (1 - d) thr
            | None => false
            end) eqn:Hskip; [discriminate|].
  destruct (first_row "documents" (documents r)) as [docs|e]; simpl; [|discriminate].
  destruct (item docs i) as [doc|e]; simpl; [|discriminate].
  destruct (consistent_text (text_of_document doc) (metadata_at r i))
    as [t|e]; simpl; [|discriminate].
  destruct (loggable_text t) as [s|e]; simpl; [|discriminate].
  intro H. inversion H; subst; clear H. simpl.
  split; [reflexivity|]. split; [reflexivity|]. split; [reflexivity|].
  destruct dist as [d|]; [|reflexivity].
  split; [reflexivity | now apply Qlt_bool_false_le].
Qed.

Lemma collect_matches_Forall (P : Match -> Prop) (r : QueryResult) (thr : Q) :
  (forall i doc_id m, format_match r thr i doc_id = Ok (Some m) -> P m) ->
  forall (todo : list (nat * string)) (acc out : list Match),
    collect_matches r thr todo acc = Ok out ->
    Forall P acc -> Forall P out.
Proof.
  intro HP. induction todo as [|[i doc_id] todo IH]; intros acc out H Hacc;
    simpl in H.
  - now inversion H; subst.
  - destruct (format_match r thr i doc_id) as [[m|]|e] eqn:Hm; simpl in H;
      [| |discriminate].
    + apply (IH _ _ H). apply Forall_app. split; [exact Hacc|].
      constructor; [eauto | constructor].
    + apply (IH _ _ H Hacc).
Qed.

Lemma collect_matches_keeps (r : QueryResult) (thr : Q) :
  forall (todo : list (nat * string)) (acc out : list Match),
    collect_matches r thr todo acc = Ok out ->
    (forall m, In m acc -> In m out)
    /\ forall i doc_id m,
         In (i, doc_id) todo ->
         format_match r thr i doc_id = Ok (Some m) ->
         In m out.
Proof.
  induction todo as [|[i doc_id] todo IH]; intros acc out H; simpl in H.
  - inversion H; subst. split; [auto | intros ? ? ? []].
  - destruct (format_match r thr i doc_id) as [mm|e] eqn:Hm; simpl in H;
      [|discriminate].
    destruct (IH _ _ H) as [Hacc Hnew]. split.
    + intros m Hin. apply Hacc. destruct mm; [apply in_or_app; now left | exact Hin].
    + intros j x m [Heq|Hin] Hf.
      * inversion Heq; subst. rewrite Hf in Hm. inversion Hm; subst.
        apply Hacc. apply in_or_app. right. now left.
      * eapply Hnew; eassumption.
Qed.

Lemma collect_matches_raises (r : QueryResult) (thr : Q) :
  forall (todo : list (nat * string)) (acc : list Match) i doc_id e,
    In (i, doc_id) todo ->
    format_match r thr i doc_id = Raise e ->
    exists e', collect_matches r thr todo acc = Raise e'.
Proof.
  induction todo as [|[j x] todo IH]; intros acc i doc_id e Hin Hf; [contradiction|].
  simpl. destruct Hin as [Heq|Hin].
  - inversion Heq; subst. rewrite Hf. simpl. eauto.
  - destruct (format_match r thr j x) as [mm|e0]; simpl; [|eauto].
    eapply IH; eassumption.
Qed.

Lemma enumerate_from_nth {A : Type} (l : list A) (k i : nat) (x : A) :
  nth_error l i = Some x -> In ((k + i)%nat, x) (enumerate_from k l).
Proof.
  revert k i. induction l as [|y l IH]; intros k i H; [destruct i; discriminate|].
  destruct i as [|i]; simpl in *.
  - inversion H; subst. left. f_equal. lia.
  - right. replace (k + S i)%nat with (S k + i)%nat by lia. now apply IH.
Qed.

Lemma enumerate_from_position {A : Type} (l : list A) (k i : nat) (x : A) :
  In (i, x) (enumerate_from k l) ->
  exists j, i = (k + j)%nat /\ nth_error l j = Some x.
Proof.
  revert k. induction l as [|y l IH]; intros k Hin; [contradiction|].
  destruct Hin as [Heq|Hin].
  - inversion Heq; subst. exists 0%nat. split; [lia | reflexivity].
  - destruct (IH _ Hin) as (j & -> & Hj). exists (S j). split; [lia | exact Hj].
Qed.

Lemma collect_matches_from (r : QueryResult) (thr : Q) :
  forall (todo : list (nat * string)) (acc out : list Match) (m : Match),
    collect_matches r thr todo acc = Ok out ->
    In m out ->
    In m acc
    \/ exists i doc_id,
         In (i, doc_id) todo /\ format_match r thr i doc_id = Ok (Some m).
Proof.
  induction todo as [|[i doc_id] todo IH]; intros acc out m H Hin; simpl in H.
  - inversion H; subst. now left.
  - destruct (format_match r thr i doc_id) as [mm|e] eqn:Hm; simpl in H;
      [|discriminate].
    destruct (IH _ _ m H Hin) as [Hacc | (j & x & Hj & Hf)].
    + destruct mm as [m'|]; [|now left].
      apply in_app_or in Hacc. destruct Hacc as [Hacc|[<-|[]]]; [now left|].
      right. exists i, doc_id. split; [now left | exact Hm].
    + right. exists j, x. split; [now right | exact Hf].
Qed.

(** What a run of [retrieve_documents] on an answer of the store comes
    down to. *)
Lemma retrieve_documents_run (store : Query) (query : string) (top_k : Z)
      (thr : Q) (r : QueryResult) :
  truthy query = true ->
  store query top_k = Ok (Some r) ->
  value (retrieve_documents store query top_k thr)
  = if no_documents (Some r) then {| matches := []; error := None |}
    else match first_row "ids" (ids r) with
         | Raise e => {| matches := []; error := Some e |}
         | Ok ids_row =>
             match collect_matches r thr (enumerate ids_row) [] with
             | Raise e => {| matches := []; error := Some e |}
             | Ok found => {| matches := sort_desc similarity found; error := None |}
             end
         end.
Proof.
  intros Hq Hs. unfold retrieve_documents, retrieve_body. rewrite Hq.
  cbn [negb]. unfold call, bind, lift. rewrite Hs.
  destruct (no_documents (Some r)); [reflexivity|].
  destruct (first_row "ids" (ids r)) as [ids_row|e]; [|reflexivity].
  destruct (collect_matches r thr (enumerate ids_row) []); reflexivity.
Qed.
End RetrieveMore.

(** ** Soft failure *)

Section FailingCalls.
Import ChatbotModel.
Variable self : QAModel.

Let stops {A : Type} (m : M A) : Prop := stops_at_failure self m.

Lemma stops_silent {A : Type} (m : M A) : calls m = [] -> stops m.
Proof. intros Hm ev e Hin. rewrite Hm in Hin. contradiction. Qed.

Lemma stops_call {A : Type} (ev : Event) (x : Exc A) :
  raised_by self ev = message x -> stops (call ev x).
Proof.
  intros Hev ev' e [<-|[]] Hraised. rewrite Hev in Hraised.
  destruct x as [a|e']; inversion Hraised. reflexivity.
Qed.

Lemma stops_bind {A B : Type} (m : M A) (f : A -> M B) :
  stops m ->
  (forall a, value m = Ok a -> stops (f a)) ->
  stops (bind m f).
Proof.
  intros Hm Hf ev e Hin Hraised. rewrite calls_bind in Hin.
  rewrite value_bind. apply in_app_or in Hin. destruct Hin as [Hin|Hin].
  - now rewrite (Hm ev e Hin Hraised).
  - destruct (value m) as [a|e'] eqn:Hv; [|contradiction].
    cbn [exc_bind]. exact (Hf a eq_refl ev e Hin Hraised).
Qed.

Lemma stops_split_paragraphs (budget : Z) :
  forall (paragraphs : list string) (st : ChunkState),
    stops (split_paragraphs self budget paragraphs st).
Proof.
  induction paragraphs as [|p ps IH]; intro st; [now apply stops_silent|].
  cbn [split_paragraphs]. destruct (negb (truthy (strip p))); [apply IH|].
  apply stops_bind; [now apply stops_call|].
  intros tokens _. destruct (_ && _); apply IH.
Qed.

Lemma stops_decode_all :
  forall windows : list (list Z), stops (decode_all self windows).
Proof.
  induction windows as [|w ws IH]; [now apply stops_silent|].
  cbn [decode_all]. apply stops_bind; [now apply stops_call|].
  intros t _. apply stops_bind; [exact IH|].
  intros rest _. now apply stops_silent.
Qed.

Lemma stops_build_chunks (context : string) (budget : Z) :
  stops (build_chunks self context budget).
Proof.
  unfold build_chunks. apply stops_bind.
  - unfold paragraph_chunks. apply stops_bind; [apply stops_split_paragraphs|].
    intros st _. now apply stops_silent.
  - intros chunks _. destruct chunks as [|chunk chunks]; [|now apply stops_silent].
    unfold split_by_tokens. apply stops_bind; [now apply stops_call|].
    intros tokens _. destruct (_ =? _)%Z; [now apply stops_silent|].
    destruct (_ <? _)%Z; [now apply stops_silent | apply stops_decode_all].
Qed.

Lemma stops_try_span (n : Z) (input_ids : list Z) (sl el : list Q)
      (s e : nat) (best : Best) :
  stops (try_span self n input_ids sl el s e best).
Proof.
  unfold try_span. destruct (invalid_span n s e); [now apply stops_silent|].
  apply stops_bind; [now apply stops_call|].
  intros t _. destruct (negb _); [now apply stops_silent|].
  destruct (score_gt _ _); now apply stops_silent.
Qed.

Lemma stops_scan_ends (n : Z) (input_ids : list Z) (sl el : list Q) (s : nat) :
  forall (ends : list nat) (best : Best),
    stops (scan_ends self n input_ids sl el s ends best).
Proof.
  induction ends as [|e ends IH]; intro best; [now apply stops_silent|].
  cbn [scan_ends]. apply stops_bind; [apply stops_try_span|].
  intros best' _. apply IH.
Qed.

Lemma stops_scan_starts (n : Z) (input_ids : list Z) (sl el : list Q)
      (ends : list nat) :
  forall (starts : list nat) (best : Best),
    stops (scan_starts self n input_ids sl el starts ends best).
Proof.
  induction starts as [|s starts IH]; intro best; [now apply stops_silent|].
  cbn [scan_starts]. apply stops_bind; [apply stops_scan_ends|].
  intros best' _. apply IH.
Qed.

Lemma stops_scan_chunks (question : string) (n : Z) :
  forall (chunks : list string) (best : Best),
    stops (scan_chunks self question n chunks best).
Proof.
  induction chunks as [|chunk chunks IH]; intro best; [now apply stops_silent|].
  cbn [scan_chunks]. apply stops_bind; [|intros best' _; apply IH].
  unfold scan_chunk.
  apply stops_bind; [now apply stops_call|]. intros input_ids _.
  apply stops_bind; [now apply stops_call|]. intros [sl el] _.
  apply stops_bind; [now apply stops_call|]. intros starts _.
  apply stops_bind; [now apply stops_call|]. intros ends _.
  apply stops_scan_starts.
Qed.

Lemma stops_answer_body (question context : string) (n : Z) :
  stops (answer_body self question context n).
Proof.
  unfold answer_body. destruct (too_short context); [now apply stops_silent|].
  apply stops_bind; [now apply stops_call|]. intros qt _.
  apply stops_bind; [apply stops_build_chunks|]. intros chunks _.
  apply stops_bind; [apply stops_scan_chunks|]. intros best _.
  destruct (truthy _); now apply stops_silent.
Qed.

Lemma calls_answer_question (question context : string) (n : Z) :
  calls (answer_question self question context n)
  = CallAnswerQuestion question context
      :: calls (answer_body self question context n).
Proof.
  unfold answer_question.
  destruct (answer_body self question context n) as [l [r|e]]; reflexivity.
Qed.
End FailingCalls.

(** C6. Soft failure. [retrieve_documents] and [answer_question] return
    a value on every input. When the store raises, [retrieve_documents]
    returns the envelope with no matches and the message under [error];
    when formatting one of the returned records raises, it returns an
    envelope with no matches and an error; so it does for every exception
    of its body. In a run of [answer_question], whichever call of the
    tokenizer, of the network, of [topk] or of the decoder raises, while
    the question is encoded, while the context is split or while the
    chunks are scored, the result has [has_answer] false, confidence 0.0
    and the message of that call embedded in [answer]; so it has for every
    exception of its body. *)
Theorem soft_failure :
  (forall (store : Query) (query : string) (top_k : Z) (thr : Q) (e : string),
      truthy query = true ->
      store query top_k = Raise e ->
      value (DocumentRetrieval.retrieve_documents store query top_k thr)
      = {| DocumentRetrieval.matches := []; DocumentRetrieval.error := Some e |})
  /\ (forall (store : Query) (query : string) (top_k : Z) (thr : Q)
             (r : QueryResult) (ids_row : list string) (i : nat)
             (doc_id e : string),
         truthy query = true ->
         store query top_k = Ok (Some r) ->
         DocumentRetrieval.no_documents (Some r) = false ->
         first_row "ids" (ids r) = Ok ids_row ->
         nth_error ids_row i = Some doc_id ->
         DocumentRetrieval.format_match r thr i doc_id = Raise e ->
         exists e',
           value (DocumentRetrieval.retrieve_documents store query top_k thr)
           = {| DocumentRetrieval.matches := [];
                DocumentRetrieval.error := Some e' |})
  /\ (forall (store : Query) (query : string) (top_k : Z) (thr : Q) (e : string),
         truthy query = true ->
         value (DocumentRetrieval.retrieve_body store query top_k thr) = Raise e ->
         value (DocumentRetrieval.retrieve_documents store query top_k thr)
         = {| DocumentRetrieval.matches := []; DocumentRetrieval.error := Some e |})
  /\ (forall (self : ChatbotModel.QAModel) (question context : string) (n : Z)
             (ev : Event) (e : string),
         In ev (calls (ChatbotModel.answer_question self question context n)) ->
         raised_by self ev = Some e ->
         value (ChatbotModel.answer_question self question context n)
         = {| ChatbotModel.answer := "Error processing your question: " ++ e;
              ChatbotModel.confidence := Fin 0;
              ChatbotModel.has_answer := false |})
  /\ (forall (self : ChatbotModel.QAModel) (question context : string) (n : Z)
             (e : string),
         value (ChatbotModel.answer_body self question context n) = Raise e ->
         value (ChatbotModel.answer_question self question context n)
         = {| ChatbotModel.answer := "Error processing your question: " ++ e;
              ChatbotModel.confidence := Fin 0;
              ChatbotModel.has_answer := false |}).
Proof.
  assert (Hbody : forall store query top_k thr e,
             truthy query = true ->
             value (DocumentRetrieval.retrieve_body store query top_k thr) = Raise e ->
             value (DocumentRetrieval.retrieve_documents store query top_k thr)
             = {| DocumentRetrieval.matches := [];
                  DocumentRetrieval.error := Some e |}).
  { intros store query top_k thr e Hq Hraise.
    unfold DocumentRetrieval.retrieve_documents. rewrite Hq. simpl negb. cbv iota.
    rewrite value_try_except, Hraise. reflexivity. }
  assert (Hanswer : forall self question context n e,
             value (ChatbotModel.answer_body self question context n) = Raise e ->
             value (ChatbotModel.answer_question self question context n)
             = ChatbotModel.question_error_result e).
  { intros self question context n e Hraise.
    rewrite value_answer_question, Hraise. reflexivity. }
  split; [|split; [|split; [exact Hbody | split; [|exact Hanswer]]]].
  - intros store query top_k thr e Hq Hstore. apply Hbody; [exact Hq|].
    unfold DocumentRetrieval.retrieve_body.
    rewrite value_bind. unfold call. simpl. rewrite Hstore. reflexivity.
  - intros store query top_k thr r ids_row i doc_id e Hq Hstore Hdocs Hids Hi Hf.
    rewrite (@retrieve_documents_run store query top_k thr r Hq Hstore).
    rewrite Hdocs, Hids.
    destruct (@collect_matches_raises r thr (enumerate ids_row) [] i doc_id e)
      as [e' He']; [|exact Hf|].
    + exact (@enumerate_from_nth _ ids_row 0 i doc_id Hi).
    + rewrite He'. now exists e'.
  - intros self question context n ev e Hin Hraised. apply Hanswer.
    rewrite calls_answer_question in Hin. destruct Hin as [<-|Hin]; [discriminate|].
    exact (@stops_answer_body self question context n ev e Hin Hraised).
Qed.

Lemma soft_failure_witness :
  value (DocumentRetrieval.retrieve_documents
           Samples.failing_store "who is the tenant?" 5 (7 # 10))
  = {| DocumentRetrieval.matches := [];
       DocumentRetrieval.error := Some "connection refused"%string |}
  /\ (exists e',
         value (DocumentRetrieval.retrieve_documents
                  MoreSamples.holed_store "who is the tenant?" 5 (7 # 10))
         = {| DocumentRetrieval.matches := [];
              DocumentRetrieval.error := Some e' |})
  /\ value (ChatbotModel.answer_question
              Samples.broken_qa "who is the tenant?" "the tenant is Bob." 100)
     = {| ChatbotModel.answer :=
            "Error processing your question: tokenizer unavailable";
          ChatbotModel.confidence := Fin 0;
          ChatbotModel.has_answer := false |}
  /\ value (ChatbotModel.answer_question
              Samples.qa_without_network "who is the tenant?"
              "the tenant is Bob." 100)
     = {| ChatbotModel.answer :=
            "Error processing your question: network unavailable";
          ChatbotModel.confidence := Fin 0;
          ChatbotModel.has_answer := false |}.
Proof.
  destruct soft_failure as (Hstore & Hrecord & _ & Hcall & _).
  split; [|split; [|split]].
  - apply Hstore; reflexivity.
  - apply (Hrecord MoreSamples.holed_store "who is the tenant?"%string 5%Z (7 # 10)
                   MoreSamples.holed_response ["doc_1"%string; "doc_2"%string]
                   1%nat "doc_2"%string none_subscript);
      reflexivity.
  - apply (Hcall Samples.broken_qa "who is the tenant?"%string
                 "the tenant is Bob."%string 100%Z
                 (CallEncode "who is the tenant?")).
    + vm_compute. right. left. reflexivity.
    + reflexivity.
  - apply (Hcall Samples.qa_without_network "who is the tenant?"%string
                 "the tenant is Bob."%string 100%Z
                 (CallModel (Samples.window "who is the tenant?"
                                            "the tenant is Bob."))).
    + vm_compute. do 4 right. left. reflexivity.
    + reflexivity.
Defined.

(* ------------------------------------------------------------------ *)
(** * Further properties of the pipeline *)
(* ------------------------------------------------------------------ *)


(** X1. Every match that [retrieve_documents] returns stands for one
    record of the answer of the store: its id is the id at some position
    of the row of ids, its metadata is the metadata of that position, and
    its [raw_distance] is the distance that the store gave for that
    position, [None] when the answer has no [distances] entry or none for
    that position. With a distance [d] the similarity of the match is
    [1 - d] and reaches the threshold; without one it is 0, whatever the
    threshold is. *)
Theorem match_similarity_is_one_minus_distance :
  forall (store : Query) (query : string) (top_k : Z) (thr : Q)
         (m : DocumentRetrieval.Match),
    In m (DocumentRetrieval.matches
            (value (DocumentRetrieval.retrieve_documents store query top_k thr))) ->
    exists r ids_row i,
      store query top_k = Ok (Some r)
      /\ first_row "ids" (ids r) = Ok ids_row
      /\ nth_error ids_row i = Some (DocumentRetrieval.id m)
      /\ DocumentRetrieval.metadata m = DocumentRetrieval.metadata_at r i
      /\ match distances r with
         | Missing => DocumentRetrieval.raw_distance m = None
         | Rows (row :: _) => DocumentRetrieval.raw_distance m = nth_error row i
         | _ => False
         end
      /\ match DocumentRetrieval.raw_distance m with
         | Some d => DocumentRetrieval.similarity m = 1 - d /\ thr <= 1 - d
         | None => DocumentRetrieval.similarity m = 0
         end.
Proof.
  intros store query top_k thr m.
  destruct (truthy query) eqn:Hq;
    [|unfold DocumentRetrieval.retrieve_documents; rewrite Hq; intros []].
  destruct (store query top_k) as [[r|]|e] eqn:Hs.
  - rewrite (@retrieve_documents_run store query top_k thr r Hq Hs).
    destruct (DocumentRetrieval.no_documents (Some r)); [intros []|].
    destruct (first_row "ids" (ids r)) as [ids_row|e] eqn:Hids; [|intros []].
    destruct (DocumentRetrieval.collect_matches r thr (enumerate ids_row) [])
      as [found|e] eqn:Hc; [|intros []].
    cbn [DocumentRetrieval.matches]. intro Hin.
    apply (Permutation_in _ (sort_desc_perm _ found)) in Hin.
    destruct (collect_matches_from _ _ _ _ m Hc Hin)
      as [[] | (i & doc_id & Htodo & Hm)].
    apply enumerate_from_position in Htodo.
    destruct Htodo as (j & -> & Hj). cbn [Nat.add] in Hm.
    apply format_match_fields in Hm.
    destruct Hm as (Hid & Hdist & Hmeta & Hsim).
    exists r, ids_row, j. split; [reflexivity|]. split; [exact Hids|].
    split; [now rewrite Hid|]. split; [exact Hmeta|]. split; [|exact Hsim].
    unfold DocumentRetrieval.distance_at in Hdist.
    destruct (distances r) as [| |[|row rows]]; simpl in Hdist;
      try discriminate; now inversion Hdist.
  - unfold DocumentRetrieval.retrieve_documents, DocumentRetrieval.retrieve_body,
      call, bind. rewrite Hq, Hs. intros [].
  - unfold DocumentRetrieval.retrieve_documents, DocumentRetrieval.retrieve_body,
      call, bind. rewrite Hq, Hs. intros [].
Qed.

Lemma match_similarity_is_one_minus_distance_witness :
  let run := DocumentRetrieval.retrieve_documents
               Samples.lease_store "who is the tenant?" 5 (7 # 10) in
  exists m,
    DocumentRetrieval.matches (value run) = [m]
    /\ DocumentRetrieval.id m = "doc_1"%string
    /\ exists r ids_row i,
         Samples.lease_store "who is the tenant?"%string 5%Z = Ok (Some r)
         /\ first_row "ids" (ids r) = Ok ids_row
         /\ nth_error ids_row i = Some (DocumentRetrieval.id m)
         /\ DocumentRetrieval.metadata m = DocumentRetrieval.metadata_at r i
         /\ match distances r with
            | Missing => DocumentRetrieval.raw_distance m = None
            | Rows (row :: _) =>
                DocumentRetrieval.raw_distance m = nth_error row i
            | _ => False
            end
         /\ match DocumentRetrieval.raw_distance m with
            | Some d =>
                DocumentRetrieval.similarity m = 1 - d /\ 7 # 10 <= 1 - d
            | None => DocumentRetrieval.similarity m = 0
            end.
Proof.
  intro run. eexists. split; [vm_compute; reflexivity|].
  split; [reflexivity|].
  apply (@match_similarity_is_one_minus_distance
           Samples.lease_store "who is the tenant?"%string 5%Z (7 # 10)).
  vm_compute. left. reflexivity.
Defined.

Lemma Qlt_bool_of_le (a b : Q) : b <= a -> Qlt_bool a b = false.
Proof.
  intro H. unfold Qlt_bool. apply negb_false_iff. now apply Qle_bool_iff.
Qed.

Lemma filter_all {A : Type} (f : A -> bool) (l : list A) :
  Forall (fun a => f a = true) l -> filter f l = l.
Proof.
  induction 1 as [|a l Ha _ IH]; [reflexivity|]. simpl. now rewrite Ha, IH.
Qed.

(** A list whose keys are all equal is left as it is by the sort. *)
Lemma sort_desc_all_tied {A : Type} (key : A -> Q) (q : Q) (l : list A) :
  Forall (fun a => key a == q) l -> sort_desc key l = l.
Proof.
  intro H.
  assert (Hl : Forall (fun a => Qeq_bool (key a) q = true) l)
    by (eapply Forall_impl; [|exact H]; intros a Ha; now apply Qeq_bool_iff).
  rewrite <- (filter_all _ Hl) at 2. rewrite <- (sort_desc_tied key q l).
  symmetry. apply filter_all. now apply sort_desc_Forall.
Qed.

Section RetrieveShapes.
Import DocumentRetrieval.
Variable store : Query.
Variables (query : string) (top_k : Z) (thr : Q) (r : QueryResult).
Hypothesis Hquery : truthy query = true.
Hypothesis Hstore : store query top_k = Ok (Some r).

Let run := value (retrieve_documents store query top_k thr).

Lemma retrieve_found (ids_row : list string) (rest : list (list string))
      (docs : list (option string)) (drest : list (list (option string))) :
  ids r = Rows (ids_row :: rest) ->
  documents r = Rows ((docs) :: drest) ->
  docs <> [] ->
  error run = None ->
  exists found,
    collect_matches r thr (enumerate ids_row) [] = Ok found
    /\ matches run = sort_desc similarity found.
Proof.
  intros Hids Hdocs Hne Herr. subst run.
  rewrite (@retrieve_documents_run store query top_k thr r Hquery Hstore) in *.
  unfold no_documents in *. rewrite Hdocs in *.
  destruct docs as [|d0 docs0]; [congruence|].
  rewrite Hids in *. cbn [first_row] in *.
  destruct (collect_matches r thr (enumerate ids_row) []) as [found|e];
    [|discriminate].
  exists found. split; reflexivity.
Qed.

Lemma retrieve_kept (ids_row : list string) (rest : list (list string))
      (docs : list (option string)) (drest : list (list (option string)))
      (i : nat) (doc_id : string) (m : Match) :
  ids r = Rows (ids_row :: rest) ->
  documents r = Rows (docs :: drest) ->
  docs <> [] ->
  error run = None ->
  nth_error ids_row i = Some doc_id ->
  format_match r thr i doc_id = Ok (Some m) ->
  In m (matches run).
Proof.
  intros Hids Hdocs Hne Herr Hi Hm.
  destruct (retrieve_found Hids Hdocs Hne Herr) as (found & Hc & ->).
  apply (Permutation_in _ (Permutation_sym (sort_desc_perm _ found))).
  apply (proj2 (collect_matches_keeps _ _ _ _ Hc) i doc_id m); [|exact Hm].
  apply (enumerate_from_nth _ 0 _ Hi).
Qed.
End RetrieveShapes.

(** X2. When [retrieve_documents] reports no error, every record of the
    store's answer that has a text and whose similarity reaches the
    threshold is among the matches, with its id, text, metadata, distance
    and similarity. *)
Theorem retrieve_documents_complete :
  forall (store : Query) (query : string) (top_k : Z) (thr : Q) (r : QueryResult)
         (ids_row : list string) (rest : list (list string))
         (docs : list (option string)) (drest : list (list (option string)))
         (d_row : list Q) (qrest : list (list Q))
         (i : nat) (doc_id s : string) (d : Q),
    truthy query = true ->
    store query top_k = Ok (Some r) ->
    DocumentRetrieval.error
      (value (DocumentRetrieval.retrieve_documents store query top_k thr)) = None ->
    ids r = Rows (ids_row :: rest) ->
    documents r = Rows (docs :: drest) ->
    distances r = Rows (d_row :: qrest) ->
    nth_error ids_row i = Some doc_id ->
    nth_error docs i = Some (Some s) ->
    truthy s = true ->
    nth_error d_row i = Some d ->
    thr <= 1 - d ->
    In {| DocumentRetrieval.id := doc_id;
          DocumentRetrieval.text := s;
          DocumentRetrieval.metadata := DocumentRetrieval.metadata_at r i;
          DocumentRetrieval.similarity := 1 - d;
          DocumentRetrieval.raw_distance := Some d |}
       (DocumentRetrieval.matches
          (value (DocumentRetrieval.retrieve_documents store query top_k thr))).
Proof.
  intros store query top_k thr r ids_row rest docs drest d_row qrest i doc_id s d
         Hq Hs Herr Hids Hdocs Hdist Hi Hdoc Hts Hd Hpass.
  eapply (@retrieve_kept store query top_k thr r Hq Hs); try eassumption.
  - intros ->. destruct i; discriminate.
  - unfold DocumentRetrieval.format_match, DocumentRetrieval.distance_at.
    rewrite Hdist. cbn [first_row exc_bind]. rewrite Hd.
    rewrite (Qlt_bool_of_le Hpass). rewrite Hdocs. cbn [first_row exc_bind].
    unfold item. rewrite Hdoc. cbn [exc_bind].
    unfold DocumentRetrieval.consistent_text. simpl. rewrite Hts. reflexivity.
Qed.

Lemma retrieve_documents_complete_witness :
  In {| DocumentRetrieval.id := "doc_1";
        DocumentRetrieval.text := "the tenant is Bob.";
        DocumentRetrieval.metadata :=
          DocumentRetrieval.metadata_at Samples.lease_response 0;
        DocumentRetrieval.similarity := 1 - (1 # 10);
        DocumentRetrieval.raw_distance := Some (1 # 10) |}
     (DocumentRetrieval.matches
        (value (DocumentRetrieval.retrieve_documents
                  Samples.lease_store "who is the tenant?" 5 (7 # 10)))).
Proof.
  eapply (@retrieve_documents_complete
            Samples.lease_store "who is the tenant?"%string 5%Z (7 # 10)
            Samples.lease_response _ _ _ _ _ _ 0%nat);
    try reflexivity.
  vm_compute. discriminate.
Defined.

(** X3. The text of a record that the store returns without a document
    (or with an empty one) is taken from the [text] entry of its metadata:
    when [retrieve_documents] reports no error, such a record that reaches
    the threshold is among the matches with that text. *)
Theorem retrieve_documents_text_from_metadata :
  forall (store : Query) (query : string) (top_k : Z) (thr : Q) (r : QueryResult)
         (ids_row : list string) (rest : list (list string))
         (docs : list (option string)) (drest : list (list (option string)))
         (d_row : list Q) (qrest : list (list Q))
         (i : nat) (doc_id s : string) (d : Q) (doc : option string)
         (md : Metadata),
    truthy query = true ->
    store query top_k = Ok (Some r) ->
    DocumentRetrieval.error
      (value (DocumentRetrieval.retrieve_documents store query top_k thr)) = None ->
    ids r = Rows (ids_row :: rest) ->
    documents r = Rows (docs :: drest) ->
    distances r = Rows (d_row :: qrest) ->
    nth_error ids_row i = Some doc_id ->
    nth_error docs i = Some doc ->
    (doc = None \/ doc = Some ""%string) ->
    DocumentRetrieval.metadata_at r i = Some md ->
    lookup "text" md = Some (MStr s) ->
    nth_error d_row i = Some d ->
    thr <= 1 - d ->
    In {| DocumentRetrieval.id := doc_id;
          DocumentRetrieval.text := s;
          DocumentRetrieval.metadata := Some md;
          DocumentRetrieval.similarity := 1 - d;
          DocumentRetrieval.raw_distance := Some d |}
       (DocumentRetrieval.matches
          (value (DocumentRetrieval.retrieve_documents store query top_k thr))).
Proof.
  intros store query top_k thr r ids_row rest docs drest d_row qrest i doc_id s d
         doc md Hq Hs Herr Hids Hdocs Hdist Hi Hdoc Hfalsy Hmd Htext Hd Hpass.
  eapply (@retrieve_kept store query top_k thr r Hq Hs); try eassumption.
  - intros ->. destruct i; discriminate.
  - unfold DocumentRetrieval.format_match, DocumentRetrieval.distance_at.
    rewrite Hdist. cbn [first_row exc_bind]. rewrite Hd.
    rewrite (Qlt_bool_of_le Hpass). rewrite Hdocs. cbn [first_row exc_bind].
    unfold item. rewrite Hdoc. cbn [exc_bind]. rewrite Hmd.
    unfold DocumentRetrieval.consistent_text.
    destruct Hfalsy as [-> | ->]; simpl; rewrite Htext; reflexivity.
Qed.

Lemma retrieve_documents_text_from_metadata_witness :
  In {| DocumentRetrieval.id := "doc_9";
        DocumentRetrieval.text := "the deed is signed.";
        DocumentRetrieval.metadata :=
          Some [("source"%string, MStr "deed.pdf");
                ("text"%string, MStr "the deed is signed.")];
        DocumentRetrieval.similarity := 1 - (1 # 10);
        DocumentRetrieval.raw_distance := Some (1 # 10) |}
     (DocumentRetrieval.matches
        (value (DocumentRetrieval.retrieve_documents
                  MoreSamples.relocated_store "deed" 5 (7 # 10)))).
Proof.
  eapply (@retrieve_documents_text_from_metadata
            MoreSamples.relocated_store "deed"%string 5%Z (7 # 10)
            MoreSamples.relocated_response _ _ _ _ _ _ 0%nat
            "doc_9"%string _ _ (Some ""%string));
    try reflexivity.
  - right. reflexivity.
  - vm_compute. discriminate.
Defined.

Section RetrieveUnscored.
Import DocumentRetrieval.
Variables (r : QueryResult) (thr : Q) (docs : list (option string))
          (drest : list (list (option string))).
Hypothesis Hdocs : documents r = Rows (docs :: drest).
Hypothesis Hdist : distances r = Missing.

Lemma collect_unscored :
  forall (ids_row : list string) (k : nat) (acc : list Match),
    (forall j, (j < k + length ids_row)%nat ->
               exists s, nth_error docs j = Some (Some s) /\ truthy s = true) ->
    exists fresh,
      collect_matches r thr (enumerate_from k ids_row) acc = Ok (acc ++ fresh)
      /\ map id fresh = ids_row
      /\ Forall (fun m => similarity m = 0 /\ raw_distance m = None) fresh.
Proof.
  induction ids_row as [|doc_id ids_row IH]; intros k acc Hall.
  - exists []. simpl. rewrite app_nil_r. repeat split. constructor.
  - destruct (Hall k ltac:(simpl; lia)) as (s & Hs & Hts).
    cbn [enumerate_from collect_matches].
    assert (Hm : format_match r thr k doc_id
                 = Ok (Some {| id := doc_id; text := s;
                               metadata := metadata_at r k;
                               similarity := 0; raw_distance := None |})).
    { unfold format_match, distance_at. rewrite Hdist, Hdocs.
      cbn [first_row exc_bind]. unfold item. rewrite Hs. cbn [exc_bind].
      unfold consistent_text. simpl. rewrite Hts. reflexivity. }
    rewrite Hm. cbn [exc_bind].
    destruct (IH (S k) (acc ++ [{| id := doc_id; text := s;
                                   metadata := metadata_at r k;
                                   similarity := 0; raw_distance := None |}]))
      as (fresh & Hc & Hid & Hsim).
    + intros j Hj. apply Hall. simpl. lia.
    + eexists (_ :: fresh). rewrite Hc, <- app_assoc. split; [reflexivity|].
      split; [simpl; now rewrite Hid|].
      constructor; [split; reflexivity | exact Hsim].
Qed.
End RetrieveUnscored.

(** X4. When the answer of the store has no [distances] entry, nothing
    is filtered: [retrieve_documents] returns one match for every id, in
    the order of the store, each with similarity 0 and no distance,
    whatever the threshold is. *)
Theorem retrieve_documents_without_distances :
  forall (store : Query) (query : string) (top_k : Z) (thr : Q) (r : QueryResult)
         (ids_row : list string) (rest : list (list string))
         (docs : list (option string)) (drest : list (list (option string))),
    truthy query = true ->
    store query top_k = Ok (Some r) ->
    distances r = Missing ->
    ids r = Rows (ids_row :: rest) ->
    documents r = Rows (docs :: drest) ->
    (length ids_row <= length docs)%nat ->
    Forall (fun doc => exists s, doc = Some s /\ truthy s = true) docs ->
    let run := value (DocumentRetrieval.retrieve_documents store query top_k thr) in
    DocumentRetrieval.error run = None
    /\ map DocumentRetrieval.id (DocumentRetrieval.matches run) = ids_row
    /\ Forall (fun m => DocumentRetrieval.similarity m = 0
                        /\ DocumentRetrieval.raw_distance m = None)
              (DocumentRetrieval.matches run).
Proof.
  intros store query top_k thr r ids_row rest docs drest
         Hq Hs Hdist Hids Hdocs Hlen Hall run.
  subst run. rewrite (@retrieve_documents_run store query top_k thr r Hq Hs).
  unfold DocumentRetrieval.no_documents. rewrite Hdocs.
  destruct docs as [|d0 docs0].
  - destruct ids_row; [|simpl in Hlen; lia]. repeat split. constructor.
  - rewrite Hids. cbn [first_row].
    destruct (@collect_unscored r thr (d0 :: docs0) drest Hdocs Hdist ids_row 0 [])
      as (fresh & Hc & Hid & Hsim).
    + intros j Hj. rewrite Forall_forall in Hall.
      destruct (nth_error (d0 :: docs0) j) as [doc|] eqn:Hn.
      * destruct (Hall doc (nth_error_In _ _ Hn)) as (s & -> & Hts). eauto.
      * apply nth_error_None in Hn. simpl in *. lia.
    + unfold enumerate. rewrite Hc. cbn [app].
      rewrite (@sort_desc_all_tied _ DocumentRetrieval.similarity 0 fresh).
      * repeat split; assumption.
      * eapply Forall_impl; [|exact Hsim]. intros m [Hm _]. rewrite Hm.
        apply Qeq_refl.
Qed.

Lemma retrieve_documents_without_distances_witness :
  let run := value (DocumentRetrieval.retrieve_documents
                      MoreSamples.bare_store "tenant" 5 (7 # 10)) in
  DocumentRetrieval.error run = None
  /\ map DocumentRetrieval.id (DocumentRetrieval.matches run)
     = ["doc_1"%string; "doc_2"%string]
  /\ Forall (fun m => DocumentRetrieval.similarity m = 0
                      /\ DocumentRetrieval.raw_distance m = None)
            (DocumentRetrieval.matches run).
Proof.
  eapply (@retrieve_documents_without_distances
            MoreSamples.bare_store "tenant"%string 5%Z (7 # 10)
            MoreSamples.bare_response
            ["doc_1"%string; "doc_2"%string] []
            [Some "the tenant is Bob."%string; Some "rent is due Monday."%string]
            []);
    first [ reflexivity
          | simpl; lia
          | repeat constructor; eexists; split; reflexivity ].
Defined.

(** X5. One record without a document text and without a [text] entry
    in its metadata, if it is not below the threshold, makes
    [retrieve_documents] give up all matches: the list is empty and the
    envelope carries an error. *)
Theorem retrieve_documents_textless_record :
  forall (store : Query) (query : string) (top_k : Z) (thr : Q) (r : QueryResult)
         (ids_row : list string) (rest : list (list string))
         (docs : list (option string)) (drest : list (list (option string)))
         (i : nat) (doc_id : string) (md : Metadata) (dist : option Q),
    truthy query = true ->
    store query top_k = Ok (Some r) ->
    ids r = Rows (ids_row :: rest) ->
    documents r = Rows (docs :: drest) ->
    nth_error ids_row i = Some doc_id ->
    nth_error docs i = Some None ->
    DocumentRetrieval.metadata_at r i = Some md ->
    lookup "text" md = None ->
    DocumentRetrieval.distance_at r i = Ok dist ->
    match dist with Some d => thr <= 1 - d | None => True end ->
    let run := value (DocumentRetrieval.retrieve_documents store query top_k thr) in
    DocumentRetrieval.matches run = []
    /\ DocumentRetrieval.error run <> None.
Proof.
  intros store query top_k thr r ids_row rest docs drest i doc_id md dist
         Hq Hs Hids Hdocs Hi Hdoc Hmd Htext Hdist Hpass run.
  subst run. rewrite (@retrieve_documents_run store query top_k thr r Hq Hs).
  unfold DocumentRetrieval.no_documents. rewrite Hdocs.
  destruct docs as [|d0 docs0]; [destruct i; discriminate|].
  rewrite Hids. cbn [first_row].
  assert (Hm : DocumentRetrieval.format_match r thr i doc_id = Raise none_subscript).
  { unfold DocumentRetrieval.format_match. rewrite Hdist. cbn [exc_bind].
    replace (match dist with
             | Some d => Qlt_bool (1 - d) thr
             | None => false
             end) with false
      by (destruct dist; [now rewrite Qlt_bool_of_le | reflexivity]).
    rewrite Hdocs. cbn [first_row exc_bind]. unfold item. rewrite Hdoc.
    cbn [exc_bind]. rewrite Hmd.
    unfold DocumentRetrieval.consistent_text. simpl. rewrite Htext. reflexivity. }
  destruct (@collect_matches_raises r thr (enumerate ids_row) [] i doc_id _
              (enumerate_from_nth _ 0 _ Hi) Hm) as [e' ->].
  split; [reflexivity | discriminate].
Qed.

Lemma retrieve_documents_textless_record_witness :
  let run := value (DocumentRetrieval.retrieve_documents
                      MoreSamples.holed_store "tenant" 5 (7 # 10)) in
  DocumentRetrieval.matches run = []
  /\ DocumentRetrieval.error run <> None.
Proof.
  eapply (@retrieve_documents_textless_record
            MoreSamples.holed_store "tenant"%string 5%Z (7 # 10)
            MoreSamples.holed_response _ _ _ _ 1%nat);
    try reflexivity.
  vm_compute. discriminate.
Defined.

(** ** document_embedding.py and the lookup by id *)

Section CollectionFacts.
Import DocumentEmbedding.

Lemma zip3_ids (ids texts : list string) (metadatas : list Metadata) :
  length texts = length ids ->
  length metadatas = length ids ->
  map chunk_id (zip3 ids texts metadatas) = ids.
Proof.
  revert texts metadatas.
  induction ids as [|i ids IH]; intros [|t texts] [|m metadatas] Ht Hm;
    simpl in *; try discriminate; try reflexivity.
  f_equal. apply IH; lia.
Qed.

Lemma zip3_nth (ids texts : list string) (metadatas : list Metadata)
      (k : nat) (i t : string) (m : Metadata) :
  nth_error ids k = Some i ->
  nth_error texts k = Some t ->
  nth_error metadatas k = Some m ->
  nth_error (zip3 ids texts metadatas) k
  = Some {| chunk_id := i; chunk_text := t; chunk_metadata := m |}.
Proof.
  revert texts metadatas k.
  induction ids as [|i0 ids IH]; intros [|t0 texts] [|m0 metadatas] [|k] Hi Ht Hm;
    simpl in *; try discriminate.
  - now inversion Hi; inversion Ht; inversion Hm; subst.
  - now apply IH.
Qed.

Lemma has_id_In (c : Collection) (i : string) :
  has_id c i = true <-> In i (map chunk_id c).
Proof.
  unfold has_id. rewrite existsb_exists. split.
  - intros (ch & Hin & Heq). apply String.eqb_eq in Heq. subst.
    now apply in_map.
  - intro Hin. apply in_map_iff in Hin. destruct Hin as (ch & <- & Hin).
    exists ch. split; [exact Hin | apply String.eqb_refl].
Qed.

Lemma unique_NoDup (l : list string) : unique l = true -> NoDup l.
Proof.
  induction l as [|x l IH]; simpl; intro H; [constructor|].
  apply andb_true_iff in H. destruct H as [Hx Hl].
  constructor; [|now apply IH].
  intro Hin. apply negb_true_iff in Hx.
  assert (existsb (String.eqb x) l = true); [|congruence].
  apply existsb_exists. exists x. split; [exact Hin | apply String.eqb_refl].
Qed.

Lemma get_absent (c : Collection) (i : string) :
  has_id c i = false -> get c i = [].
Proof.
  unfold has_id, get. induction c as [|ch c IH]; simpl; [reflexivity|].
  intro H. apply orb_false_iff in H. destruct H as [H1 H2].
  rewrite H1. now apply IH.
Qed.

Lemma get_app (c1 c2 : Collection) (i : string) :
  get (c1 ++ c2) i = get c1 i ++ get c2 i.
Proof. unfold get. apply filter_app. Qed.

(** What [add] does when it does not raise. *)
Lemma add_ok (policy : AddPolicy) (c c' : Collection) (texts : list string)
      (metadatas : list Metadata) (ids : list string) :
  add policy c texts metadatas ids = Ok c' ->
  length texts = length ids
  /\ length metadatas = length ids
  /\ unique ids = true
  /\ exists added,
       c' = c ++ added
       /\ Forall (fun ch => has_id c (chunk_id ch) = false
                           /\ In ch (zip3 ids texts metadatas)) added
       /\ NoDup (map chunk_id added)
       /\ (forall ch, In ch (zip3 ids texts metadatas) ->
                      has_id c (chunk_id ch) = false -> In ch added).
Proof.
  unfold add.
  destruct ((length texts =? length ids)%nat && (length metadatas =? length ids)%nat)
    eqn:Hlen; cbn [negb]; [|discriminate].
  apply andb_true_iff in Hlen. destruct Hlen as [Ht Hm].
  apply Nat.eqb_eq in Ht. apply Nat.eqb_eq in Hm.
  destruct (unique ids) eqn:Hu; cbn [negb]; [|discriminate].
  destruct (existsb empty_metadata metadatas); [discriminate|].
  pose proof (zip3_ids ids texts metadatas Ht Hm) as Hids.
  pose proof (unique_NoDup _ Hu) as Hnd.
  intro H. split; [exact Ht|]. split; [exact Hm|]. split; [reflexivity|].
  destruct policy.
  - destruct (existsb (has_id c) ids) eqn:He; [discriminate|].
    inversion H; subst; clear H. exists (zip3 ids texts metadatas).
    split; [reflexivity|]. split; [|split; [now rewrite Hids | auto]].
    apply Forall_forall. intros ch Hin. split; [|exact Hin].
    destruct (has_id c (chunk_id ch)) eqn:Hc; [|reflexivity].
    assert (existsb (has_id c) ids = true); [|congruence].
    apply existsb_exists. exists (chunk_id ch). split; [|exact Hc].
    rewrite <- Hids. now apply in_map.
  - inversion H; subst; clear H.
    exists (filter (fun ch => negb (has_id c (chunk_id ch)))
                   (zip3 ids texts metadatas)).
    split; [reflexivity|]. split; [|split].
    + apply Forall_forall. intros ch Hin. apply filter_In in Hin.
      destruct Hin as [Hin Hc]. apply negb_true_iff in Hc. auto.
    + rewrite <- Hids in Hnd. clear -Hnd.
      induction (zip3 ids texts metadatas) as [|ch l IH]; simpl; [constructor|].
      inversion Hnd as [|? ? Hx Hl]; subst.
      destruct (negb (has_id c (chunk_id ch))); [|now apply IH].
      simpl. constructor; [|now apply IH].
      intro Hin. apply Hx. apply in_map_iff in Hin.
      destruct Hin as (ch' & Heq & Hin'). apply filter_In in Hin'.
      rewrite <- Heq. apply in_map. tauto.
    + intros ch Hin Hc. apply filter_In. split; [exact Hin|].
      now rewrite Hc.
Qed.

(** What [upsert_embeddings] does to the collection. *)
Lemma upsert_embeddings_run (policy : AddPolicy) (c : Collection)
      (texts : list string) (metadatas : option (list Metadata))
      (ids : option (list string)) :
  let run := upsert_embeddings policy c texts metadatas ids in
  (fst run = false /\ snd run = c)
  \/ (fst run = true
      /\ exists metadatas' ids',
           texts <> []
           /\ ids' = match ids with
                     | Some (i :: l) => i :: l
                     | _ => sequential_ids (length texts)
                     end
           /\ metadatas' = match metadatas with
                           | Some (m :: l) => m :: l
                           | _ => map (fun _ => unknown_source) texts
                           end
           /\ add policy c texts metadatas' ids' = Ok (snd run)).
Proof.
  cbv zeta. unfold upsert_embeddings.
  destruct texts as [|t texts]; [left; split; reflexivity|].
  match goal with
  | |- context [add policy c ?ts ?ms ?js] =>
      destruct (add policy c ts ms js) as [c'|e] eqn:Hadd
  end.
  - right. split; [reflexivity|]. eexists _, _.
    split; [discriminate|]. split; [reflexivity|]. split; [reflexivity|].
    exact Hadd.
  - left. split; reflexivity.
Qed.
End CollectionFacts.

(** X6. [upsert_embeddings] never changes or removes a stored chunk:
    whatever the arguments and whichever way the index treats a known id,
    the old collection is the beginning of the new one, and what is
    stored under an id that was already present is the same afterwards. *)
Theorem upsert_embeddings_preserves_stored :
  forall (policy : DocumentEmbedding.AddPolicy) (c : DocumentEmbedding.Collection)
         (texts : list string) (metadatas : option (list Metadata))
         (ids : option (list string)),
    let c' := snd (DocumentEmbedding.upsert_embeddings policy c texts metadatas ids) in
    (exists added, c' = c ++ added)
    /\ forall i, DocumentEmbedding.has_id c i = true ->
                 DocumentEmbedding.get c' i = DocumentEmbedding.get c i.
Proof.
  intros policy c texts metadatas ids. cbv zeta.
  destruct (upsert_embeddings_run policy c texts metadatas ids)
    as [[_ ->] | (_ & metadatas' & ids' & _ & _ & _ & Hadd)].
  - split; [exists []; now rewrite app_nil_r | reflexivity].
  - apply add_ok in Hadd.
    destruct Hadd as (_ & _ & _ & added & -> & Hfresh & _ & _).
    split; [now exists added|].
    intros i Hi. rewrite get_app.
    assert (Hnone : DocumentEmbedding.get added i = []).
    { unfold DocumentEmbedding.get. clear -Hfresh Hi.
      induction Hfresh as [|ch l [Hch _] _ IH]; [reflexivity|]. cbn [filter].
      destruct (String.eqb_spec (DocumentEmbedding.chunk_id ch) i) as [Heq|_];
        [rewrite Heq in Hch; congruence | exact IH]. }
    rewrite Hnone. apply app_nil_r.
Qed.

Lemma upsert_embeddings_preserves_stored_witness :
  let c := [{| DocumentEmbedding.chunk_id := "doc_1";
               DocumentEmbedding.chunk_text := "old text";
               DocumentEmbedding.chunk_metadata := [] |}] in
  DocumentEmbedding.get
    (snd (DocumentEmbedding.upsert_embeddings
            DocumentEmbedding.IgnoreExisting c
            ["new text"%string; "more text"%string] None
            (Some ["doc_1"%string; "doc_2"%string]))) "doc_1"
  = DocumentEmbedding.get c "doc_1".
Proof.
  intro c.
  apply (proj2 (upsert_embeddings_preserves_stored
                  DocumentEmbedding.IgnoreExisting c
                  ["new text"%string; "more text"%string] None
                  (Some ["doc_1"%string; "doc_2"%string]))).
  reflexivity.
Defined.

(** X7. [upsert_embeddings] keeps the ids of the collection distinct. *)
Theorem upsert_embeddings_keeps_ids_distinct :
  forall (policy : DocumentEmbedding.AddPolicy) (c : DocumentEmbedding.Collection)
         (texts : list string) (metadatas : option (list Metadata))
         (ids : option (list string)),
    NoDup (map DocumentEmbedding.chunk_id c) ->
    NoDup (map DocumentEmbedding.chunk_id
               (snd (DocumentEmbedding.upsert_embeddings
                       policy c texts metadatas ids))).
Proof.
  intros policy c texts metadatas ids Hc.
  destruct (upsert_embeddings_run policy c texts metadatas ids)
    as [[_ ->] | (_ & metadatas' & ids' & _ & _ & _ & Hadd)]; [exact Hc|].
  apply add_ok in Hadd.
  destruct Hadd as (_ & _ & _ & added & -> & Hfresh & Hnd & _).
  rewrite map_app. clear -Hc Hfresh Hnd.
  induction c as [|ch c IH]; [exact Hnd|].
  simpl. inversion Hc as [|? ? Hx Hrest]; subst.
  constructor.
  - intro Hin. apply in_app_or in Hin. destruct Hin as [Hin|Hin]; [tauto|].
    apply in_map_iff in Hin. destruct Hin as (ch' & Heq & Hin').
    rewrite Forall_forall in Hfresh. destruct (Hfresh ch' Hin') as [Hno _].
    unfold DocumentEmbedding.has_id in Hno. simpl in Hno.
    rewrite Heq, String.eqb_refl in Hno. discriminate.
  - apply IH; [exact Hrest|].
    eapply Forall_impl; [|exact Hfresh]. intros ch' [Hno Hin]. split; [|exact Hin].
    unfold DocumentEmbedding.has_id in *. simpl in Hno.
    apply orb_false_iff in Hno. tauto.
Qed.

Lemma upsert_embeddings_keeps_ids_distinct_witness :
  NoDup (map DocumentEmbedding.chunk_id
             (snd (DocumentEmbedding.upsert_embeddings
                     DocumentEmbedding.RejectExisting []
                     ["one"%string; "two"%string] None None))).
Proof.
  apply upsert_embeddings_keeps_ids_distinct. constructor.
Defined.

Section LookupFacts.
Import DocumentEmbedding.

Lemma filter_wanted_one (c : Collection) (i : string) :
  filter (Index.wanted_by [i]) c = get c i.
Proof.
  unfold get. apply filter_ext. intro ch. unfold Index.wanted_by. simpl.
  apply orb_false_r.
Qed.

Lemma get_single (l : Collection) (ch : Chunk) :
  NoDup (map chunk_id l) -> In ch l -> get l (chunk_id ch) = [ch].
Proof.
  unfold get. induction l as [|x l IH]; intros Hnd Hin; [contradiction|].
  inversion Hnd as [|? ? Hx Hl]; subst. cbn [filter].
  destruct Hin as [->|Hin].
  - rewrite String.eqb_refl. f_equal.
    apply (get_absent l). destruct (has_id l (chunk_id ch)) eqn:Hc; [|reflexivity].
    apply has_id_In in Hc. contradiction.
  - destruct (String.eqb_spec (chunk_id x) (chunk_id ch)) as [Heq|_].
    + exfalso. apply Hx. rewrite Heq. now apply in_map.
    + now apply IH.
Qed.

Lemma lookup_of_get (c : Collection) (i : string) :
  DocumentLookup.retrieve_document_by_id (Index.get c) i
  = match get c i with
    | [] => None
    | ch :: _ => Some {| DocumentLookup.id := i;
                         DocumentLookup.text := Some (chunk_text ch);
                         DocumentLookup.metadata := Some (chunk_metadata ch) |}
    end.
Proof.
  unfold DocumentLookup.retrieve_document_by_id, Index.get, Index.get_result.
  rewrite filter_wanted_one. cbn [Index.got_documents Index.got_metadatas].
  destruct (get c i); reflexivity.
Qed.
End LookupFacts.

(** X8. Round trip. When [upsert_embeddings] reports success, a text
    that was handed over under an id that was not yet stored is returned
    by [retrieve_document_by_id] for that id, with the metadata handed
    over with it. *)
Theorem upsert_then_retrieve_by_id :
  forall (policy : DocumentEmbedding.AddPolicy) (c : DocumentEmbedding.Collection)
         (texts : list string) (metadatas : list Metadata) (ids : list string)
         (k : nat) (i t : string) (m : Metadata),
    let run := DocumentEmbedding.upsert_embeddings
                 policy c texts (Some metadatas) (Some ids) in
    fst run = true ->
    nth_error ids k = Some i ->
    nth_error texts k = Some t ->
    nth_error metadatas k = Some m ->
    DocumentEmbedding.has_id c i = false ->
    DocumentLookup.retrieve_document_by_id (Index.get (snd run)) i
    = Some {| DocumentLookup.id := i;
              DocumentLookup.text := Some t;
              DocumentLookup.metadata := Some m |}.
Proof.
  intros policy c texts metadatas ids k i t m run Hok Hi Ht Hm Hnew. subst run.
  destruct ids as [|i0 ids0]; [destruct k; discriminate|].
  destruct metadatas as [|m0 metadatas0]; [destruct k; discriminate|].
  destruct (upsert_embeddings_run policy c texts
              (Some (m0 :: metadatas0)) (Some (i0 :: ids0)))
    as [[Hf _] | (_ & metadatas' & ids' & _ & -> & -> & Hadd)];
    [rewrite Hf in Hok; discriminate|].
  apply add_ok in Hadd.
  destruct Hadd as (_ & _ & _ & added & Hc' & Hfresh & Hnd & Hall).
  rewrite Hc', lookup_of_get, get_app, (get_absent c i Hnew). cbn [app].
  set (ch := {| DocumentEmbedding.chunk_id := i;
                DocumentEmbedding.chunk_text := t;
                DocumentEmbedding.chunk_metadata := m |}).
  assert (Hin : In ch added).
  { apply Hall; [|exact Hnew].
    exact (nth_error_In _ _ (@zip3_nth _ _ _ k i t m Hi Ht Hm)). }
  change i with (DocumentEmbedding.chunk_id ch) at 1.
  rewrite (get_single added ch Hnd Hin). reflexivity.
Qed.

Lemma upsert_then_retrieve_by_id_witness :
  DocumentLookup.retrieve_document_by_id
    (Index.get (snd (DocumentEmbedding.upsert_embeddings
                       DocumentEmbedding.IgnoreExisting []
                       ["the tenant is Bob."%string]
                       (Some [[("source"%string, MStr "lease.pdf")]])
                       (Some ["doc_1"%string])))) "doc_1"
  = Some {| DocumentLookup.id := "doc_1";
            DocumentLookup.text := Some "the tenant is Bob."%string;
            DocumentLookup.metadata := Some [("source"%string, MStr "lease.pdf")] |}.
Proof.
  apply (@upsert_then_retrieve_by_id
           DocumentEmbedding.IgnoreExisting [] ["the tenant is Bob."%string]
           [[("source"%string, MStr "lease.pdf")]] ["doc_1"%string] 0%nat);
    reflexivity.
Defined.

(** X9. [delete_document] on a collection that is in service reports
    success; afterwards [retrieve_document_by_id] finds nothing under the
    id, what is stored under every other id is as before, and the count
    has gone down by one when the id was stored (ids being distinct) and
    has not changed when it was not. *)
Theorem delete_document_removes :
  forall (c : DocumentEmbedding.Collection) (i : string),
    let run := EmbeddingOps.delete_document Index.delete c i in
    fst run = true
    /\ DocumentLookup.retrieve_document_by_id (Index.get (snd run)) i = None
    /\ (forall j, j <> i ->
                  DocumentEmbedding.get (snd run) j = DocumentEmbedding.get c j)
    /\ (NoDup (map DocumentEmbedding.chunk_id c) ->
        DocumentEmbedding.has_id c i = true ->
        EmbeddingOps.get_document_count Index.count (snd run)
        = (EmbeddingOps.get_document_count Index.count c - 1)%Z)
    /\ (DocumentEmbedding.has_id c i = false -> snd run = c).
Proof.
  intros c i. cbv zeta.
  unfold EmbeddingOps.delete_document, Index.delete. cbn [fst snd].
  set (keep := fun ch => negb (Index.wanted_by [i] ch)).
  assert (Hkeep : forall ch, keep ch
                             = negb (String.eqb (DocumentEmbedding.chunk_id ch) i)).
  { intro ch. unfold keep, Index.wanted_by. simpl. now rewrite orb_false_r. }
  split; [reflexivity|]. split; [|split; [|split]].
  - rewrite lookup_of_get.
    replace (DocumentEmbedding.get (filter keep c) i) with (@nil DocumentEmbedding.Chunk);
      [reflexivity|].
    unfold DocumentEmbedding.get. induction c as [|ch c IH]; [reflexivity|].
    cbn [filter]. rewrite Hkeep.
    destruct (String.eqb (DocumentEmbedding.chunk_id ch) i) eqn:E; cbn [negb];
      [exact IH|]. cbn [filter]. rewrite E. exact IH.
  - intros j Hj. unfold DocumentEmbedding.get.
    induction c as [|ch c IH]; [reflexivity|].
    cbn [filter]. rewrite Hkeep.
    destruct (String.eqb_spec (DocumentEmbedding.chunk_id ch) i) as [Heq|Hne];
      cbn [negb].
    + destruct (String.eqb_spec (DocumentEmbedding.chunk_id ch) j) as [Heq'|_];
        [congruence | exact IH].
    + cbn [filter]. now rewrite IH.
  - intros Hnd Hin. unfold EmbeddingOps.get_document_count, Index.count.
    induction c as [|ch c IH]; [discriminate|].
    inversion Hnd as [|? ? Hx Hrest]; subst.
    cbn [filter]. rewrite Hkeep.
    destruct (String.eqb_spec (DocumentEmbedding.chunk_id ch) i) as [Heq|Hne];
      cbn [negb].
    + assert (Hc : filter keep c = c).
      { apply filter_all. apply Forall_forall. intros x Hinx. rewrite Hkeep.
        destruct (String.eqb_spec (DocumentEmbedding.chunk_id x) i) as [Hxi|_];
          [|reflexivity].
        exfalso. apply Hx. rewrite Heq, <- Hxi. now apply in_map. }
      rewrite Hc. simpl length. lia.
    + unfold DocumentEmbedding.has_id in Hin. simpl in Hin.
      apply String.eqb_neq in Hne. rewrite Hne in Hin. simpl in Hin.
      specialize (IH Hrest Hin). simpl length. lia.
  - intro Hno. apply filter_all. apply Forall_forall. intros x Hinx.
    rewrite Hkeep.
    destruct (String.eqb_spec (DocumentEmbedding.chunk_id x) i) as [Hxi|_];
      [|reflexivity].
    assert (DocumentEmbedding.has_id c i = true); [|congruence].
    apply has_id_In. rewrite <- Hxi. now apply in_map.
Qed.

Lemma delete_document_removes_witness :
  let c := [{| DocumentEmbedding.chunk_id := "doc_1";
               DocumentEmbedding.chunk_text := "old text";
               DocumentEmbedding.chunk_metadata := [] |};
            {| DocumentEmbedding.chunk_id := "doc_2";
               DocumentEmbedding.chunk_text := "other text";
               DocumentEmbedding.chunk_metadata := [] |}] in
  EmbeddingOps.get_document_count
    Index.count (snd (EmbeddingOps.delete_document Index.delete c "doc_1"))
  = (EmbeddingOps.get_document_count Index.count c - 1)%Z.
Proof.
  intro c.
  destruct (delete_document_removes c "doc_1") as (_ & _ & _ & Hcount & _).
  apply Hcount.
  - repeat constructor; simpl; intuition discriminate.
  - reflexivity.
Defined.

(** X10. Without ids [upsert_embeddings] names the chunks [doc_0],
    [doc_1], ... anew in every call. After a call without ids that
    reported success, a further call without ids, with no more texts than
    the first, stores nothing: the collection stays as it was. *)
Theorem upsert_embeddings_default_ids_collide :
  forall (policy : DocumentEmbedding.AddPolicy) (c : DocumentEmbedding.Collection)
         (texts1 texts2 : list string)
         (metadatas1 metadatas2 : option (list Metadata)),
    let first := DocumentEmbedding.upsert_embeddings
                   policy c texts1 metadatas1 None in
    fst first = true ->
    (length texts2 <= length texts1)%nat ->
    snd (DocumentEmbedding.upsert_embeddings
           policy (snd first) texts2 metadatas2 None)
    = snd first.
Proof.
  intros policy c texts1 texts2 metadatas1 metadatas2 first Hok Hlen. subst first.
  destruct (upsert_embeddings_run policy c texts1 metadatas1 None)
    as [[Hf _] | (_ & ms1 & ids1 & _ & Hids1 & _ & Hadd1)];
    [rewrite Hf in Hok; discriminate|].
  set (c1 := snd (DocumentEmbedding.upsert_embeddings policy c texts1 metadatas1 None))
    in *.
  apply add_ok in Hadd1.
  destruct Hadd1 as (Ht1 & Hm1 & _ & added1 & Hc1 & _ & _ & Hall1).
  assert (Hpresent : forall j, In j ids1 -> DocumentEmbedding.has_id c1 j = true).
  { intros j Hj. rewrite <- (zip3_ids ids1 texts1 ms1 Ht1 Hm1) in Hj.
    apply in_map_iff in Hj. destruct Hj as (ch & <- & Hin).
    apply has_id_In. rewrite Hc1, map_app. apply in_or_app.
    destruct (DocumentEmbedding.has_id c (DocumentEmbedding.chunk_id ch)) eqn:Hc.
    - left. now apply has_id_In.
    - right. apply in_map. now apply Hall1. }
  destruct (upsert_embeddings_run policy c1 texts2 metadatas2 None)
    as [[_ ->] | (_ & ms2 & ids2 & _ & Hids2 & _ & Hadd2)]; [reflexivity|].
  apply add_ok in Hadd2.
  destruct Hadd2 as (Ht2 & Hm2 & _ & added2 & -> & Hfresh2 & _ & _).
  destruct added2 as [|ch added2]; [apply app_nil_r|].
  exfalso. destruct (Forall_inv Hfresh2) as [Hno Hin].
  assert (Hj : In (DocumentEmbedding.chunk_id ch) ids2).
  { rewrite <- (zip3_ids ids2 texts2 ms2 Ht2 Hm2). now apply in_map. }
  rewrite (Hpresent (DocumentEmbedding.chunk_id ch)) in Hno; [discriminate|].
  subst ids1 ids2. unfold DocumentEmbedding.sequential_ids in *.
  apply in_map_iff in Hj. destruct Hj as (n & <- & Hn).
  apply in_map. apply in_seq in Hn. apply in_seq. lia.
Qed.

Lemma upsert_embeddings_default_ids_collide_witness :
  let first := DocumentEmbedding.upsert_embeddings
                 DocumentEmbedding.IgnoreExisting []
                 ["first batch"%string] None None in
  snd (DocumentEmbedding.upsert_embeddings
         DocumentEmbedding.IgnoreExisting (snd first)
         ["second batch"%string] None None)
  = snd first.
Proof.
  intro first.
  apply (@upsert_embeddings_default_ids_collide
           DocumentEmbedding.IgnoreExisting [] ["first batch"%string]
           ["second batch"%string] None None).
  - reflexivity.
  - simpl. lia.
Defined.

(** ** chatbot_model.py: retrieve_documents and process_query *)

Section ModelRetrieveFacts.
Import ChatbotModel Shapes.
Variable self : QAModel.
Variable r : QueryResult.

Lemma get_or_covered {A : Type} (f : Field A) (i n : nat) (default : A) :
  row_covers f n -> (i < n)%nat ->
  get_or f i default = Ok (entry_or f i default).
Proof.
  unfold row_covers, get_or, entry_or, item.
  destruct f as [| |[|row rows]]; try reflexivity.
  intros Hn Hi. destruct (nth_error row i) as [a|] eqn:E.
  - now rewrite (nth_error_nth _ _ default E).
  - apply nth_error_None in E. lia.
Qed.

Lemma get_or_short {A : Type} (f : Field A) (i : nat) (default : A) :
  row_short f (S i) -> get_or f i default = Raise index_error.
Proof.
  unfold row_short, get_or, item.
  destruct f as [| |[|row rows]]; try contradiction.
  intro H. destruct (nth_error row i) eqn:E; [|reflexivity].
  assert (nth_error row i <> None) by congruence.
  apply nth_error_Some in H0. lia.
Qed.

Lemma build_documents_covered (n : nat) :
  row_covers (metadatas r) n -> row_covers (distances r) n -> row_covers (ids r) n ->
  forall (docs : list (option string)) (k : nat),
    (k + length docs <= n)%nat ->
    build_documents r (enumerate_from k docs)
    = Ok (map (fun p => document_at r (fst p) (snd p)) (enumerate_from k docs)).
Proof.
  intros Hm Hd Hi. induction docs as [|doc docs IH]; intros k Hk; [reflexivity|].
  cbn [enumerate_from build_documents map fst snd].
  simpl in Hk.
  rewrite (get_or_covered _ _ Hm), (get_or_covered _ _ Hd), (get_or_covered _ _ Hi)
    by lia.
  cbn [exc_bind]. rewrite IH by lia. reflexivity.
Qed.

Lemma build_documents_short :
  forall (docs : list (option string)) (k : nat),
    (row_short (metadatas r) (k + length docs)
     \/ row_short (distances r) (k + length docs)
     \/ row_short (ids r) (k + length docs)) ->
    row_covers (metadatas r) k -> row_covers (distances r) k -> row_covers (ids r) k ->
    exists e, build_documents r (enumerate_from k docs) = Raise e.
Proof.
  induction docs as [|doc docs IH]; intros k Hshort Hm Hd Hi.
  - exfalso. rewrite Nat.add_0_r in Hshort.
    unfold row_short, row_covers in *.
    destruct Hshort as [H|[H|H]];
      [destruct (metadatas r) as [| |[|? ?]]
      |destruct (distances r) as [| |[|? ?]]
      |destruct (ids r) as [| |[|? ?]]]; try contradiction; lia.
  - cbn [enumerate_from build_documents].
    destruct (get_or (metadatas r) k (Some [])) as [md|e] eqn:Em;
      cbn [exc_bind]; [|eauto].
    destruct (get_or (distances r) k 0) as [dist|e] eqn:Ed;
      cbn [exc_bind]; [|eauto].
    destruct (get_or (ids r) k (doc_label k)) as [doc_id|e] eqn:Ei;
      cbn [exc_bind]; [|eauto].
    destruct (IH (S k)) as [e He].
    + simpl in Hshort. now rewrite Nat.add_succ_r in Hshort.
    + clear -Em. unfold get_or, item, row_covers in *.
      destruct (metadatas r) as [| |[|row ?]]; auto.
      destruct (nth_error row k) eqn:E; [|discriminate].
      assert (nth_error row k <> None) by congruence.
      apply nth_error_Some in H. lia.
    + clear -Ed. unfold get_or, item, row_covers in *.
      destruct (distances r) as [| |[|row ?]]; auto.
      destruct (nth_error row k) eqn:E; [|discriminate].
      assert (nth_error row k <> None) by congruence.
      apply nth_error_Some in H. lia.
    + clear -Ei. unfold get_or, item, row_covers in *.
      destruct (ids r) as [| |[|row ?]]; auto.
      destruct (nth_error row k) eqn:E; [|discriminate].
      assert (nth_error row k <> None) by congruence.
      apply nth_error_Some in H. lia.
    + rewrite He. cbn [exc_bind]. eauto.
Qed.

Lemma model_retrieve_run (query : string) (k : Z) :
  collection_query self query k = Ok (Some r) ->
  value (retrieve_documents self query k)
  = match first_row "documents" (documents r) with
    | Ok docs =>
        match build_documents r (enumerate docs) with
        | Ok l => l
        | Raise _ => []
        end
    | Raise _ => []
    end.
Proof.
  intro Hs. unfold retrieve_documents, call, bind, lift. rewrite Hs.
  destruct (first_row "documents" (documents r)) as [docs|e]; [|reflexivity].
  destruct (build_documents r (enumerate docs)); reflexivity.
Qed.
End ModelRetrieveFacts.

(** X11. [EnhancedQAModel.retrieve_documents] filters nothing: when the
    rows of metadata, distances and ids that the store returns are not
    shorter than the row of documents, it returns one entry per document
    of the store, in the order of the store and whatever the distance,
    with the metadata, distance and id of the same position, or [{}],
    [0.0] and [doc_<position>] for a row that the answer does not have. *)
Theorem model_retrieve_documents_unfiltered :
  forall (self : ChatbotModel.QAModel) (query : string) (k : Z) (r : QueryResult)
         (docs : list (option string)) (rest : list (list (option string))),
    ChatbotModel.collection_query self query k = Ok (Some r) ->
    documents r = Rows (docs :: rest) ->
    Shapes.row_covers (metadatas r) (length docs) ->
    Shapes.row_covers (distances r) (length docs) ->
    Shapes.row_covers (ids r) (length docs) ->
    value (ChatbotModel.retrieve_documents self query k)
    = map (fun p => Shapes.document_at r (fst p) (snd p)) (enumerate docs)
    /\ map ChatbotModel.text (value (ChatbotModel.retrieve_documents self query k))
       = docs.
Proof.
  intros self query k r docs rest Hs Hdocs Hm Hd Hi.
  rewrite (model_retrieve_run self query k Hs), Hdocs. cbn [first_row].
  unfold enumerate.
  rewrite (@build_documents_covered r (length docs) Hm Hd Hi docs 0) by lia.
  split; [reflexivity|].
  rewrite map_map. cbn [Shapes.document_at ChatbotModel.text].
  apply enumerate_from_snd.
Qed.

Lemma model_retrieve_documents_unfiltered_witness :
  map ChatbotModel.text
      (value (ChatbotModel.retrieve_documents
                (Samples.qa Samples.lease_store) "tenant" 5))
  = [Some "the tenant is Bob."%string; Some "rent is due Monday."%string].
Proof.
  apply (proj2 (@model_retrieve_documents_unfiltered
                  (Samples.qa Samples.lease_store) "tenant"%string 5%Z
                  Samples.lease_response _ _ eq_refl eq_refl
                  ltac:(simpl; lia) ltac:(simpl; lia) ltac:(simpl; lia))).
Defined.

(** X12. All or nothing: when the row of metadata, of distances or of
    ids that the store returns is shorter than the row of documents,
    [EnhancedQAModel.retrieve_documents] returns the empty list. *)
Theorem model_retrieve_documents_short_row :
  forall (self : ChatbotModel.QAModel) (query : string) (k : Z) (r : QueryResult)
         (docs : list (option string)) (rest : list (list (option string))),
    ChatbotModel.collection_query self query k = Ok (Some r) ->
    documents r = Rows (docs :: rest) ->
    (Shapes.row_short (metadatas r) (length docs)
     \/ Shapes.row_short (distances r) (length docs)
     \/ Shapes.row_short (ids r) (length docs)) ->
    value (ChatbotModel.retrieve_documents self query k) = [].
Proof.
  intros self query k r docs rest Hs Hdocs Hshort.
  rewrite (model_retrieve_run self query k Hs), Hdocs. cbn [first_row].
  unfold enumerate.
  destruct (@build_documents_short r docs 0 Hshort) as [e ->]; try reflexivity;
    unfold Shapes.row_covers;
    [destruct (metadatas r) as [| |[|? ?]]
    |destruct (distances r) as [| |[|? ?]]
    |destruct (ids r) as [| |[|? ?]]]; auto; lia.
Qed.

Lemma model_retrieve_documents_short_row_witness :
  value (ChatbotModel.retrieve_documents
           (Samples.qa (fun _ _ =>
                          Ok (Some {| ids := Rows [["doc_1"%string]];
                                      documents := Rows [[Some "a"%string;
                                                          Some "b"%string]];
                                      metadatas := Missing;
                                      distances := Missing |})))
           "tenant" 5)
  = [].
Proof.
  eapply model_retrieve_documents_short_row; try reflexivity.
  right. right. simpl. lia.
Defined.

Section ProcessFacts.
Import ChatbotModel Shapes.

Lemma model_retrieve_covered (self : QAModel) (query : string) (k : Z)
      (r : QueryResult) (docs : list (option string))
      (rest : list (list (option string))) :
  collection_query self query k = Ok (Some r) ->
  documents r = Rows (docs :: rest) ->
  row_covers (metadatas r) (length docs) ->
  row_covers (distances r) (length docs) ->
  row_covers (ids r) (length docs) ->
  retrieve_documents self query k
  = ([CallStoreQuery query k],
     map (fun p => document_at r (fst p) (snd p)) (enumerate docs)).
Proof.
  intros Hs Hdocs Hm Hd Hi.
  rewrite (surjective_pairing (retrieve_documents self query k)).
  f_equal.
  - apply calls_retrieve_documents.
  - change (snd (retrieve_documents self query k))
      with (value (retrieve_documents self query k)).
    rewrite (model_retrieve_run self query k Hs), Hdocs. cbn [first_row].
    unfold enumerate.
    now rewrite (@build_documents_covered r (length docs) Hm Hd Hi docs 0) by lia.
Qed.

Lemma extract_text_retrieved (l : list Document) :
  extract_text (map Retrieved l) = map text l.
Proof. induction l as [|d l IH]; [reflexivity|]. simpl. now rewrite IH. Qed.

Lemma checked_strings_all (texts : list string) :
  checked_strings (map Some texts) = Ok texts.
Proof.
  induction texts as [|t texts IH]; [reflexivity|]. simpl. now rewrite IH.
Qed.

Lemma checked_strings_none (l : list (option string)) :
  In None l -> exists e, checked_strings l = Raise e.
Proof.
  induction l as [|[s|] l IH]; intro H; [contradiction| |simpl; eauto].
  destruct H as [H|H]; [discriminate|].
  destruct (IH H) as [e He]. simpl. rewrite He. simpl. eauto.
Qed.

Lemma enumerated_texts (r : QueryResult) (docs : list (option string)) :
  map text (map (fun p => document_at r (fst p) (snd p)) (enumerate docs)) = docs.
Proof.
  rewrite map_map. cbn [document_at text]. apply enumerate_from_snd.
Qed.
End ProcessFacts.

(** X13. End to end. When the store answers the query of [process_query]
    with at least one document, all of them texts, and rows of metadata,
    distances and ids that are not shorter, the result of [process_query]
    is the result of [answer_question] on the texts of all returned
    documents, joined by blank lines in the order of the store, with at
    most 100 tokens per answer; no similarity threshold is applied, and
    the store is asked once, for five results, before the extractor
    runs. *)
Theorem process_query_context_is_all_retrieved_text :
  forall (self : ChatbotModel.QAModel) (query : string) (r : QueryResult)
         (first : string) (texts : list string)
         (rest : list (list (option string))),
    ChatbotModel.collection_query self query 5%Z = Ok (Some r) ->
    documents r = Rows (map Some (first :: texts) :: rest) ->
    Shapes.row_covers (metadatas r) (S (length texts)) ->
    Shapes.row_covers (distances r) (S (length texts)) ->
    Shapes.row_covers (ids r) (S (length texts)) ->
    let extractor := ChatbotModel.answer_question
                       self query
                       (join ChatbotModel.blank_line (first :: texts)) 100 in
    value (ChatbotModel.process_query self query true None) = value extractor
    /\ calls (ChatbotModel.process_query self query true None)
       = CallStoreQuery query 5 :: calls extractor.
Proof.
  intros self query r first texts rest Hs Hdocs Hm Hd Hi extractor. subst extractor.
  assert (Hlen : length (map Some (first :: texts)) = S (length texts))
    by (simpl; now rewrite length_map).
  rewrite <- Hlen in Hm, Hd, Hi.
  unfold ChatbotModel.process_query, ChatbotModel.process_body.
  rewrite (model_retrieve_covered self query 5 Hs Hdocs Hm Hd Hi).
  set (ds := map (fun p => Shapes.document_at r (fst p) (snd p))
                 (enumerate (map Some (first :: texts)))).
  assert (Hds : map ChatbotModel.text ds = map Some (first :: texts))
    by apply enumerated_texts.
  destruct ds as [|d ds]; [discriminate|].
  unfold bind. cbn [map].
  change (ChatbotModel.Retrieved d :: map ChatbotModel.Retrieved ds)
    with (map ChatbotModel.Retrieved (d :: ds)).
  rewrite extract_text_retrieved, Hds, checked_strings_all.
  unfold lift, ChatbotModel.default_max_answer_length.
  destruct (ChatbotModel.answer_question
              self query (join ChatbotModel.blank_line (first :: texts)) 100)
    as [l res].
  split; reflexivity.
Qed.

Lemma process_query_context_is_all_retrieved_text_witness :
  value (ChatbotModel.process_query
           (Samples.qa Samples.lease_store) "who is the tenant?" true None)
  = value (ChatbotModel.answer_question
             (Samples.qa Samples.lease_store) "who is the tenant?"
             (join ChatbotModel.blank_line
                   ["the tenant is Bob."%string; "rent is due Monday."%string])
             100).
Proof.
  apply (proj1 (@process_query_context_is_all_retrieved_text
                  (Samples.qa Samples.lease_store) "who is the tenant?"%string
                  Samples.lease_response "the tenant is Bob."%string
                  ["rent is due Monday."%string] [] eq_refl eq_refl
                  ltac:(simpl; lia) ltac:(simpl; lia) ltac:(simpl; lia))).
Defined.

(** X14. One retrieved record without a document text is enough for
    [process_query] to give up: the result is the error result of
    [process_query], with [has_answer] false and confidence 0.0, and the
    span extractor is not called. *)
Theorem process_query_textless_record :
  forall (self : ChatbotModel.QAModel) (query : string) (r : QueryResult)
         (docs : list (option string)) (rest : list (list (option string))),
    ChatbotModel.collection_query self query 5%Z = Ok (Some r) ->
    documents r = Rows (docs :: rest) ->
    Shapes.row_covers (metadatas r) (length docs) ->
    Shapes.row_covers (distances r) (length docs) ->
    Shapes.row_covers (ids r) (length docs) ->
    In None docs ->
    exists e,
      ChatbotModel.process_query self query true None
      = ([CallStoreQuery query 5], ChatbotModel.query_error_result e).
Proof.
  intros self query r docs rest Hs Hdocs Hm Hd Hi Hnone.
  unfold ChatbotModel.process_query, ChatbotModel.process_body.
  rewrite (model_retrieve_covered self query 5 Hs Hdocs Hm Hd Hi).
  set (ds := map (fun p => Shapes.document_at r (fst p) (snd p)) (enumerate docs)).
  assert (Hds : map ChatbotModel.text ds = docs) by apply enumerated_texts.
  destruct ds as [|d ds]; [simpl in Hds; subst; contradiction|].
  unfold bind. cbn [map].
  change (ChatbotModel.Retrieved d :: map ChatbotModel.Retrieved ds)
    with (map ChatbotModel.Retrieved (d :: ds)).
  rewrite extract_text_retrieved, Hds.
  destruct (checked_strings_none _ Hnone) as [e ->].
  exists e. reflexivity.
Qed.

Lemma process_query_textless_record_witness :
  exists e,
    ChatbotModel.process_query
      (Samples.qa MoreSamples.holed_store) "tenant" true None
    = ([CallStoreQuery "tenant" 5], ChatbotModel.query_error_result e).
Proof.
  eapply (@process_query_textless_record
            (Samples.qa MoreSamples.holed_store) "tenant"%string
            MoreSamples.holed_response);
    first [ reflexivity | simpl; lia | simpl; tauto ].
Defined.

(** ** chatbot_model.py: answer_question *)

Lemma candidates_stripped (self : ChatbotModel.QAModel) (n : Z)
      (question : string) (chunks : list string) (cands : list Candidate) :
  all_candidates self n question chunks = Ok cands ->
  Forall (fun c => truthy (strip (snd c)) = true) cands.
Proof.
  apply gather_Forall. intros chunk cs. unfold chunk_candidates.
  destruct (ChatbotModel.tokenizer self question chunk) as [input_ids|];
    simpl; [|discriminate].
  destruct (ChatbotModel.model self input_ids) as [logits|]; simpl; [|discriminate].
  destruct (ChatbotModel.topk self (fst logits) ChatbotModel.top_k) as [starts|];
    simpl; [|discriminate].
  destruct (ChatbotModel.topk self (snd logits) ChatbotModel.top_k) as [ends|];
    simpl; [|discriminate].
  apply gather_Forall. intros [s e] cs'. unfold span_candidate.
  destruct (_ && _); [|intro H; inversion H; constructor].
  destruct (ChatbotModel.decode self true _) as [t|]; simpl; [|discriminate].
  destruct (truthy (strip t)) eqn:Ht; intro H; inversion H; constructor.
  - exact Ht.
  - constructor.
Qed.

Lemma candidates_need_length (self : ChatbotModel.QAModel) (n : Z)
      (question : string) (chunks : list string) (cands : list Candidate) :
  (n < 1)%Z ->
  all_candidates self n question chunks = Ok cands ->
  cands = [].
Proof.
  intros Hn H.
  assert (Hnone : Forall (fun _ => False) cands).
  { revert H. apply gather_Forall. intros chunk cs. unfold chunk_candidates.
    destruct (ChatbotModel.tokenizer self question chunk) as [input_ids|];
      simpl; [|discriminate].
    destruct (ChatbotModel.model self input_ids) as [logits|]; simpl; [|discriminate].
    destruct (ChatbotModel.topk self (fst logits) ChatbotModel.top_k) as [starts|];
    simpl; [|discriminate].
    destruct (ChatbotModel.topk self (snd logits) ChatbotModel.top_k) as [ends|];
    simpl; [|discriminate].
    apply gather_Forall. intros [s e] cs'. unfold span_candidate.
    destruct (Nat.leb_spec s e) as [Hse|Hse]; cbn [andb].
    - destruct (Z.leb_spec (Z.of_nat e - Z.of_nat s + 1) n) as [Hle|Hle]; [lia|].
      intro Hok. inversion Hok. constructor.
    - intro Hok. inversion Hok. constructor. }
  destruct cands as [|c cands]; [reflexivity|].
  inversion Hnone; contradiction.
Qed.

(** Where an answer comes from. *)
Lemma answer_question_found (self : ChatbotModel.QAModel)
      (question context : string) (n : Z) :
  ChatbotModel.has_answer
    (value (ChatbotModel.answer_question self question context n)) = true ->
  exists question_tokens chunks cands c,
    ChatbotModel.encode self question = Ok question_tokens
    /\ value (ChatbotModel.build_chunks
                self context (ChatbotModel.context_budget question_tokens))
       = Ok chunks
    /\ all_candidates self n question chunks = Ok cands
    /\ In c cands
    /\ value (ChatbotModel.answer_question self question context n)
       = {| ChatbotModel.answer := snd c;
            ChatbotModel.confidence := Fin (fst c);
            ChatbotModel.has_answer := true |}.
Proof.
  rewrite value_answer_question. unfold ChatbotModel.answer_body.
  destruct (ChatbotModel.too_short context); [discriminate|].
  rewrite value_bind, value_call.
  destruct (ChatbotModel.encode self question) as [qt|e] eqn:Henc;
    cbn [exc_bind]; [|discriminate].
  rewrite value_bind.
  destruct (value (ChatbotModel.build_chunks self context _)) as [chunks|e]
    eqn:Hch; cbn [exc_bind]; [|discriminate].
  rewrite value_bind, value_scan_chunks.
  destruct (all_candidates self n question chunks) as [cands|e] eqn:Hc;
    cbn [exc_bind]; [|discriminate].
  destruct (fold_consider cands
              {| ChatbotModel.best_answer := "";
                 ChatbotModel.best_confidence := NegInf |})
    as [[Hb _] | (c & Hin & Hb & _)]; rewrite Hb;
    cbn [ChatbotModel.best_answer ChatbotModel.best_confidence];
    [discriminate|].
  destruct (truthy (snd c)); [|discriminate].
  intros _. exists qt, chunks, cands, c.
  repeat (split; [first [reflexivity | assumption]|]). reflexivity.
Qed.

(** X15. An answer is never blank: when [answer_question] returns
    [has_answer] true, the answer has a character that is not white
    space, and the confidence is a finite score. *)
Theorem answer_is_never_blank :
  forall (self : ChatbotModel.QAModel) (question context : string) (n : Z),
    let r := value (ChatbotModel.answer_question self question context n) in
    ChatbotModel.has_answer r = true ->
    truthy (strip (ChatbotModel.answer r)) = true
    /\ exists score, ChatbotModel.confidence r = Fin score.
Proof.
  intros self question context n r Hr. subst r.
  destruct (answer_question_found _ _ _ _ Hr)
    as (qt & chunks & cands & c & _ & _ & Hc & Hin & ->).
  cbn [ChatbotModel.answer ChatbotModel.confidence]. split; [|eauto].
  pose proof (candidates_stripped _ _ _ _ Hc) as Hall.
  rewrite Forall_forall in Hall. now apply Hall.
Qed.

Lemma answer_is_never_blank_witness :
  truthy (strip (ChatbotModel.answer
                   (value (ChatbotModel.answer_question
                             (Samples.qa Samples.lease_store) "who?"
                             "the tenant is Bob." 100)))) = true.
Proof.
  apply (@answer_is_never_blank (Samples.qa Samples.lease_store)
           "who?"%string "the tenant is Bob."%string 100%Z).
  vm_compute. reflexivity.
Defined.

(** X16. With [max_answer_length] below 1 no span is short enough:
    [answer_question] never returns [has_answer] true. *)
Theorem answer_needs_positive_length :
  forall (self : ChatbotModel.QAModel) (question context : string) (n : Z),
    (n < 1)%Z ->
    ChatbotModel.has_answer
      (value (ChatbotModel.answer_question self question context n)) = false.
Proof.
  intros self question context n Hn.
  destruct (ChatbotModel.has_answer _) eqn:Hr; [|reflexivity].
  destruct (answer_question_found _ _ _ _ Hr)
    as (qt & chunks & cands & c & _ & _ & Hc & Hin & _).
  rewrite (candidates_need_length _ _ _ Hn Hc) in Hin. contradiction.
Qed.

Lemma answer_needs_positive_length_witness :
  ChatbotModel.has_answer
    (value (ChatbotModel.answer_question
              (Samples.qa Samples.lease_store) "who?" "the tenant is Bob." 0))
  = false.
Proof.
  apply answer_needs_positive_length. lia.
Defined.

Section TieBreak.
Import ChatbotModel.

Lemma fold_consider_below (x : Q) :
  forall (before : list Candidate) (best : Best),
    (forall c, In c before -> fst c < x) ->
    score_gt (Fin x) (best_confidence best) = true ->
    score_gt (Fin x) (best_confidence (fold_left consider before best)) = true.
Proof.
  induction before as [|c0 before IH]; intros best Hall Hgt; [exact Hgt|].
  cbn [fold_left]. apply IH; [intros c Hc; apply Hall; now right|].
  unfold consider. destruct (score_gt (Fin (fst c0)) (best_confidence best));
    [|exact Hgt].
  cbn [best_confidence]. simpl. apply negb_true_iff.
  destruct (Qle_bool x (fst c0)) eqn:E; [|reflexivity].
  apply Qle_bool_iff in E. exfalso.
  apply (Qlt_irrefl x). eapply Qle_lt_trans; [exact E|].
  apply Hall. now left.
Qed.

Lemma fold_consider_kept (x : Q) (t : string) :
  forall (after : list Candidate),
    (forall c, In c after -> fst c <= x) ->
    fold_left consider after {| best_answer := t; best_confidence := Fin x |}
    = {| best_answer := t; best_confidence := Fin x |}.
Proof.
  induction after as [|c0 after IH]; intro Hall; [reflexivity|].
  cbn [fold_left]. unfold consider at 2. cbn [best_confidence].
  replace (score_gt (Fin (fst c0)) (Fin x)) with false.
  - apply IH. intros c Hc. apply Hall. now right.
  - symmetry. simpl. apply negb_false_iff. apply Qle_bool_iff.
    apply Hall. now left.
Qed.

Lemma fold_consider_first (before after : list Candidate) (c : Candidate) :
  (forall c', In c' before -> fst c' < fst c) ->
  (forall c', In c' after -> fst c' <= fst c) ->
  fold_left consider (before ++ c :: after)
            {| best_answer := ""; best_confidence := NegInf |}
  = {| best_answer := snd c; best_confidence := Fin (fst c) |}.
Proof.
  intros Hb Ha. rewrite fold_left_app. cbn [fold_left].
  unfold consider at 2.
  rewrite (@fold_consider_below (fst c) before _ Hb) by reflexivity.
  now apply fold_consider_kept.
Qed.
End TieBreak.

(** X17. Among candidates with the same best score the first one wins:
    when a candidate scores strictly higher than every candidate before
    it, in the order of chunks, start positions and end positions, and at
    least as high as every candidate after it, [answer_question] returns
    its text and its score. *)
Theorem answer_question_first_best_wins :
  forall (self : ChatbotModel.QAModel) (question context : string) (n : Z)
         (question_tokens : list Z) (chunks : list string)
         (before after : list Candidate) (c : Candidate),
    (5 <= len (strip context))%Z ->
    ChatbotModel.encode self question = Ok question_tokens ->
    value (ChatbotModel.build_chunks
             self context (ChatbotModel.context_budget question_tokens))
    = Ok chunks ->
    all_candidates self n question chunks = Ok (before ++ c :: after) ->
    (forall c', In c' before -> fst c' < fst c) ->
    (forall c', In c' after -> fst c' <= fst c) ->
    value (ChatbotModel.answer_question self question context n)
    = {| ChatbotModel.answer := snd c;
         ChatbotModel.confidence := Fin (fst c);
         ChatbotModel.has_answer := true |}.
Proof.
  intros self question context n qt chunks before after c
         Hlong Henc Hchunks Hcands Hb Ha.
  rewrite value_answer_question. unfold ChatbotModel.answer_body.
  rewrite (long_context_not_short _ Hlong).
  rewrite value_bind, value_call, Henc. cbn [exc_bind].
  rewrite value_bind, Hchunks. cbn [exc_bind].
  rewrite value_bind, value_scan_chunks, Hcands. cbn [exc_bind].
  rewrite (fold_consider_first before after c Hb Ha).
  cbn [ChatbotModel.best_answer ChatbotModel.best_confidence].
  pose proof (candidates_nonblank _ _ _ _ Hcands) as Hall.
  rewrite Forall_forall in Hall.
  rewrite (Hall c) by (apply in_or_app; right; now left).
  reflexivity.
Qed.

Lemma answer_question_first_best_wins_witness :
  let self := Samples.tabled_qa [(12%nat, 5%Z); (7%nat, 4%Z)]
                                [(10%nat, 5%Z); (15%nat, 4%Z)] in
  exists after,
    all_candidates self 100 "who?" ["Ann. Bob."%string]
    = Ok ((9, "Bob."%string) :: after)
    /\ In (9, "Ann."%string) after
    /\ (exists start_logits end_logits,
           ChatbotModel.model self (Samples.window "who?" "Ann. Bob.")
           = Ok (start_logits, end_logits)
           /\ Samples.distinct start_logits = true
           /\ Samples.distinct end_logits = true)
    /\ value (ChatbotModel.answer_question self "who?" "Ann. Bob." 100)
       = {| ChatbotModel.answer := "Bob.";
            ChatbotModel.confidence := Fin 9;
            ChatbotModel.has_answer := true |}.
Proof.
  intros self. eexists. split; [vm_compute; reflexivity|].
  split; [left; reflexivity|].
  split; [eexists; eexists; split; [reflexivity | split; vm_compute; reflexivity]|].
  eapply (@answer_question_first_best_wins
            self "who?"%string "Ann. Bob."%string 100%Z
            (Samples.char_tokens "who?") ["Ann. Bob."%string]
            [] ?[after] (9, "Bob."%string)).
  - vm_compute. discriminate.
  - reflexivity.
  - vm_compute. reflexivity.
  - vm_compute. reflexivity.
  - intros c' [].
  - intros c' Hin. cbn [In] in Hin.
    repeat (destruct Hin as [<-|Hin]; [vm_compute; discriminate|]).
    contradiction.
Defined.

Section ChunkShapes.
Import ChatbotModel.
Variable self : QAModel.
Variable budget : Z.

Lemma token_count_nonneg (p : string) : (0 <= token_count self p)%Z.
Proof. unfold token_count. destruct (encode self p); lia. Qed.

Lemma group_tokens_nonneg (g : list string) : (0 <= group_tokens self g)%Z.
Proof.
  induction g as [|p g IH]; simpl; [lia|].
  pose proof (token_count_nonneg p). lia.
Qed.

Lemma group_tokens_app (g1 g2 : list string) :
  group_tokens self (g1 ++ g2) = (group_tokens self g1 + group_tokens self g2)%Z.
Proof. induction g1 as [|p g1 IH]; simpl; [lia|]. rewrite IH. lia. Qed.

(** While everything fits, the loop only extends the open chunk. *)
Lemma split_paragraphs_fits :
  forall (paragraphs : list string) (st : ChunkState) (open : list string),
    (forall p, In p paragraphs -> nonblank p = true ->
               exists tokens, encode self p = Ok tokens) ->
    represents self st [] open ->
    Forall (fun p => nonblank p = true) open ->
    (group_tokens self (open ++ filter nonblank paragraphs) <= budget)%Z ->
    exists st',
      value (split_paragraphs self budget paragraphs st) = Ok st'
      /\ represents self st' [] (open ++ filter nonblank paragraphs).
Proof.
  induction paragraphs as [|p ps IH]; intros st open Henc Hrep Hopen Hfit.
  - exists st. simpl. rewrite app_nil_r. auto.
  - cbn [split_paragraphs filter] in *.
    change (truthy (strip p)) with (nonblank p).
    destruct (nonblank p) eqn:Hp; cbn [negb].
    + destruct (Henc p (or_introl eq_refl) Hp) as [tokens Htok].
      rewrite value_bind, value_call, Htok. cbn [exc_bind].
      assert (Hn : Z.of_nat (length tokens) = token_count self p)
        by (unfold token_count; now rewrite Htok).
      rewrite Hn.
      destruct Hrep as (Hchunks & Hcur & Hlen).
      assert (Hno : (current_length st + token_count self p >? budget)%Z = false).
      { rewrite Hlen. rewrite group_tokens_app in Hfit. simpl in Hfit.
        pose proof (group_tokens_nonneg (filter nonblank ps)).
        destruct (Z.gtb_spec (group_tokens self open + token_count self p) budget);
          [lia | reflexivity]. }
      rewrite Hno. cbn [andb].
      replace (open ++ p :: filter nonblank ps)
        with ((open ++ [p]) ++ filter nonblank ps) in *
        by (now rewrite <- app_assoc).
      apply IH.
      * intros q Hq. apply Henc. now right.
      * repeat split; cbn [context_chunks current_chunk current_length].
        -- exact Hchunks.
        -- destruct open as [|x open].
           ++ rewrite Hcur. reflexivity.
           ++ rewrite Hcur.
              rewrite (@join_truthy (String newline "") (x :: open))
                by (assumption || discriminate).
              now rewrite join_snoc by discriminate.
        -- rewrite group_tokens_snoc. lia.
      * apply Forall_app. split; [exact Hopen | now repeat constructor].
      * exact Hfit.
    + apply IH; try assumption. intros q Hq. apply Henc. now right.
Qed.
End ChunkShapes.

(** X18. A context that fits is scored in one piece: when the token
    counts of the non-blank lines of the context add up to no more than
    the budget, the paragraph loop of [answer_question] makes exactly one
    chunk, the non-blank lines joined by single newlines (blank lines are
    dropped). *)
Theorem paragraph_chunks_single :
  forall (self : ChatbotModel.QAModel) (context : string) (budget : Z),
    (forall p, In p (split_lines context) -> nonblank p = true ->
               exists tokens, ChatbotModel.encode self p = Ok tokens) ->
    existsb nonblank (split_lines context) = true ->
    (group_tokens self (filter nonblank (split_lines context)) <= budget)%Z ->
    value (ChatbotModel.paragraph_chunks self context budget)
    = Ok [join (String newline "") (filter nonblank (split_lines context))].
Proof.
  intros self context budget Henc Hsome Hfit.
  destruct (@split_paragraphs_fits self budget (split_lines context)
              {| ChatbotModel.context_chunks := [];
                 ChatbotModel.current_chunk := "";
                 ChatbotModel.current_length := 0 |} [] Henc)
    as (st & Hv & Hchunks & Hcur & _).
  - repeat split.
  - constructor.
  - exact Hfit.
  - unfold ChatbotModel.paragraph_chunks. rewrite value_bind, Hv.
    cbn [exc_bind app] in *. rewrite value_ret, Hchunks, Hcur.
    rewrite (@join_truthy (String newline "")); [reflexivity| |].
    + intro Hnil. clear -Hsome Hnil.
      induction (split_lines context) as [|p l IH]; [discriminate|].
      simpl in *. destruct (nonblank p); [discriminate | auto].
    + clear. induction (split_lines context) as [|p l IH]; [constructor|].
      simpl. destruct (nonblank p) eqn:Hp; [constructor|]; assumption.
Qed.

Lemma paragraph_chunks_single_witness :
  value (ChatbotModel.paragraph_chunks
           (Samples.qa Samples.lease_store)
           ("the tenant is Bob." ++ ChatbotModel.blank_line
              ++ "rent is due Monday.")%string 507)
  = Ok [join (String newline "")
             ["the tenant is Bob."%string; "rent is due Monday."%string]].
Proof.
  apply (@paragraph_chunks_single
           (Samples.qa Samples.lease_store)
           ("the tenant is Bob." ++ ChatbotModel.blank_line
              ++ "rent is due Monday.")%string 507%Z).
  - intros p _ _. exists (Samples.char_tokens p). reflexivity.
  - reflexivity.
  - vm_compute. discriminate.
Defined.

Section NeverRawDecode.
Import ChatbotModel.
Variable self : QAModel.

Let quiet (ev : Event) : Prop := Calls.raw_decode ev = false.

Lemma quiet_split_paragraphs (budget : Z) :
  forall (paragraphs : list string) (st : ChunkState),
    Forall quiet (calls (split_paragraphs self budget paragraphs st)).
Proof.
  induction paragraphs as [|p ps IH]; intro st; [constructor|].
  cbn [split_paragraphs]. destruct (negb (truthy (strip p))); [apply IH|].
  apply Forall_calls_bind; [repeat constructor|].
  intros tokens _. destruct (_ && _); apply IH.
Qed.

Lemma paragraph_chunks_some (context : string) (budget : Z) :
  too_short context = false ->
  value (paragraph_chunks self context budget) <> Ok [].
Proof.
  intro Hlong.
  assert (Hink : existsb nonblank (split_lines context) = true).
  { rewrite split_lines_ink, <- nonblank_ink. unfold nonblank.
    unfold too_short in Hlong. apply orb_false_iff in Hlong.
    destruct Hlong as [_ Hlen]. apply Z.ltb_ge in Hlen.
    destruct (strip context); [unfold len in Hlen; simpl in Hlen; lia | reflexivity]. }
  unfold paragraph_chunks. rewrite value_bind.
  destruct (value (split_paragraphs self budget _ _)) as [st|e] eqn:Hs;
    cbn [exc_bind]; [|discriminate].
  apply split_paragraphs_open in Hs; [|now rewrite Hink, orb_true_r].
  rewrite Hs, value_ret. intro H. inversion H as [Hnil].
  destruct (context_chunks st); discriminate.
Qed.

Lemma quiet_build_chunks (context : string) (budget : Z) :
  too_short context = false ->
  Forall quiet (calls (build_chunks self context budget)).
Proof.
  intro Hlong. unfold build_chunks. apply Forall_calls_bind.
  - unfold paragraph_chunks. apply Forall_calls_bind.
    + apply quiet_split_paragraphs.
    + intros st _. constructor.
  - intros chunks Hv. destruct chunks as [|chunk chunks]; [|constructor].
    exfalso. exact (paragraph_chunks_some context budget Hlong Hv).
Qed.

Lemma quiet_try_span (n : Z) (input_ids : list Z) (sl el : list Q)
      (s e : nat) (best : Best) :
  Forall quiet (calls (try_span self n input_ids sl el s e best)).
Proof.
  unfold try_span. destruct (invalid_span n s e); [constructor|].
  apply Forall_calls_bind; [repeat constructor|].
  intros t _. destruct (negb _); [constructor|].
  destruct (score_gt _ _); constructor.
Qed.

Lemma quiet_scan_ends (n : Z) (input_ids : list Z) (sl el : list Q) (s : nat) :
  forall (ends : list nat) (best : Best),
    Forall quiet (calls (scan_ends self n input_ids sl el s ends best)).
Proof.
  induction ends as [|e ends IH]; intro best; [constructor|].
  cbn [scan_ends]. apply Forall_calls_bind; [apply quiet_try_span|].
  intros best' _. apply IH.
Qed.

Lemma quiet_scan_starts (n : Z) (input_ids : list Z) (sl el : list Q)
      (ends : list nat) :
  forall (starts : list nat) (best : Best),
    Forall quiet (calls (scan_starts self n input_ids sl el starts ends best)).
Proof.
  induction starts as [|s starts IH]; intro best; [constructor|].
  cbn [scan_starts]. apply Forall_calls_bind; [apply quiet_scan_ends|].
  intros best' _. apply IH.
Qed.

Lemma quiet_scan_chunks (question : string) (n : Z) :
  forall (chunks : list string) (best : Best),
    Forall quiet (calls (scan_chunks self question n chunks best)).
Proof.
  induction chunks as [|chunk chunks IH]; intro best; [constructor|].
  cbn [scan_chunks]. apply Forall_calls_bind; [|intros best' _; apply IH].
  unfold scan_chunk.
  apply Forall_calls_bind; [repeat constructor|]. intros input_ids _.
  apply Forall_calls_bind; [repeat constructor|]. intros [sl el] _.
  apply Forall_calls_bind; [repeat constructor|]. intros starts _.
  apply Forall_calls_bind; [repeat constructor|]. intros ends _.
  apply quiet_scan_starts.
Qed.

Lemma quiet_answer_question (question context : string) (n : Z) :
  Forall quiet (calls (answer_question self question context n)).
Proof.
  unfold answer_question.
  destruct (try_except (answer_body self question context n) question_error_result)
    as [l res] eqn:Hrun.
  assert (Hl : l = calls (answer_body self question context n)).
  { unfold try_except in Hrun.
    destruct (answer_body self question context n) as [l0 [a|e]];
      inversion Hrun; reflexivity. }
  cbn [calls fst]. constructor; [reflexivity|]. rewrite Hl.
  unfold answer_body. destruct (too_short context) eqn:Hlong; [constructor|].
  apply Forall_calls_bind; [repeat constructor|]. intros qt _.
  apply Forall_calls_bind; [now apply quiet_build_chunks|]. intros chunks _.
  apply Forall_calls_bind; [apply quiet_scan_chunks|]. intros best _.
  destruct (truthy _); constructor.
Qed.
End NeverRawDecode.

(** X19. The split by tokens never runs. A context that passes the
    length guard of [answer_question] has a line that is not blank, so the
    paragraph loop always leaves at least one chunk and the chunks that
    are scored are the paragraph chunks; in no run of [answer_question]
    is [tokenizer.decode] called with the special tokens kept, which only
    the split by tokens does. *)
Theorem token_split_never_runs :
  forall (self : ChatbotModel.QAModel) (question context : string) (n : Z),
    Forall (fun ev => Calls.raw_decode ev = false)
           (calls (ChatbotModel.answer_question self question context n))
    /\ forall budget,
         ChatbotModel.too_short context = false ->
         value (ChatbotModel.build_chunks self context budget)
         = value (ChatbotModel.paragraph_chunks self context budget)
         /\ value (ChatbotModel.paragraph_chunks self context budget) <> Ok [].
Proof.
  intros self question context n. split.
  - apply quiet_answer_question.
  - intros budget Hlong. split.
    + now apply build_chunks_paragraphs.
    + now apply paragraph_chunks_some.
Qed.

Lemma token_split_never_runs_witness :
  value (ChatbotModel.build_chunks
           (Samples.qa Samples.lease_store) "the tenant is Bob." 507)
  = value (ChatbotModel.paragraph_chunks
             (Samples.qa Samples.lease_store) "the tenant is Bob." 507).
Proof.
  apply (proj2 (token_split_never_runs
                  (Samples.qa Samples.lease_store) "who?"%string
                  "the tenant is Bob."%string 100%Z) 507%Z).
  reflexivity.
Defined.

(** ** app.py: the query and chat routes *)

Section RequestFacts.
Import Flask.

Lemma existsb_find {A : Type} (f : A -> bool) (l : list A) :
  existsb f l = match find f l with
                | Some _ => true
                | None => false
                end.
Proof.
  induction l as [|x l IH]; [reflexivity|].
  simpl. destruct (f x); [reflexivity | exact IH].
Qed.

(** The opening lines of a route on a JSON object. *)
Lemma posted_entry_object (key : string) (entries : list (string * string)) :
  posted_entry key (Parsed (BObject entries))
  = match find (fun kv => String.eqb (fst kv) key) entries with
    | Some kv => EntryValue (snd kv)
    | None => EntryMissing
    end.
Proof.
  unfold posted_entry, get_json, has_key, subscript.
  rewrite existsb_find.
  destruct entries as [|kv entries]; [reflexivity|].
  cbn [body_truthy negb].
  destruct (find _ (kv :: entries)); reflexivity.
Qed.

(** Every way in which the opening lines of a route can end. *)
Lemma posted_entry_outcome (key : string) (posted : Posted) :
  match posted_entry key posted with
  | EntryAborted code => code = 415%Z \/ code = 400%Z \/ code = 500%Z
  | _ => True
  end.
Proof.
  unfold posted_entry.
  destruct posted as [| |data]; cbn [get_json]; [now left | right; now left |].
  destruct (negb (body_truthy data)); [exact I|].
  destruct (has_key key data) as [[|]|e]; [|exact I | right; now right].
  destruct (subscript key data); [exact I | right; now right].
Qed.
End RequestFacts.

Lemma process_query_confidence (self : ChatbotModel.QAModel) (query : string)
      (use_retrieved_docs : bool)
      (provided_docs : option (list ChatbotModel.DocItem)) :
  let r := value (ChatbotModel.process_query
                    self query use_retrieved_docs provided_docs) in
  (ChatbotModel.has_answer r = false -> ChatbotModel.confidence r = Fin 0)
  /\ ChatbotModel.confidence r <> NegInf.
Proof.
  cbv zeta. unfold ChatbotModel.process_query. rewrite value_try_except.
  destruct (value (ChatbotModel.process_body
                     self query use_retrieved_docs provided_docs))
    as [r|e] eqn:Hr.
  - apply process_body_shape in Hr. destruct Hr as [-> | [context ->]].
    + simpl. split; [reflexivity | discriminate].
    + apply answer_question_confidence.
  - simpl. split; [reflexivity | discriminate].
Qed.

(** What the query route answers to a query that it has read. *)
Lemma query_document_answers (new_model : Exc ChatbotModel.QAModel)
      (posted : Flask.Posted) (query : string) :
  Flask.posted_entry "query" posted = Flask.EntryValue query ->
  exists r,
    value (App.query_document new_model posted) = Flask.Replied r
    /\ App.status r = 200%Z
    /\ forall v, App.dict_get "confidence" (App.body r) = Some v ->
                 exists x, v = App.JNum (Fin x)
                           /\ (App.dict_get "has_answer" (App.body r)
                               = Some (App.JBool false) ->
                               v = App.JNum (Fin 0)).
Proof.
  intro Hentry. unfold App.query_document. rewrite Hentry.
  destruct new_model as [qa|e].
  - unfold lift, bind.
    pose proof (process_query_confidence qa query true None) as Hc.
    cbv zeta in Hc. unfold value in Hc.
    destruct (ChatbotModel.process_query qa query true None) as [l result].
    cbn [snd] in Hc. destruct Hc as [Hzero Hfin].
    eexists. split; [reflexivity|]. split; [reflexivity|].
    intros v Hv. simpl in Hv. inversion Hv; subst; clear Hv.
    destruct (ChatbotModel.confidence result) as [|x] eqn:Hx; [congruence|].
    exists x. split; [reflexivity|].
    intro Hh. simpl in Hh. inversion Hh as [Hfalse].
    specialize (Hzero Hfalse). congruence.
  - eexists. split; [reflexivity|]. split; [reflexivity|].
    intros v Hv. discriminate.
Qed.

(** X20. The query route. A request whose body is not declared as JSON
    or does not parse is aborted by [request.get_json()], with status 415
    or 400, before the route looks at it. A JSON object without a [query]
    entry is answered by the route with status 400 and the message that no
    query was provided; a JSON object with a [query] entry is answered with
    status 200, also when the model cannot be constructed or the pipeline
    fails, and a confidence in that response is a finite number, 0.0
    whenever the response says [has_answer] false. Whatever the body is,
    a response of the route has status 200 or 400, a request that does not
    reach the route's [try] ends in 415, 400 or 500, and no collaborator
    is called unless the response has status 200. *)
Theorem query_document_status_and_confidence :
  forall (new_model : Exc ChatbotModel.QAModel) (posted : Flask.Posted),
    let run := App.query_document new_model posted in
    (posted = Flask.NotJson -> run = ([], Flask.Aborted 415))
    /\ (posted = Flask.Malformed -> run = ([], Flask.Aborted 400))
    /\ (forall entries,
           posted = Flask.Parsed (Flask.BObject entries) ->
           match find (fun kv => String.eqb (fst kv) "query") entries with
           | None =>
               run = ([], Flask.Replied
                            {| App.status := 400;
                               App.body := [("error"%string,
                                             App.JStr "No query provided")] |})
           | Some _ =>
               exists r,
                 value run = Flask.Replied r
                 /\ App.status r = 200%Z
                 /\ forall v,
                      App.dict_get "confidence" (App.body r) = Some v ->
                      exists x,
                        v = App.JNum (Fin x)
                        /\ (App.dict_get "has_answer" (App.body r)
                            = Some (App.JBool false) ->
                            v = App.JNum (Fin 0))
           end)
    /\ (forall r,
           value run = Flask.Replied r ->
           App.status r = 200%Z \/ (App.status r = 400%Z /\ calls run = []))
    /\ (forall code,
           value run = Flask.Aborted code ->
           calls run = []
           /\ (code = 415%Z \/ code = 400%Z \/ code = 500%Z)).
Proof.
  intros new_model posted. cbv zeta.
  split; [intros ->; reflexivity|]. split; [intros ->; reflexivity|].
  split; [|split].
  - intros entries ->.
    pose proof (posted_entry_object "query" entries) as Hentry.
    destruct (find _ entries) as [kv|].
    + exact (query_document_answers new_model _ Hentry).
    + unfold App.query_document. rewrite Hentry. reflexivity.
  - intros r. pose proof (query_document_answers new_model posted) as Hq.
    unfold App.query_document in *.
    destruct (Flask.posted_entry "query" posted) as [code| |query].
    + discriminate.
    + intro H. inversion H. right. split; reflexivity.
    + destruct (Hq query eq_refl) as (r' & Hr' & Hs & _).
      intro H. rewrite Hr' in H. inversion H; subst. now left.
  - intros code. pose proof (posted_entry_outcome "query" posted) as Hout.
    unfold App.query_document.
    destruct (Flask.posted_entry "query" posted) as [code'| |query].
    + intro H. inversion H; subst. split; [reflexivity | exact Hout].
    + discriminate.
    + destruct (try_except _ _). discriminate.
Qed.

Lemma query_document_status_and_confidence_witness :
  let run := App.query_document
               (Ok (Samples.qa Samples.failing_store))
               (Flask.Parsed (Flask.BObject
                                [("query"%string, "who is the tenant?"%string)])) in
  exists r,
    value run = Flask.Replied r
    /\ App.status r = 200%Z
    /\ App.dict_get "has_answer" (App.body r) = Some (App.JBool false)
    /\ App.dict_get "confidence" (App.body r) = Some (App.JNum (Fin 0)).
Proof.
  intro run.
  destruct (proj1 (proj2 (proj2 (query_document_status_and_confidence
                                   (Ok (Samples.qa Samples.failing_store))
                                   (Flask.Parsed
                                      (Flask.BObject
                                         [("query"%string,
                                           "who is the tenant?"%string)])))))
                  [("query"%string, "who is the tenant?"%string)] eq_refl)
    as (r & Hr & Hs & Hc).
  exists r. split; [exact Hr|]. split; [exact Hs|].
  assert (Hh : App.dict_get "has_answer" (App.body r) = Some (App.JBool false)).
  { vm_compute in Hr. inversion Hr. reflexivity. }
  split; [exact Hh|].
  assert (Hv : exists v, App.dict_get "confidence" (App.body r) = Some v).
  { vm_compute in Hr. inversion Hr. eexists. reflexivity. }
  destruct Hv as [v Hv]. destruct (Hc v Hv) as (x & _ & Hzero).
  now rewrite Hv, (Hzero Hh).
Defined.

(** X21. The chat route never produces an answer of its own. For a
    JSON object with an [input] entry it asks the retriever for three
    matches at the default threshold 0.7 and calls nothing else; when the
    retriever returns no match the response is the fixed
    not-enough-information sentence with status 200, and whenever the
    retriever returns a match the response has status 500, because the name
    [Chatbot] is not defined. Whatever the body of the request is, the
    fixed sentence is the only response with status 200. *)
Theorem chat_never_generates :
  forall (store : Query) (posted : Flask.Posted),
    let run := Routes.chat store posted in
    (forall r,
        value run = Flask.Replied r ->
        Routes.status r = 200%Z ->
        Routes.body r
        = Routes.JsDict [("response"%string,
                          Routes.JsText Routes.not_enough_information)])
    /\ forall entries kv,
         posted = Flask.Parsed (Flask.BObject entries) ->
         find (fun kv => String.eqb (fst kv) "input") entries = Some kv ->
         let retrieved :=
           DocumentRetrieval.retrieve_documents store (snd kv) 3 (7 # 10) in
         calls run = calls retrieved
         /\ (DocumentRetrieval.matches (value retrieved) = [] ->
             value run
             = Flask.Replied
                 {| Routes.status := 200;
                    Routes.body :=
                      Routes.JsDict
                        [("response"%string,
                          Routes.JsText Routes.not_enough_information)] |})
         /\ (DocumentRetrieval.matches (value retrieved) <> [] ->
             value run
             = Flask.Replied
                 (Routes.error_response
                    500 "Error generating response: name 'Chatbot' is not defined")).
Proof.
  intros store posted. cbv zeta. split.
  - intros r. unfold Routes.chat.
    destruct (Flask.posted_entry "input" posted) as [code| |query].
    + discriminate.
    + intro H. inversion H. discriminate.
    + destruct (DocumentRetrieval.retrieve_documents store query 3 (7 # 10))
        as [l retrieved].
      destruct (DocumentRetrieval.matches retrieved) as [|m ms];
        cbn [value snd Routes.try_route]; intro H; inversion H;
        [reflexivity | discriminate].
  - intros entries kv -> Hfind. unfold Routes.chat.
    rewrite posted_entry_object, Hfind.
    destruct (DocumentRetrieval.retrieve_documents store (snd kv) 3 (7 # 10))
      as [l retrieved].
    cbn [value calls fst snd]. split; [reflexivity|].
    destruct (DocumentRetrieval.matches retrieved) as [|m ms];
      cbn [Routes.try_route]; split; try reflexivity; try discriminate.
    intro Hne. exfalso. now apply Hne.
Qed.

Lemma chat_never_generates_witness :
  value (Routes.chat Samples.lease_store
                     (Flask.Parsed
                        (Flask.BObject
                           [("input"%string, "who is the tenant?"%string)])))
  = Flask.Replied
      (Routes.error_response
         500 "Error generating response: name 'Chatbot' is not defined")
  /\ value (Routes.chat Samples.failing_store
                        (Flask.Parsed
                           (Flask.BObject
                              [("input"%string, "who is the tenant?"%string)])))
     = Flask.Replied
         {| Routes.status := 200;
            Routes.body :=
              Routes.JsDict
                [("response"%string,
                  Routes.JsText Routes.not_enough_information)] |}.
Proof.
  split.
  - apply (proj2 (proj2 (proj2 (chat_never_generates
                                  Samples.lease_store
                                  (Flask.Parsed
                                     (Flask.BObject
                                        [("input"%string,
                                          "who is the tenant?"%string)])))
                               [("input"%string, "who is the tenant?"%string)]
                               ("input"%string, "who is the tenant?"%string)
                               eq_refl eq_refl))).
    vm_compute. discriminate.
  - apply (proj1 (proj2 (proj2 (chat_never_generates
                                  Samples.failing_store
                                  (Flask.Parsed
                                     (Flask.BObject
                                        [("input"%string,
                                          "who is the tenant?"%string)])))
                               [("input"%string, "who is the tenant?"%string)]
                               ("input"%string, "who is the tenant?"%string)
                               eq_refl eq_refl))).
    reflexivity.
Defined.

(** ** app.py: upload *)

Section UploadFacts.
Import DocumentEmbedding Upload Text.

Lemma validate_outcome (text method : string) :
  (validate text method = (Some text, None)
   /\ (10 <= length (split_words text))%nat
   /\ truthy (strip text) = true)
  \/ exists e, validate text method = (None, Some e) /\ truthy e = true.
Proof.
  unfold validate. destruct (truthy (strip text)); cbn [negb].
  - destruct (Nat.ltb_spec (length (split_words text)) 10).
    + right. eexists. split; reflexivity.
    + left. repeat split. exact H.
  - right. eexists. split; reflexivity.
Qed.

(** Every outcome of [process_uploaded_file]. *)
Lemma process_uploaded_file_outcome (file : FileStorage) (readers : Extractors) :
  (exists text,
      process_uploaded_file file readers = (Some text, None)
      /\ (10 <= length (split_words text))%nat
      /\ truthy (strip text) = true)
  \/ exists e, process_uploaded_file file readers = (None, Some e)
               /\ truthy e = true.
Proof.
  assert (Hv : forall text method,
             (exists t, validate text method = (Some t, None)
                        /\ (10 <= length (split_words t))%nat
                        /\ truthy (strip t) = true)
             \/ exists e, validate text method = (None, Some e) /\ truthy e = true).
  { intros text method.
    destruct (validate_outcome text method) as [H|H]; [left; eauto | right; exact H]. }
  assert (Herr : forall e, exists e',
               processing_error e = (None, Some e') /\ truthy e' = true)
    by (intro e; eexists; split; reflexivity).
  assert (Hpdf : forall e, exists e',
               pdf_error e = (None, Some e') /\ truthy e' = true)
    by (intro e; eexists; split; reflexivity).
  unfold process_uploaded_file.
  destruct (save file) as [u|e]; [|right; apply Herr].
  destruct (ends_with (lower (filename file)) ".pdf").
  - destruct (pypdf2 readers) as [pages|e]; [|right; apply Hpdf].
    destruct (poor (pypdf2_text pages)); [|apply Hv].
    destruct (pdfplumber readers) as [[pages'|e]|];
      [apply Hv | right; apply Hpdf | apply Hv].
  - destruct (ends_with (lower (filename file)) ".docx").
    + destruct (python_docx readers) as [paragraphs|e]; [|right; apply Herr].
      destruct (poor _); [|apply Hv].
      destruct (mammoth readers); apply Hv.
    + destruct (ends_with (lower (filename file)) ".txt").
      * destruct (read_text readers) as [text|e]; [apply Hv | right; apply Herr].
      * right. eexists. split; reflexivity.
Qed.

Lemma upsert_fresh_single (policy : AddPolicy) (c : Collection)
      (i t name : string) (stamp : Q) :
  has_id c i = false ->
  upsert_embeddings policy c [t] (Some [upload_metadata name t stamp]) (Some [i])
  = (true, c ++ [{| chunk_id := i; chunk_text := t;
                    chunk_metadata := upload_metadata name t stamp |}]).
Proof.
  intro Hnew. unfold upsert_embeddings, add. simpl.
  destruct policy; simpl; rewrite Hnew; reflexivity.
Qed.

Lemma upsert_known_single (policy : AddPolicy) (c : Collection)
      (i t name : string) (stamp : Q) :
  has_id c i = true ->
  upsert_embeddings policy c [t] (Some [upload_metadata name t stamp]) (Some [i])
  = (match policy with RejectExisting => false | IgnoreExisting => true end, c).
Proof.
  intro Hold. unfold upsert_embeddings, add. simpl.
  destruct policy; simpl; rewrite Hold; simpl; [reflexivity|].
  now rewrite app_nil_r.
Qed.
End UploadFacts.

(** X22. [process_uploaded_file] returns either a text and no error, or
    no text and an error message that is not empty, never both and never
    neither; a text that it returns is not blank and has at least ten
    words, whichever reader produced it. *)
Theorem process_uploaded_file_accepts_ten_words :
  forall (file : Upload.FileStorage) (readers : Upload.Extractors),
    let result := Upload.process_uploaded_file file readers in
    (forall text, fst result = Some text ->
                  snd result = None
                  /\ (10 <= length (Text.split_words text))%nat
                  /\ truthy (strip text) = true)
    /\ (fst result = None ->
        exists e, snd result = Some e /\ truthy e = true).
Proof.
  intros file readers. cbv zeta.
  destruct (process_uploaded_file_outcome file readers)
    as [(t & -> & Hw & Hs) | (e & -> & He)]; cbn [fst snd].
  - split; [|discriminate]. intros text Ht. inversion Ht; subst. auto.
  - split; [discriminate|]. intros _. eauto.
Qed.

Lemma process_uploaded_file_accepts_ten_words_witness :
  (10 <= length (Text.split_words UploadSamples.lease_text))%nat.
Proof.
  exact (proj1 (proj2 (proj1 (process_uploaded_file_accepts_ten_words
                                UploadSamples.lease_file
                                UploadSamples.lease_readers)
                             UploadSamples.lease_text eq_refl))).
Defined.

(** X23. Round trip of an upload. When the file is accepted and no
    chunk is stored yet under [doc_<seconds>], [upload_document] answers
    with status 200 and the id, and [retrieve_document_by_id] returns for
    that id the extracted text with the metadata of the upload, whose word
    count is the number of words of the text (at least ten) and whose
    source is the file name. *)
Theorem upload_then_retrieve_by_id :
  forall (policy : DocumentEmbedding.AddPolicy) (c : DocumentEmbedding.Collection)
         (file : Upload.FileStorage) (readers : Upload.Extractors)
         (now : Z) (stamp : Q) (text : string),
    truthy (Upload.filename file) = true ->
    fst (Upload.process_uploaded_file file readers) = Some text ->
    DocumentEmbedding.has_id c (Upload.upload_id now) = false ->
    let run := Upload.upload_document policy c (Some (file, readers)) now stamp in
    fst run = Upload.uploaded (Upload.filename file) text now
    /\ DocumentLookup.retrieve_document_by_id
         (Index.get (snd run)) (Upload.upload_id now)
       = Some {| DocumentLookup.id := Upload.upload_id now;
                 DocumentLookup.text := Some text;
                 DocumentLookup.metadata :=
                   Some (Upload.upload_metadata (Upload.filename file) text stamp) |}
    /\ lookup "word_count" (Upload.upload_metadata (Upload.filename file) text stamp)
       = Some (MInt (Z.of_nat (length (Text.split_words text))))
    /\ (10 <= length (Text.split_words text))%nat.
Proof.
  intros policy c file readers now stamp text Hname Htext Hnew run. subst run.
  destruct (process_uploaded_file_outcome file readers)
    as [(t & Hp & Hw & _) | (e & Hp & _)];
    rewrite Hp in Htext; cbn [fst] in Htext; [|discriminate].
  inversion Htext; subst t; clear Htext.
  unfold Upload.upload_document. rewrite Hname. cbn [negb]. rewrite Hp.
  unfold Upload.store_upload.
  rewrite (upsert_fresh_single policy c _ _ _ _ Hnew). cbn [fst snd].
  split; [reflexivity|]. split; [|split; [reflexivity | exact Hw]].
  rewrite lookup_of_get, get_app, (get_absent c _ Hnew). cbn [app].
  unfold DocumentEmbedding.get. cbn [filter DocumentEmbedding.chunk_id].
  rewrite String.eqb_refl. reflexivity.
Qed.

Lemma upload_then_retrieve_by_id_witness :
  DocumentLookup.retrieve_document_by_id
    (Index.get (snd (Upload.upload_document
                       DocumentEmbedding.IgnoreExisting []
                       (Some (UploadSamples.lease_file, UploadSamples.lease_readers))
                       1700000000 (1700000000 # 1))))
    (Upload.upload_id 1700000000)
  = Some {| DocumentLookup.id := Upload.upload_id 1700000000;
            DocumentLookup.text := Some UploadSamples.lease_text;
            DocumentLookup.metadata :=
              Some (Upload.upload_metadata "lease.txt" UploadSamples.lease_text
                                           (1700000000 # 1)) |}.
Proof.
  apply (proj1 (proj2 (@upload_then_retrieve_by_id
                         DocumentEmbedding.IgnoreExisting []
                         UploadSamples.lease_file UploadSamples.lease_readers
                         1700000000%Z (1700000000 # 1) UploadSamples.lease_text
                         eq_refl eq_refl eq_refl))).
Defined.

(** X24. Two uploads in the same second. The id of an upload is
    [doc_<seconds>], so after an upload that was answered with status 200
    a further upload with the same reading of the clock leaves the
    collection as it is, whatever file it carries; when the index skips
    known ids and the second file is accepted, the second upload is
    answered with status 200 all the same. *)
Theorem upload_same_second_is_lost :
  forall (policy : DocumentEmbedding.AddPolicy) (c : DocumentEmbedding.Collection)
         (first second : option (Upload.FileStorage * Upload.Extractors))
         (now : Z) (stamp1 stamp2 : Q),
    let run1 := Upload.upload_document policy c first now stamp1 in
    let run2 := Upload.upload_document policy (snd run1) second now stamp2 in
    Routes.status (fst run1) = 200%Z ->
    snd run2 = snd run1
    /\ (policy = DocumentEmbedding.IgnoreExisting ->
        forall file readers text,
          second = Some (file, readers) ->
          truthy (Upload.filename file) = true ->
          fst (Upload.process_uploaded_file file readers) = Some text ->
          fst run2 = Upload.uploaded (Upload.filename file) text now).
Proof.
  intros policy c first second now stamp1 stamp2 run1 run2 H200.
  assert (Hin : DocumentEmbedding.has_id (snd run1) (Upload.upload_id now) = true).
  { subst run1 run2. unfold Upload.upload_document, Upload.store_upload in *.
    destruct first as [[file readers]|]; [|discriminate].
    destruct (truthy (Upload.filename file)); cbn [negb] in *; [|discriminate].
    destruct (process_uploaded_file_outcome file readers)
      as [(t & Hp & _) | (e & Hp & He)]; rewrite Hp in *;
      [|rewrite He in H200; discriminate].
    destruct (DocumentEmbedding.has_id c (Upload.upload_id now)) eqn:Hc.
    - rewrite (upsert_known_single policy c _ _ _ _ Hc) in *.
      destruct policy; [discriminate | exact Hc].
    - rewrite (upsert_fresh_single policy c _ _ _ _ Hc) in *.
      cbn [snd]. apply has_id_last with
        (ch := {| DocumentEmbedding.chunk_id := Upload.upload_id now;
                  DocumentEmbedding.chunk_text := t;
                  DocumentEmbedding.chunk_metadata :=
                    Upload.upload_metadata (Upload.filename file) t stamp1 |}). }
  clearbody run1. subst run2. unfold Upload.upload_document, Upload.store_upload.
  destruct second as [[file readers]|]; [|split; [reflexivity | discriminate]].
  destruct (truthy (Upload.filename file)) eqn:Hname; cbn [negb];
    [|split; [reflexivity|]; intros _ f r t Hs Hn; inversion Hs; subst; congruence].
  destruct (process_uploaded_file_outcome file readers)
    as [(t & Hp & _) | (e & Hp & He)]; rewrite Hp.
  - rewrite (upsert_known_single policy (snd run1) _ _ _ _ Hin).
    split; [destruct policy; reflexivity|].
    intros -> f r t' Hs _ Ht. inversion Hs; subst f r.
    rewrite Hp in Ht. inversion Ht; subst. reflexivity.
  - rewrite He. split; [reflexivity|].
    intros _ f r t' Hs _ Ht. inversion Hs; subst f r.
    rewrite Hp in Ht. discriminate.
Qed.

Lemma upload_same_second_is_lost_witness :
  let run1 := Upload.upload_document
                DocumentEmbedding.IgnoreExisting []
                (Some (UploadSamples.lease_file, UploadSamples.lease_readers))
                1700000000 (1700000000 # 1) in
  snd (Upload.upload_document
         DocumentEmbedding.IgnoreExisting (snd run1)
         (Some (UploadSamples.lease_file, UploadSamples.other_readers))
         1700000000 (1700000000 # 1))
  = snd run1.
Proof.
  intro run1.
  apply (proj1 (@upload_same_second_is_lost
                  DocumentEmbedding.IgnoreExisting []
                  (Some (UploadSamples.lease_file, UploadSamples.lease_readers))
                  (Some (UploadSamples.lease_file, UploadSamples.other_readers))
                  1700000000%Z (1700000000 # 1) (1700000000 # 1) eq_refl)).
Defined.

(** X25. The assertions of [test_upload_document] fail on every response
    of [upload_document]: a response with status 200 carries the message
    ["File uploaded and processed successfully!"], not the message the
    test compares with. *)
Theorem test_upload_document_never_passes :
  forall (policy : DocumentEmbedding.AddPolicy) (c : DocumentEmbedding.Collection)
         (upload : option (Upload.FileStorage * Upload.Extractors))
         (now : Z) (stamp : Q),
    Upload.test_upload_document
      (fst (Upload.upload_document policy c upload now stamp)) = false.
Proof.
  intros policy c upload now stamp.
  unfold Upload.upload_document, Upload.store_upload.
  destruct upload as [[file readers]|]; [|reflexivity].
  destruct (truthy (Upload.filename file)); cbn [negb]; [|reflexivity].
  destruct (Upload.process_uploaded_file file readers) as [[t|] [e|]];
    try (destruct (truthy e)); try reflexivity;
    destruct (DocumentEmbedding.upsert_embeddings _ _ _ _ _) as [[|] c'];
    reflexivity.
Qed.

(** ** app.py: the routes of the document store *)

Section StoreRoutes.
Import DocumentEmbedding Index Routes Text.
Local Open Scope string_scope.
Local Open Scope list_scope.

Lemma take_length (n : nat) (s : string) :
  String.length (take n s) = Nat.min n (String.length s).
Proof.
  revert s. induction n as [|n IH]; intros [|ch s]; simpl; try reflexivity.
  now rewrite IH.
Qed.

Lemma take_prefix (n : nat) (s : string) :
  exists rest, s = (take n s ++ rest)%string.
Proof.
  revert s. induction n as [|n IH]; intros s.
  - exists s. destruct s; reflexivity.
  - destruct s as [|ch s]; [exists EmptyString; reflexivity|].
    destruct (IH s) as [rest Hrest]. exists rest. simpl. now rewrite <- Hrest.
Qed.

Lemma take_all (n : nat) (s : string) :
  (String.length s <= n)%nat -> take n s = s.
Proof.
  revert s. induction n as [|n IH]; intros [|ch s] Hlen; simpl in *;
    try reflexivity; [lia|].
  f_equal. apply IH. lia.
Qed.

Lemma list_entries_chunks (pre post : Collection) :
  list_entries (get_result (pre ++ post))
               (enumerate_from (length pre) (map chunk_id post))
  = Ok (map (fun ch =>
               JsDict [("id", JsText (chunk_id ch));
                       ("source", meta_get (chunk_metadata ch) "source"
                                           (JsText "Unknown"));
                       ("timestamp", meta_get (chunk_metadata ch) "timestamp"
                                              JsNull)])
            post).
Proof.
  revert pre. induction post as [|ch post IH]; intro pre; [reflexivity|].
  cbn [map enumerate_from list_entries].
  unfold metadata_of at 1. cbn [get_result got_metadatas].
  rewrite nth_error_map, nth_error_app2, Nat.sub_diag by lia.
  cbn [nth_error option_map exc_bind listed].
  specialize (IH (pre ++ [ch])).
  rewrite <- app_assoc, length_app in IH. cbn [app length] in IH.
  rewrite Nat.add_1_r in IH. rewrite IH. reflexivity.
Qed.

(** [list_documents] on a collection that is in service: one entry for
    each chunk, oldest first. *)
Lemma list_documents_in_service (c : Collection) :
  list_documents (Index.get c)
  = {| status := 200;
       body := JsDict
                 [("documents",
                   JsList
                     (map (fun ch =>
                             JsDict [("id", JsText (chunk_id ch));
                                     ("source", meta_get (chunk_metadata ch) "source"
                                                         (JsText "Unknown"));
                                     ("timestamp",
                                      meta_get (chunk_metadata ch) "timestamp"
                                               JsNull)])
                          c))] |}.
Proof.
  unfold list_documents, Index.get. cbn [exc_bind].
  destruct c as [|ch c]; [reflexivity|].
  cbn [get_result got_ids map]. unfold enumerate.
  pose proof (list_entries_chunks [] (ch :: c)) as H.
  cbn [app length map] in H. cbn [get_result] in H. rewrite H. reflexivity.
Qed.

Lemma get_document_of_get (c : Collection) (i : string) :
  get_document (Index.get c) i
  = match DocumentEmbedding.get c i with
    | [] => not_found
    | ch :: _ =>
        {| status := 200;
           body := JsDict
                     [("document",
                       JsDict [("id", JsText (chunk_id ch));
                               ("text", JsText (chunk_text ch));
                               ("metadata",
                                json_of_metadata (chunk_metadata ch))])] |}
    end.
Proof.
  unfold get_document, Index.get. cbn [exc_bind].
  rewrite filter_wanted_one.
  destruct (DocumentEmbedding.get c i); reflexivity.
Qed.

Lemma get_after_delete (c : Collection) (i j : string) :
  DocumentEmbedding.get (filter (fun ch => negb (wanted_by [i] ch)) c) j
  = if String.eqb j i then [] else DocumentEmbedding.get c j.
Proof.
  unfold DocumentEmbedding.get.
  rewrite (filter_ext (fun ch => negb (wanted_by [i] ch))
                      (fun ch => negb (String.eqb (chunk_id ch) i)))
    by (intro ch; cbv beta; unfold wanted_by; cbn [existsb];
        now rewrite orb_false_r).
  induction c as [|ch c IH]; [now destruct (String.eqb j i)|].
  cbn [filter].
  destruct (String.eqb_spec (chunk_id ch) i) as [Hi|Hi]; cbn [negb].
  - rewrite IH. destruct (String.eqb_spec j i) as [Hj|Hj]; [reflexivity|].
    destruct (String.eqb_spec (chunk_id ch) j) as [Hc|_]; [congruence | reflexivity].
  - cbn [filter]. rewrite IH.
    destruct (String.eqb_spec j i) as [Hj|Hj]; [|reflexivity].
    destruct (String.eqb_spec (chunk_id ch) j) as [Hc|_]; [congruence | reflexivity].
Qed.
End StoreRoutes.

(** X26. The list of documents never shows when a document was
    uploaded. [upload_document] stores the time under the key
    [upload_timestamp], [list_documents] reads the key [timestamp]: after
    an accepted upload the list has one entry more, at its end, with the
    id and the file name of the upload and with [null] as timestamp. *)
Theorem list_documents_upload_time_is_null :
  forall (policy : DocumentEmbedding.AddPolicy) (c : DocumentEmbedding.Collection)
         (file : Upload.FileStorage) (readers : Upload.Extractors)
         (now : Z) (stamp : Q) (text : string),
    truthy (Upload.filename file) = true ->
    fst (Upload.process_uploaded_file file readers) = Some text ->
    DocumentEmbedding.has_id c (Upload.upload_id now) = false ->
    let run := Upload.upload_document policy c (Some (file, readers)) now stamp in
    exists before,
      Routes.list_documents (Index.get c)
      = {| Routes.status := 200;
           Routes.body := Routes.JsDict [("documents"%string, Routes.JsList before)] |}
      /\ Routes.list_documents (Index.get (snd run))
         = {| Routes.status := 200;
              Routes.body :=
                Routes.JsDict
                  [("documents"%string,
                    Routes.JsList
                      (before
                         ++ [Routes.JsDict
                               [("id"%string, Routes.JsText (Upload.upload_id now));
                                ("source"%string,
                                 Routes.JsText (Upload.filename file));
                                ("timestamp"%string, Routes.JsNull)]]))] |}
      /\ lookup "upload_timestamp"
                (Upload.upload_metadata (Upload.filename file) text stamp)
         = Some (MFloat stamp).
Proof.
  intros policy c file readers now stamp text Hname Htext Hnew run. subst run.
  destruct (process_uploaded_file_outcome file readers)
    as [(t & Hp & _) | (e & Hp & _)];
    rewrite Hp in Htext; cbn [fst] in Htext; [|discriminate].
  inversion Htext; subst t; clear Htext.
  unfold Upload.upload_document. rewrite Hname. cbn [negb]. rewrite Hp.
  unfold Upload.store_upload.
  rewrite (upsert_fresh_single policy c _ _ _ _ Hnew). cbn [fst snd].
  eexists. split; [apply list_documents_in_service|].
  split; [|reflexivity].
  rewrite list_documents_in_service, map_app. reflexivity.
Qed.

Lemma list_documents_upload_time_is_null_witness :
  exists before,
    Routes.list_documents (Index.get [])
    = {| Routes.status := 200;
         Routes.body := Routes.JsDict [("documents"%string, Routes.JsList before)] |}
    /\ Routes.list_documents
         (Index.get (snd (Upload.upload_document
                            DocumentEmbedding.IgnoreExisting []
                            (Some (UploadSamples.lease_file,
                                   UploadSamples.lease_readers))
                            1700000000 (1700000000 # 1))))
       = {| Routes.status := 200;
            Routes.body :=
              Routes.JsDict
                [("documents"%string,
                  Routes.JsList
                    (before
                       ++ [Routes.JsDict
                             [("id"%string,
                               Routes.JsText (Upload.upload_id 1700000000));
                              ("source"%string, Routes.JsText "lease.txt");
                              ("timestamp"%string, Routes.JsNull)]]))] |}
    /\ lookup "upload_timestamp"
              (Upload.upload_metadata "lease.txt" UploadSamples.lease_text
                                      (1700000000 # 1))
       = Some (MFloat (1700000000 # 1)).
Proof.
  exact (@list_documents_upload_time_is_null
           DocumentEmbedding.IgnoreExisting []
           UploadSamples.lease_file UploadSamples.lease_readers
           1700000000%Z (1700000000 # 1) UploadSamples.lease_text
           eq_refl eq_refl eq_refl).
Defined.

(** X27. [document_preview] answers with status 404 for an id that is
    not stored. For a stored id it answers with status 200, and the
    preview is the beginning of the stored text, 500 characters of it or
    the whole text when that is shorter; the reported preview length is
    the length of the preview. *)
Theorem document_preview_is_a_prefix :
  forall (c : DocumentEmbedding.Collection) (doc_id : string),
    (DocumentEmbedding.has_id c doc_id = false ->
     Routes.document_preview (Index.get c) doc_id = Routes.not_found)
    /\ forall ch rest,
         DocumentEmbedding.get c doc_id = ch :: rest ->
         exists preview,
           Routes.document_preview (Index.get c) doc_id
           = {| Routes.status := 200;
                Routes.body :=
                  Routes.JsDict
                    [("document_id"%string, Routes.JsText doc_id);
                     ("source"%string,
                      Routes.meta_get (DocumentEmbedding.chunk_metadata ch)
                                      "source" (Routes.JsText "Unknown"));
                     ("text_preview"%string, Routes.JsText preview);
                     ("stats"%string,
                      Routes.JsDict
                        [("total_chars"%string,
                          Routes.JsInt (len (DocumentEmbedding.chunk_text ch)));
                         ("total_words"%string,
                          Routes.JsInt
                            (Z.of_nat
                               (length (Text.split_words
                                          (DocumentEmbedding.chunk_text ch)))));
                         ("total_paragraphs"%string,
                          Routes.JsInt
                            (Z.of_nat
                               (Text.paragraph_count
                                  (DocumentEmbedding.chunk_text ch))));
                         ("preview_length"%string,
                          Routes.JsInt (len preview))]);
                     ("metadata"%string,
                      Routes.json_of_metadata
                        (DocumentEmbedding.chunk_metadata ch))] |}
           /\ (exists tail,
                  DocumentEmbedding.chunk_text ch = (preview ++ tail)%string)
           /\ String.length preview
              = Nat.min 500 (String.length (DocumentEmbedding.chunk_text ch))
           /\ ((String.length (DocumentEmbedding.chunk_text ch) <= 500)%nat ->
               preview = DocumentEmbedding.chunk_text ch).
Proof.
  intros c doc_id.
  assert (Hget : Index.get c (Some [doc_id])
                 = Ok (Some (Index.get_result (DocumentEmbedding.get c doc_id)))).
  { unfold Index.get. now rewrite filter_wanted_one. }
  split.
  - intro Hnew. unfold Routes.document_preview. rewrite Hget.
    rewrite (get_absent c doc_id Hnew). reflexivity.
  - intros ch rest Hfound. unfold Routes.document_preview. rewrite Hget, Hfound.
    cbn [exc_bind Index.get_result Index.got_ids Index.got_documents
         Index.got_metadatas map Routes.first_or Routes.try_route].
    set (text := DocumentEmbedding.chunk_text ch).
    set (n := Nat.min Routes.preview_limit (String.length text)).
    exists (Text.take n text).
    split; [|split; [apply take_prefix | split]].
    + assert (Hn : len (Text.take n text) = Z.of_nat n).
      { unfold len. rewrite take_length. unfold n. f_equal. lia. }
      rewrite Hn. reflexivity.
    + rewrite take_length. unfold n, Routes.preview_limit. lia.
    + intro Hshort. apply take_all. unfold n, Routes.preview_limit. lia.
Qed.

Lemma document_preview_is_a_prefix_witness :
  let ch := {| DocumentEmbedding.chunk_id := "doc_1";
               DocumentEmbedding.chunk_text := Samples.copies 600 "a";
               DocumentEmbedding.chunk_metadata :=
                 [("source"%string, MStr "lease.pdf")] |} in
  Routes.document_preview (Index.get [ch]) "doc_2" = Routes.not_found
  /\ exists preview,
       Routes.status (Routes.document_preview (Index.get [ch]) "doc_1") = 200%Z
       /\ String.length preview = 500%nat
       /\ exists tail, Samples.copies 600 "a" = (preview ++ tail)%string.
Proof.
  intro ch. split.
  - exact (proj1 (document_preview_is_a_prefix [ch] "doc_2") eq_refl).
  - destruct (proj2 (document_preview_is_a_prefix [ch] "doc_1") ch [] eq_refl)
      as (preview & Hresp & Hprefix & Hlen & _).
    exists preview. split; [now rewrite Hresp|].
    split; [rewrite Hlen; reflexivity | exact Hprefix].
Defined.

(** X28. [get_document] answers with status 404 for an id that is not
    stored, and for an id that an accepted upload has just stored it
    answers with status 200, the id, the extracted text and the metadata
    of the upload. *)
Theorem upload_then_get_document :
  forall (policy : DocumentEmbedding.AddPolicy) (c : DocumentEmbedding.Collection)
         (file : Upload.FileStorage) (readers : Upload.Extractors)
         (now : Z) (stamp : Q) (text : string),
    truthy (Upload.filename file) = true ->
    fst (Upload.process_uploaded_file file readers) = Some text ->
    DocumentEmbedding.has_id c (Upload.upload_id now) = false ->
    let run := Upload.upload_document policy c (Some (file, readers)) now stamp in
    Routes.get_document (Index.get c) (Upload.upload_id now) = Routes.not_found
    /\ Routes.get_document (Index.get (snd run)) (Upload.upload_id now)
       = {| Routes.status := 200;
            Routes.body :=
              Routes.JsDict
                [("document"%string,
                  Routes.JsDict
                    [("id"%string, Routes.JsText (Upload.upload_id now));
                     ("text"%string, Routes.JsText text);
                     ("metadata"%string,
                      Routes.json_of_metadata
                        (Upload.upload_metadata (Upload.filename file)
                                                text stamp))])] |}.
Proof.
  intros policy c file readers now stamp text Hname Htext Hnew run. subst run.
  destruct (process_uploaded_file_outcome file readers)
    as [(t & Hp & _) | (e & Hp & _)];
    rewrite Hp in Htext; cbn [fst] in Htext; [|discriminate].
  inversion Htext; subst t; clear Htext.
  unfold Upload.upload_document. rewrite Hname. cbn [negb]. rewrite Hp.
  unfold Upload.store_upload.
  rewrite (upsert_fresh_single policy c _ _ _ _ Hnew). cbn [fst snd].
  rewrite !get_document_of_get, get_app, (get_absent c _ Hnew).
  split; [reflexivity|]. cbn [app].
  unfold DocumentEmbedding.get. cbn [filter DocumentEmbedding.chunk_id].
  rewrite String.eqb_refl. reflexivity.
Qed.

Lemma upload_then_get_document_witness :
  Routes.get_document (Index.get []) (Upload.upload_id 1700000000)
  = Routes.not_found.
Proof.
  exact (proj1 (@upload_then_get_document
                  DocumentEmbedding.IgnoreExisting []
                  UploadSamples.lease_file UploadSamples.lease_readers
                  1700000000%Z (1700000000 # 1) UploadSamples.lease_text
                  eq_refl eq_refl eq_refl)).
Defined.

(** X29. The delete route on a collection that is in service answers
    with status 200 and the message of success whether or not the id was
    stored. Afterwards [get_document] answers with status 404 for the id,
    and for every other id it answers as before. *)
Theorem delete_then_get_document :
  forall (c : DocumentEmbedding.Collection) (doc_id : string),
    let run := Routes.delete_document Index.delete c doc_id in
    fst run
    = Routes.message_response
        200 ("Document " ++ doc_id ++ " deleted successfully")%string
    /\ Routes.get_document (Index.get (snd run)) doc_id = Routes.not_found
    /\ forall other,
         other <> doc_id ->
         Routes.get_document (Index.get (snd run)) other
         = Routes.get_document (Index.get c) other.
Proof.
  intros c doc_id. cbv zeta.
  unfold Routes.delete_document, Index.delete. cbn [fst snd].
  split; [reflexivity|]. split.
  - rewrite get_document_of_get, get_after_delete, String.eqb_refl. reflexivity.
  - intros other Hother. rewrite !get_document_of_get, get_after_delete.
    apply String.eqb_neq in Hother. now rewrite Hother.
Qed.

Lemma delete_then_get_document_witness :
  let c := [{| DocumentEmbedding.chunk_id := "doc_1";
               DocumentEmbedding.chunk_text := "old text";
               DocumentEmbedding.chunk_metadata := [] |};
            {| DocumentEmbedding.chunk_id := "doc_2";
               DocumentEmbedding.chunk_text := "other text";
               DocumentEmbedding.chunk_metadata := [] |}] in
  Routes.get_document
    (Index.get (snd (Routes.delete_document Index.delete c "doc_1"))) "doc_2"
  = Routes.get_document (Index.get c) "doc_2".
Proof.
  intro c.
  apply (proj2 (proj2 (delete_then_get_document c "doc_1")) "doc_2"%string).
  discriminate.
Defined.

(** ** app.py: batch embedding *)

Section EmbedFacts.
Import DocumentEmbedding Upload.

Lemma zip3_length_le (ids texts : list string) (metadatas : list Metadata) :
  (length (zip3 ids texts metadatas) <= length ids)%nat.
Proof.
  revert texts metadatas.
  induction ids as [|i ids IH]; intros [|t texts] [|m metadatas]; simpl; try lia.
  specialize (IH texts metadatas). lia.
Qed.

Lemma zip3_In (ids texts : list string) (metadatas : list Metadata) (ch : Chunk) :
  In ch (zip3 ids texts metadatas) ->
  exists k, nth_error texts k = Some (chunk_text ch)
            /\ nth_error metadatas k = Some (chunk_metadata ch).
Proof.
  revert texts metadatas.
  induction ids as [|i ids IH]; intros [|t texts] [|m metadatas] Hin;
    simpl in Hin; try contradiction.
  destruct Hin as [<-|Hin].
  - exists 0%nat. split; reflexivity.
  - destruct (IH _ _ Hin) as (k & Ht & Hm). exists (S k). split; assumption.
Qed.

Lemma add_grows (policy : AddPolicy) (c c' : Collection) (texts : list string)
      (metadatas : list Metadata) (ids : list string) :
  add policy c texts metadatas ids = Ok c' ->
  exists added,
    c' = c ++ added
    /\ (length added <= length ids)%nat
    /\ Forall (fun ch => In ch (zip3 ids texts metadatas)) added.
Proof.
  unfold add.
  destruct (negb _); [discriminate|].
  destruct (negb (unique ids)); [discriminate|].
  destruct (existsb empty_metadata metadatas); [discriminate|].
  pose proof (zip3_length_le ids texts metadatas) as Hz.
  destruct policy.
  - destruct (existsb (has_id c) ids); [discriminate|].
    intro H. inversion H. eexists. split; [reflexivity|]. split; [exact Hz|].
    apply Forall_forall. auto.
  - intro H. inversion H. eexists. split; [reflexivity|]. split.
    + etransitivity; [apply filter_length_le | exact Hz].
    + apply Forall_forall. intros ch Hin. apply filter_In in Hin. tauto.
Qed.

Lemma column_ok {A : Type} (field : EmbedDoc -> option A) (key : string)
      (batch : list EmbedDoc) (l : list A) :
  column field key batch = Ok l -> Forall (fun d => field d <> None) batch.
Proof.
  revert l. induction batch as [|d batch IH]; intros l H; [constructor|].
  simpl in H. destruct (field d) eqn:Hd; [|discriminate].
  destruct (column field key batch) as [l'|e]; [|discriminate].
  constructor; [congruence | now apply (IH l')].
Qed.

Lemma column_nth {A : Type} (field : EmbedDoc -> option A) (key : string)
      (batch : list EmbedDoc) (l : list A) :
  column field key batch = Ok l ->
  forall k v, nth_error l k = Some v ->
              exists d, nth_error batch k = Some d /\ field d = Some v.
Proof.
  revert l. induction batch as [|d batch IH]; intros l H k v Hk; simpl in H.
  - inversion H; subst. destruct k; discriminate.
  - destruct (field d) as [x|] eqn:Hd; [|discriminate].
    destruct (column field key batch) as [l'|e]; [|discriminate].
    simpl in H. inversion H; subst. destruct k as [|k]; simpl in Hk.
    + inversion Hk; subst. exists d. split; [reflexivity | exact Hd].
    + exact (IH l' eq_refl k v Hk).
Qed.

Lemma batch_ids_length (clock : Clock) (readings i n : nat) :
  length (batch_ids clock readings i n) = n.
Proof. unfold batch_ids. now rewrite length_map, length_seq. Qed.

Lemma insert_batch_grows (policy : AddPolicy) (clock : Clock) (attempts i : nat)
      (batch : list EmbedDoc) (st : EmbedState) :
  exists added,
    collection (insert_batch policy clock attempts i batch st)
    = collection st ++ added
    /\ (length added <= length batch)%nat
    /\ Forall (fun ch => exists d, In d batch /\ stores d ch) added.
Proof.
  revert st. induction attempts as [|attempts IH]; intro st.
  - exists []. split; [now rewrite app_nil_r|]. split; [simpl; lia | constructor].
  - cbn [insert_batch].
    destruct (column document "document" batch) as [texts|e] eqn:Ht; [|apply IH].
    destruct (column metadata "metadata" batch) as [metadatas|e] eqn:Hm;
      [|apply IH].
    destruct (add policy (collection st) texts metadatas _) as [c'|e] eqn:Hadd.
    + apply add_grows in Hadd. rewrite batch_ids_length in Hadd.
      destruct Hadd as (added & Hc & Hlen & Hfrom).
      exists added. split; [exact Hc|]. split; [exact Hlen|].
      apply Forall_forall. intros ch Hin. rewrite Forall_forall in Hfrom.
      destruct (zip3_In _ _ _ _ (Hfrom ch Hin)) as (k & Hkt & Hkm).
      destruct (column_nth _ _ _ Ht _ Hkt) as (d & Hd & Hdoc).
      destruct (column_nth _ _ _ Hm _ Hkm) as (d' & Hd' & Hmeta).
      rewrite Hd in Hd'. inversion Hd'; subst d'.
      exists d. split; [exact (nth_error_In _ _ Hd) | split; assumption].
    + exact (IH {| collection := collection st;
                   readings := (readings st + length batch)%nat |}).
Qed.

Lemma insert_batch_incomplete (policy : AddPolicy) (clock : Clock)
      (attempts i : nat) (batch : list EmbedDoc) (st : EmbedState) :
  Exists incomplete batch ->
  insert_batch policy clock attempts i batch st = st.
Proof.
  intro Hbad. revert st. induction attempts as [|attempts IH]; intro st;
    [reflexivity|].
  cbn [insert_batch].
  destruct (column document "document" batch) as [texts|e] eqn:Ht; [|apply IH].
  destruct (column metadata "metadata" batch) as [metadatas|e] eqn:Hm; [|apply IH].
  exfalso. apply column_ok in Ht. apply column_ok in Hm.
  apply Exists_exists in Hbad. destruct Hbad as (d & Hin & [Hd|Hd]).
  - rewrite Forall_forall in Ht. exact (Ht d Hin Hd).
  - rewrite Forall_forall in Hm. exact (Hm d Hin Hd).
Qed.

Lemma insert_batches_grows (policy : AddPolicy) (clock : Clock) (n : nat) :
  forall (documents : list EmbedDoc) (i : nat) (st : EmbedState),
    (length documents <= n)%nat ->
    exists added,
      collection (insert_batches policy clock i documents st)
      = collection st ++ added
      /\ (length added <= length documents)%nat
      /\ Forall (fun ch => exists d, In d documents /\ stores d ch) added.
Proof.
  induction n as [|n IH]; intros documents i st Hlen.
  - destruct documents; [|simpl in Hlen; lia].
    exists []. split; [now rewrite app_nil_r|]. split; [simpl; lia | constructor].
  - destruct documents as [|d1 [|d2 rest]].
    + exists []. split; [now rewrite app_nil_r|]. split; [simpl; lia | constructor].
    + apply insert_batch_grows.
    + cbn [insert_batches].
      destruct (insert_batch_grows policy clock max_retries i [d1; d2] st)
        as (added1 & H1 & L1 & F1).
      destruct (IH rest (i + 2)%nat
                   (insert_batch policy clock max_retries i [d1; d2] st))
        as (added2 & H2 & L2 & F2); [simpl in Hlen; lia|].
      exists (added1 ++ added2). rewrite H2, H1, app_assoc.
      split; [reflexivity|]. split; [rewrite length_app; simpl in *; lia|].
      apply Forall_app. split.
      * eapply Forall_impl; [|exact F1]. intros ch (d & Hin & Hs).
        exists d. split; [|exact Hs].
        destruct Hin as [<-|[<-|[]]]; [now left | right; now left].
      * eapply Forall_impl; [|exact F2]. intros ch (d & Hin & Hs).
        exists d. split; [right; right; exact Hin | exact Hs].
Qed.

Lemma insert_batches_incomplete (policy : AddPolicy) (clock : Clock) (n : nat) :
  forall (documents : list EmbedDoc) (i : nat) (st : EmbedState),
    (length documents <= n)%nat ->
    Forall incomplete documents ->
    insert_batches policy clock i documents st = st.
Proof.
  induction n as [|n IH]; intros documents i st Hlen Hall.
  - destruct documents; [reflexivity | simpl in Hlen; lia].
  - destruct documents as [|d1 [|d2 rest]]; [reflexivity | |].
    + apply insert_batch_incomplete. left. exact (Forall_inv Hall).
    + cbn [insert_batches].
      rewrite insert_batch_incomplete by (left; exact (Forall_inv Hall)).
      apply IH; [simpl in Hlen; lia|].
      exact (Forall_inv_tail (Forall_inv_tail Hall)).
Qed.

(** The batches of an even number of leading entries are the same
    whatever follows. *)
Lemma insert_batches_app (policy : AddPolicy) (clock : Clock) (n : nat) :
  forall (pre post : list EmbedDoc) (i : nat) (st : EmbedState),
    (length pre <= n)%nat ->
    Nat.even (length pre) = true ->
    insert_batches policy clock i (pre ++ post) st
    = insert_batches policy clock (i + length pre) post
                     (insert_batches policy clock i pre st).
Proof.
  induction n as [|n IH]; intros pre post i st Hlen Heven.
  - destruct pre; [|simpl in Hlen; lia]. simpl. now rewrite Nat.add_0_r.
  - destruct pre as [|d1 [|d2 rest]].
    + simpl. now rewrite Nat.add_0_r.
    + discriminate.
    + cbn [app insert_batches length].
      rewrite IH by (simpl in *; first [lia | exact Heven]).
      f_equal. lia.
Qed.
End EmbedFacts.

(** X30. [embed_documents_endpoint] answers every request that carries
    a list of documents with status 200 and the message of success,
    whatever became of the documents. The collection only grows, by at
    most one chunk for each posted entry, and every new chunk carries the
    document and the metadata of a posted entry. The entries are stored
    two by two: a pair in which one entry lacks its [document] or its
    [metadata] key is dropped as a whole, the complete entry with it,
    wherever the pair stands in the list, and when every entry lacks a key
    nothing is stored at all. *)
Theorem embed_documents_reports_success_regardless :
  forall (policy : DocumentEmbedding.AddPolicy) (clock : Upload.Clock)
         (c : DocumentEmbedding.Collection) (documents : list Upload.EmbedDoc),
    let run := Upload.embed_documents_endpoint policy clock c (Some documents) in
    fst run = Routes.message_response 200 "Documents embedded successfully!"
    /\ (exists added,
           snd run = c ++ added
           /\ (length added <= length documents)%nat
           /\ Forall (fun ch => exists d, In d documents /\ Upload.stores d ch)
                     added)
    /\ (forall pre d1 d2 post,
           documents = pre ++ d1 :: d2 :: post ->
           Nat.even (length pre) = true ->
           Exists Upload.incomplete [d1; d2] ->
           exists added,
             snd run = c ++ added
             /\ (length added <= length pre + length post)%nat
             /\ Forall (fun ch => exists d, In d (pre ++ post)
                                           /\ Upload.stores d ch)
                       added)
    /\ (Forall Upload.incomplete documents -> snd run = c).
Proof.
  intros policy clock c documents. cbv zeta.
  unfold Upload.embed_documents_endpoint. cbn [fst snd].
  set (st := {| Upload.collection := c; Upload.readings := 0 |}).
  split; [reflexivity|]. split; [|split].
  - exact (@insert_batches_grows policy clock (length documents)
                                 documents 0%nat st (le_n _)).
  - intros pre d1 d2 post -> Heven Hbad.
    rewrite (@insert_batches_app policy clock (length pre) pre
                                 (d1 :: d2 :: post) 0%nat st (le_n _) Heven).
    cbn [Upload.insert_batches].
    rewrite (@insert_batch_incomplete policy clock Upload.max_retries
                                      (0 + length pre)%nat [d1; d2] _ Hbad).
    destruct (@insert_batches_grows policy clock (length pre) pre 0%nat st (le_n _))
      as (added1 & H1 & L1 & F1).
    destruct (@insert_batches_grows
                policy clock (length post) post (0 + length pre + 2)%nat
                (Upload.insert_batches policy clock 0 pre st) (le_n _))
      as (added2 & H2 & L2 & F2).
    exists (added1 ++ added2). rewrite H2, H1, app_assoc.
    split; [reflexivity|]. split; [rewrite length_app; lia|].
    apply Forall_app. split.
    + eapply Forall_impl; [|exact F1]. intros ch (d & Hin & Hs).
      exists d. split; [apply in_or_app; now left | exact Hs].
    + eapply Forall_impl; [|exact F2]. intros ch (d & Hin & Hs).
      exists d. split; [apply in_or_app; now right | exact Hs].
  - intro Hall.
    now rewrite (@insert_batches_incomplete policy clock (length documents)
                                            documents 0%nat st (le_n _) Hall).
Qed.

Lemma embed_documents_reports_success_regardless_witness :
  exists added,
    snd (Upload.embed_documents_endpoint
           DocumentEmbedding.IgnoreExisting (fun _ => 1700000000%Z) []
           (Some UploadSamples.posted))
    = [] ++ added
    /\ (length added <= 2 + 1)%nat
    /\ Forall (fun ch =>
                 exists d,
                   In d (firstn 2 UploadSamples.posted
                           ++ skipn 4 UploadSamples.posted)
                   /\ Upload.stores d ch)
              added.
Proof.
  apply (proj1 (proj2 (proj2 (embed_documents_reports_success_regardless
                                DocumentEmbedding.IgnoreExisting
                                (fun _ => 1700000000%Z) []
                                UploadSamples.posted)))
               (firstn 2 UploadSamples.posted)
               {| Upload.document := Some "third"%string;
                  Upload.metadata := Some [("source"%string, MStr "c.txt")] |}
               {| Upload.document := None;
                  Upload.metadata := Some [("source"%string, MStr "d.txt")] |}
               (skipn 4 UploadSamples.posted)).
  - reflexivity.
  - reflexivity.
  - right. left. left. reflexivity.
Defined.
